(** * CodeEx Analytics: the time-tracking server (server.js)

    A shallow embedding of the Express/Mongoose back end: the two Mongoose
    schemas, the token middleware, the login handlers, the request handlers
    that read or write time records and the ones that list, create and
    delete users, the admin bootstrap, and the utility functions
    [formatDuration] and [calculateProductivityScore]; with them the token
    handling of the front-end service (api.js).

    Conventions of the model.
    - A JavaScript [Date] is its time value: milliseconds since the epoch, in
      [Z]; [new Date(v)] on a number outside the range of Dates gives an
      Invalid Date. [toISOString] prints the UTC calendar; the local
      accessors ([getDay], [getDate], [setDate]) read the calendar of the
      server's time zone, which is a parameter of the handlers that use
      them.
    - A handler reads the clock several times ([new Date()], [Date.now()]);
      the model gives every read of one request the same instant [now].
    - JavaScript numbers that hold hours, and the difference of the two
      dates of a manual entry, are IEEE binary64 values ([spec_float] at
      precision 53), so that the model rounds what the server rounds.
    - A collection is the list of its documents in insertion order;
      [findOne] returns the first match, [find] all matches in that order.
    - A handler runs from its first query to its last write without another
      request in between: [exec] and [reachable] describe requests handled
      one after another.
    - A request carries the payload of a verified token (the [Caller]);
      verification itself is a parameter of the middleware. *)

From Stdlib Require Import ZArith List String Ascii Bool Lia DecimalString.
From Stdlib Require Import Sorting.Mergesort Sorting.Sorted Sorting.Permutation Orders.
From Stdlib Require Import Floats.SpecFloat.
From Stdlib Require DecimalPos DecimalZ.
From ExtLib Require Import Structures.Monad Structures.MonadState Structures.MonadExc.
From ExtLib Require Import Data.Monads.StateMonad Data.Monads.EitherMonad.
Import ListNotations.
Import MonadNotation.

Local Open Scope string_scope.
Local Open Scope Z_scope.

(** ** JavaScript built-ins used by the server *)

Module Js.

(** Number-to-string conversion of an integer-valued number (template
    literals, string concatenation). *)
Definition ToString (z : Z) : string := NilZero.string_of_int (Z.to_int z).

Fixpoint replicate (n : nat) (c : ascii) : string :=
  match n with
  | O => EmptyString
  | S k => String c (replicate k c)
  end.

(** [s.padStart(target, c)] for a one-character filler. *)
Definition padStart (target : nat) (c : ascii) (s : string) : string :=
  replicate (target - String.length s) c ++ s.

(** *** Numbers *)

Definition double : Set := spec_float.
Definition prec : Z := 53.
Definition emax : Z := 1024.

Definition ofZ (z : Z) : double := binary_normalize prec emax z 0 false.
Definition add : double -> double -> double := SFadd prec emax.
Definition sub : double -> double -> double := SFsub prec emax.
Definition mul : double -> double -> double := SFmul prec emax.
Definition div : double -> double -> double := SFdiv prec emax.

(** [Math.min(a, b)]. *)
Definition min (a b : double) : double :=
  match SFcompare a b with
  | Some Lt => a
  | Some Gt => b
  | Some Eq => match a with S754_zero true => a | _ => b end
  | None => S754_nan
  end.

(** [Math.floor(x)] as an integer; [None] for NaN and the infinities. *)
Definition floor (x : double) : option Z :=
  match x with
  | S754_zero _ => Some 0
  | S754_finite s m e =>
      Some (if 0 <=? e then cond_Zopp s (Zpos m) * 2 ^ e
            else cond_Zopp s (Zpos m) / 2 ^ (- e))
  | _ => None
  end.

(** [Math.round(x)]: the integer nearest to [x], ties towards +infinity. *)
Definition round (x : double) : double :=
  match x with
  | S754_finite s m e =>
      if 0 <=? e then x
      else
        let v := cond_Zopp s (Zpos m) in
        let n := (2 * v + 2 ^ (- e)) / 2 ^ (1 - e) in
        if n =? 0 then S754_zero s else ofZ n
  | _ => x
  end.

(** The integer nearest to ten times [m * 2^e], ties upwards. *)
Definition tenths (m : positive) (e : Z) : Z :=
  if 0 <=? e then 10 * Zpos m * 2 ^ e
  else (20 * Zpos m + 2 ^ (- e)) / 2 ^ (1 - e).

Definition atLeast1e21 (m : positive) (e : Z) : bool :=
  if 0 <=? e then 10 ^ 21 <=? Zpos m * 2 ^ e
  else 10 ^ 21 * 2 ^ (- e) <=? Zpos m.

(** [x.toFixed(1)]. [None] stands for the one case left out: a finite
    [x] of magnitude 10^21 or more, which JavaScript prints in exponent
    notation. *)
Definition toFixed1 (x : double) : option string :=
  match x with
  | S754_nan => Some "NaN"
  | S754_infinity false => Some "Infinity"
  | S754_infinity true => Some "-Infinity"
  | S754_zero _ => Some "0.0"
  | S754_finite s m e =>
      if atLeast1e21 m e then None
      else
        let n := tenths m e in
        Some ((if s then "-" else "") ++ ToString (n / 10) ++ "." ++ ToString (n mod 10))
  end.

(** *** Dates *)

Definition msPerDay : Z := 86400000.

(** Day number of a time value. *)
Definition Day (t : Z) : Z := t / msPerDay.

(** [new Date(v)] for a number [v] of milliseconds (TimeClip): [None] is
    the Invalid Date, which an unparsable string or a missing value gives
    as well. *)
Definition maxTime : Z := 8640000000000000.

Definition isValid (v : Z) : bool := Z.abs v <=? maxTime.

Definition newDate (v : Z) : option Z := if isValid v then Some v else None.

(** The time zone of the server: [LocalTZA(t, true)], the offset of local
    time at the UTC instant [t], and [LocalTZA(t, false)], the offset at the
    local time [t], in milliseconds. *)
Record TimeZone : Set := mkTimeZone {
  offsetAtUTC : Z -> Z;
  offsetAtLocal : Z -> Z
}.

(** A zone without daylight saving; [utc] is the one with offset zero. *)
Definition fixedOffset (ms : Z) : TimeZone := mkTimeZone (fun _ => ms) (fun _ => ms).

Definition utc : TimeZone := fixedOffset 0.

Definition LocalTime (tz : TimeZone) (t : Z) : Z := t + offsetAtUTC tz t.

Definition UTC (tz : TimeZone) (t : Z) : Z := t - offsetAtLocal tz t.

(** Weekday of a day number: 0 is Sunday, 1 is Monday, ..., 6 is Saturday. *)
Definition WeekDay (day : Z) : Z := (day + 4) mod 7.

(** [getDay()]: the weekday in the server's zone. *)
Definition getDay (tz : TimeZone) (t : Z) : Z := WeekDay (Day (LocalTime tz t)).

(** Year, month (1..12) and day of month (1..31) of a day number, in the
    proleptic Gregorian calendar. *)
Definition civil (days : Z) : Z * Z * Z :=
  let z := days + 719468 in
  let era := z / 146097 in
  let doe := z mod 146097 in
  let yoe := (doe - doe / 1460 + doe / 36524 - doe / 146096) / 365 in
  let doy := doe - (365 * yoe + yoe / 4 - yoe / 100) in
  let mp := (5 * doy + 2) / 153 in
  let d := doy - (153 * mp + 2) / 5 + 1 in
  let m := if mp <? 10 then mp + 3 else mp - 9 in
  let y := yoe + era * 400 + (if m <=? 2 then 1 else 0) in
  (y, m, d).

Definition pad (width : nat) (z : Z) : string :=
  padStart width "0"%char (ToString z).

(** The year of an ISO string: four digits, or a sign and six digits
    outside 0..9999. *)
Definition isoYear (y : Z) : string :=
  if (0 <=? y) && (y <=? 9999) then pad 4 y
  else (if y <? 0 then "-" else "+") ++ pad 6 (Z.abs y).

Definition isoDate (y m d : Z) : string :=
  isoYear y ++ "-" ++ pad 2 m ++ "-" ++ pad 2 d.

(** [new Date(t).toISOString().split('T')[0]]. *)
Definition toISODate (t : Z) : string :=
  let '(y, m, d) := civil (Day t) in isoDate y m d.

(** [d.setDate(k)]: in the server's zone, the same month and time of
    day on day [k] of the month (days outside the month roll over), taken
    back to UTC. *)
Definition setDate (tz : TimeZone) (t : Z) (k : Z) : Z :=
  let local := LocalTime tz t in
  let '(_, _, d) := civil (Day local) in
  UTC tz (local + (k - d) * msPerDay).

(** [getDate()]: day of the month in the server's zone. *)
Definition getDate (tz : TimeZone) (t : Z) : Z :=
  let '(_, _, d) := civil (Day (LocalTime tz t)) in d.

End Js.

(** ** The Mongoose schemas *)

Inductive Role : Set := admin | employee.

Definition Role_eqb (a b : Role) : bool :=
  match a, b with
  | admin, admin | employee, employee => true
  | _, _ => false
  end.

(** [userSchema]. *)
Module User.
Record t : Set := mk {
  id : string;
  firstName : string;
  lastName : string;
  email : string;
  password : string;
  role : Role;
  department : string;
  position : string;
  employeeId : string;
  createdAt : Z
}.

(** The [required: true] paths: a string path is missing when empty. *)
Definition valid (u : t) : bool :=
  negb (id u =? "")%string && negb (firstName u =? "")%string
  && negb (lastName u =? "")%string && negb (email u =? "")%string
  && negb (password u =? "")%string.

(** The [unique: true] indexes: [id], [email] and [employeeId]. *)
Definition clashes (u v : t) : bool :=
  (id u =? id v)%string || (email u =? email v)%string
  || (employeeId u =? employeeId v)%string.
End User.

(** [timeRecordSchema]. The optional paths [endTime], [duration] and
    [durationSeconds] are [None] while unset. *)
Module TimeRecord.
Record t : Set := mk {
  id : string;
  userId : string;
  userName : string;
  userEmail : string;
  project : string;
  task : string;
  startTime : Z;
  endTime : option Z;
  duration : option string;
  durationSeconds : option Z;
  isRunning : bool;
  isPaused : bool;
  isManual : bool;
  date : string;
  recordedAt : Z
}.

Definition valid (r : t) : bool :=
  negb (id r =? "")%string && negb (userId r =? "")%string
  && negb (userName r =? "")%string && negb (userEmail r =? "")%string
  && negb (project r =? "")%string && negb (task r =? "")%string
  && negb (date r =? "")%string.

(** Assignments made by the handlers to a document they loaded. *)
Definition set_isPaused (b : bool) (r : t) : t :=
  mk (id r) (userId r) (userName r) (userEmail r) (project r) (task r)
     (startTime r) (endTime r) (duration r) (durationSeconds r)
     (isRunning r) b (isManual r) (date r) (recordedAt r).

Definition set_stopped (e : Z) (d : string) (secs : Z) (r : t) : t :=
  mk (id r) (userId r) (userName r) (userEmail r) (project r) (task r)
     (startTime r) (Some e) (Some d) (Some secs)
     false (isPaused r) (isManual r) (date r) (recordedAt r).
End TimeRecord.

(** The database: the two collections. *)
Record Store : Set := mkStore {
  users : list User.t;
  timeRecords : list TimeRecord.t
}.

Definition emptyStore : Store := mkStore [] [].

(** The payload of a verified token, [req.user]. *)
Module Caller.
Record t : Set := mk { id : string; email : string; role : Role }.
End Caller.

(** What a handler answers when it does not succeed. [InternalError] is
    the [catch] branch (status 500): a thrown [TypeError], a failed schema
    validation or a duplicate key. *)
Inductive Failure : Set :=
| ForbiddenError      (* 403 'Access denied' *)
| ConflictError       (* 400 'Timer already running' *)
| EmailExistsError    (* 400 'Email already exists' *)
| NotFoundError       (* 404 'Timer not found' *)
| InternalError.      (* 500 *)

Definition statusCode (f : Failure) : Z :=
  match f with
  | ForbiddenError => 403
  | ConflictError | EmailExistsError => 400
  | NotFoundError => 404
  | InternalError => 500
  end.

(** ** Handlers as state-and-error computations over the store *)

#[local] Existing Instance Monad_stateT.

Definition Handler : Type -> Type := stateT Store (sum Failure).

Definition run {A : Type} (h : Handler A) (s : Store) : Failure + A * Store :=
  runStateT h s.

Local Open Scope monad_scope.

Section Collections.
Context {A : Type}.

(** First document satisfying [p], with its position in the collection
    (the position plays the part of [_id]). *)
Fixpoint findFrom (i : nat) (p : A -> bool) (l : list A) : option (nat * A) :=
  match l with
  | [] => None
  | x :: t => if p x then Some (i, x) else findFrom (S i) p t
  end.

Definition findFirst (p : A -> bool) (l : list A) : option (nat * A) :=
  findFrom 0 p l.

Fixpoint replaceAt (i : nat) (y : A) (l : list A) {struct l} : list A :=
  match l, i with
  | [], _ => []
  | _ :: t, O => y :: t
  | x :: t, S k => x :: replaceAt k y t
  end.

(** Remove the first document satisfying [p]. *)
Fixpoint removeFirst (p : A -> bool) (l : list A) : list A :=
  match l with
  | [] => []
  | x :: t => if p x then t else x :: removeFirst p t
  end.
End Collections.

Definition distinct (l : list string) : list string := nodup string_dec l.

(** [new Set(xs).size]. *)
Definition setSize (l : list string) : Z := Z.of_nat (List.length (distinct l)).

(** *** Model-level queries ([User.findOne], [TimeRecord.find], ...) *)

Definition User_findOne (p : User.t -> bool) : Handler (option User.t) :=
  s <- get ;; ret (List.find p (users s)).

Definition User_countDocuments (p : User.t -> bool) : Handler Z :=
  s <- get ;; ret (Z.of_nat (List.length (List.filter p (users s)))).

(** [new User(u).save()]. *)
Definition User_create (u : User.t) : Handler unit :=
  s <- get ;;
  if User.valid u && negb (List.existsb (User.clashes u) (users s))
  then put (mkStore (users s ++ [u])%list (timeRecords s))
  else raise InternalError.

Definition User_findOneAndDelete (p : User.t -> bool) : Handler unit :=
  s <- get ;; put (mkStore (removeFirst p (users s)) (timeRecords s)).

Definition TimeRecord_find (p : TimeRecord.t -> bool) : Handler (list TimeRecord.t) :=
  s <- get ;; ret (List.filter p (timeRecords s)).

Definition TimeRecord_findOne (p : TimeRecord.t -> bool)
  : Handler (option (nat * TimeRecord.t)) :=
  s <- get ;; ret (findFirst p (timeRecords s)).

Definition TimeRecord_countDocuments (p : TimeRecord.t -> bool) : Handler Z :=
  s <- get ;; ret (Z.of_nat (List.length (List.filter p (timeRecords s)))).

(** [new TimeRecord(r).save()]: validation, then the insert under the
    unique index on [id]. *)
Definition TimeRecord_create (r : TimeRecord.t) : Handler unit :=
  s <- get ;;
  if TimeRecord.valid r
     && negb (List.existsb (fun x => (TimeRecord.id x =? TimeRecord.id r)%string)
                           (timeRecords s))
  then put (mkStore (users s) (timeRecords s ++ [r])%list)
  else raise InternalError.

(** [timer.save()] on a document loaded from position [i]. *)
Definition TimeRecord_save (i : nat) (r : TimeRecord.t) : Handler unit :=
  s <- get ;; put (mkStore (users s) (replaceAt i r (timeRecords s))).

Definition TimeRecord_deleteMany (p : TimeRecord.t -> bool) : Handler unit :=
  s <- get ;;
  put (mkStore (users s) (List.filter (fun r => negb (p r)) (timeRecords s))).


(** ** Utility functions *)

(** [formatDuration(totalSeconds)]. [%] is JavaScript's remainder, which
    takes the sign of the dividend ([Z.rem]); [Math.floor] of a quotient is
    [Z.div]. *)
Definition formatDuration (totalSeconds : Z) : string :=
  let hours := totalSeconds / 3600 in
  let minutes := Z.rem totalSeconds 3600 / 60 in
  let seconds := Z.rem totalSeconds 60 in
  if 0 <? hours then Js.ToString hours ++ "h " ++ Js.ToString minutes ++ "m"
  else if 0 <? minutes then Js.ToString minutes ++ "m " ++ Js.ToString seconds ++ "s"
  else Js.ToString seconds ++ "s".

(** [r.durationSeconds || 0]. *)
Definition secondsOrZero (r : TimeRecord.t) : Z :=
  match TimeRecord.durationSeconds r with
  | Some z => z
  | None => 0
  end.

(** [records.reduce((sum, r) => sum + (r.durationSeconds || 0), 0)]. *)
Definition totalSeconds (records : list TimeRecord.t) : Js.double :=
  fold_left (fun sum r => Js.add sum (Js.ofZ (secondsOrZero r))) records (Js.ofZ 0).

(** [records.reduce(...) / 3600]. *)
Definition totalHours (records : list TimeRecord.t) : Js.double :=
  Js.div (totalSeconds records) (Js.ofZ 3600).

Definition calculateProductivityScore (weekRecords : list TimeRecord.t) : Js.double :=
  let targetHours := Js.ofZ 40 in
  let score :=
    Js.min (Js.mul (Js.div (totalHours weekRecords) targetHours) (Js.ofZ 100))
           (Js.ofZ 100) in
  Js.round score.

(** ** Queries on time records *)

Inductive DateCond : Set :=
| AnyDate
| DateIs (d : string)         (* query.date = d *)
| DateGte (d : string).       (* query.date = { $gte: d } *)

(** A Mongo query object on [TimeRecord], with its optional keys. *)
Record Query : Set := mkQuery {
  q_isRunning : option bool;
  q_date : DateCond;
  q_userId : option string;
  q_project : option string
}.

Definition optMatches (key : option string) (v : string) : bool :=
  match key with
  | Some k => (v =? k)%string
  | None => true
  end.

Definition dateMatches (c : DateCond) (d : string) : bool :=
  match c with
  | AnyDate => true
  | DateIs x => (d =? x)%string
  | DateGte x => (x <=? d)%string
  end.

Definition matches (q : Query) (r : TimeRecord.t) : bool :=
  match q_isRunning q with
  | Some b => Bool.eqb (TimeRecord.isRunning r) b
  | None => true
  end
  && dateMatches (q_date q) (TimeRecord.date r)
  && optMatches (q_userId q) (TimeRecord.userId r)
  && optMatches (q_project q) (TimeRecord.project r).

(** [startOfWeek.setDate(startOfWeek.getDate() - startOfWeek.getDay() + 1)]. *)
Definition startOfWeek (tz : Js.TimeZone) (now : Z) : Z :=
  Js.setDate tz now (Js.getDate tz now - Js.getDay tz now + 1).

(** [startOfMonth.setDate(1)]. *)
Definition startOfMonth (tz : Js.TimeZone) (now : Z) : Z := Js.setDate tz now 1.

(** The [dateRange] branches shared by both record listings. *)
Definition dateRangeCond (tz : Js.TimeZone) (dateRange : option string) (now : Z)
  : DateCond :=
  match dateRange with
  | Some range =>
      if (range =? "today")%string then DateIs (Js.toISODate now)
      else if (range =? "week")%string then DateGte (Js.toISODate (startOfWeek tz now))
      else if (range =? "month")%string then DateGte (Js.toISODate (startOfMonth tz now))
      else AnyDate
  | None => AnyDate
  end.

(** [x && x !== 'all'] selects a filter value. *)
Definition selected (x : option string) : option string :=
  match x with
  | Some v => if (v =? "")%string || (v =? "all")%string then None else Some v
  | None => None
  end.

(** [.sort({ startTime: -1 })]: newest first. *)
Module NewestFirst <: Orders.TotalLeBool.
Definition t : Type := TimeRecord.t.
Definition leb (a b : t) : bool := TimeRecord.startTime b <=? TimeRecord.startTime a.
Lemma leb_total : forall a b, leb a b = true \/ leb b a = true.
Proof. intros a b. unfold leb. rewrite !Z.leb_le. lia. Qed.
End NewestFirst.

Module ByStartTime := Sort NewestFirst.

Definition sortNewestFirst (l : list TimeRecord.t) : list TimeRecord.t :=
  ByStartTime.sort l.

(** ** Admin endpoints *)

(** [if (req.user.role !== 'admin') return res.status(403)...]. *)
Definition requireAdmin (c : Caller.t) : Handler unit :=
  match Caller.role c with
  | admin => ret tt
  | employee => raise ForbiddenError
  end.

(** POST /api/admin/employees *)

Definition newEmployee (firstName lastName email password : string)
    (department position : option string) (employeeId : string) (now : Z) : User.t :=
  User.mk ("emp_" ++ Js.ToString now) firstName lastName email password
          employee
          (match department with Some d => d | None => "General" end)
          (match position with Some p => p | None => "" end)
          employeeId now.

Definition addEmployee (c : Caller.t)
    (firstName lastName email password : string)
    (department position : option string) (now : Z) : Handler User.t :=
  requireAdmin c ;;
  existingUser <- User_findOne (fun u => (User.email u =? email)%string) ;;
  match existingUser with
  | Some _ => raise EmailExistsError
  | None =>
      employeeCount <- User_countDocuments (fun u => Role_eqb (User.role u) employee) ;;
      let employeeId := "EMP" ++ Js.padStart 3 "0"%char (Js.ToString (employeeCount + 1)) in
      let employee :=
        newEmployee firstName lastName email password department position
                    employeeId now in
      User_create employee ;;
      ret employee
  end.

(** DELETE /api/admin/employees/:id *)
Definition deleteEmployee (c : Caller.t) (id : string) : Handler unit :=
  requireAdmin c ;;
  User_findOneAndDelete (fun u => (User.id u =? id)%string) ;;
  TimeRecord_deleteMany (fun r => (TimeRecord.userId r =? id)%string).

(** GET /api/admin/records *)
Definition adminRecordsQuery (tz : Js.TimeZone)
    (dateRange employeeId project : option string) (now : Z) : Query :=
  mkQuery (Some false) (dateRangeCond tz dateRange now)
          (selected employeeId) (selected project).

Definition adminRecords (tz : Js.TimeZone) (c : Caller.t)
    (dateRange employeeId project : option string) (now : Z)
  : Handler (list TimeRecord.t) :=
  requireAdmin c ;;
  records <- TimeRecord_find
               (matches (adminRecordsQuery tz dateRange employeeId project now)) ;;
  ret (firstn 100 (sortNewestFirst records)).

(** The body of GET /api/admin/dashboard/stats. *)
Module AdminStats.
Record t : Set := mk {
  totalHoursToday : option string;
  weeklyTotal : option string;
  activeTimersNow : Z;
  daysThisWeek : Z;
  totalTeamMembers : Z;
  activeToday : Z;
  avgHoursPerDay : option string
}.

(** Property names of the object sent by [res.json(stats)]. *)
Definition keys : list string :=
  ["totalHoursToday"; "weeklyTotal"; "activeTimersNow"; "daysThisWeek";
   "totalTeamMembers"; "activeToday"; "avgHoursPerDay"].
End AdminStats.

Definition todayQuery (userId : option string) (now : Z) : Query :=
  mkQuery (Some false) (DateIs (Js.toISODate now)) userId None.

Definition weekQuery (tz : Js.TimeZone) (userId : option string) (now : Z) : Query :=
  mkQuery (Some false) (DateGte (Js.toISODate (startOfWeek tz now))) userId None.

Definition runningQuery (userId : option string) : Query :=
  mkQuery (Some true) AnyDate userId None.

Definition adminStats (tz : Js.TimeZone) (c : Caller.t) (now : Z)
  : Handler AdminStats.t :=
  requireAdmin c ;;
  todayRecords <- TimeRecord_find (matches (todayQuery None now)) ;;
  weekRecords <- TimeRecord_find (matches (weekQuery tz None now)) ;;
  activeTimers <- TimeRecord_countDocuments (matches (runningQuery None)) ;;
  totalEmployees <- User_countDocuments (fun u => Role_eqb (User.role u) employee) ;;
  let employeesActiveToday := setSize (map TimeRecord.userId todayRecords) in
  ret (AdminStats.mk
         (Js.toFixed1 (totalHours todayRecords))
         (Js.toFixed1 (totalHours weekRecords))
         activeTimers
         (setSize (map TimeRecord.date weekRecords))
         totalEmployees
         employeesActiveToday
         (Js.toFixed1
            (Js.div (totalHours weekRecords)
                    (Js.ofZ (Z.max 1 (setSize (map TimeRecord.date weekRecords))))))).

(** ** Employee endpoints *)

(** GET /api/employee/records *)
Definition employeeRecordsQuery (tz : Js.TimeZone) (c : Caller.t)
    (dateRange project : option string) (now : Z) : Query :=
  mkQuery (Some false) (dateRangeCond tz dateRange now)
          (Some (Caller.id c)) (selected project).

Definition employeeRecords (tz : Js.TimeZone) (c : Caller.t)
    (dateRange project : option string) (now : Z) : Handler (list TimeRecord.t) :=
  records <- TimeRecord_find
               (matches (employeeRecordsQuery tz c dateRange project now)) ;;
  ret (sortNewestFirst records).

(** POST /api/employee/timer/start *)

(** The document built by [new TimeRecord({...})] in the start handler;
    the paths it leaves out take their schema defaults. *)
Definition newTimer (c : Caller.t) (user : User.t) (project task : string)
    (now : Z) : TimeRecord.t :=
  TimeRecord.mk ("timer_" ++ Js.ToString now) (Caller.id c)
    (User.firstName user ++ " " ++ User.lastName user) (User.email user)
    project task now None None None
    true false false (Js.toISODate now) now.

Definition startTimer (c : Caller.t) (project task : string) (now : Z)
  : Handler TimeRecord.t :=
  existingTimer <- TimeRecord_findOne (matches (runningQuery (Some (Caller.id c)))) ;;
  match existingTimer with
  | Some _ => raise ConflictError
  | None =>
      user <- User_findOne (fun u => (User.id u =? Caller.id c)%string) ;;
      match user with
      | None => raise InternalError      (* TypeError: user is null *)
      | Some user =>
          let timer := newTimer c user project task now in
          TimeRecord_create timer ;;
          ret timer
      end
  end.

Definition ownedBy (id userId : string) (r : TimeRecord.t) : bool :=
  (TimeRecord.id r =? id)%string && (TimeRecord.userId r =? userId)%string.

(** POST /api/employee/timer/stop/:id *)
Definition stopTimer (c : Caller.t) (id : string) (now : Z) : Handler TimeRecord.t :=
  found <- TimeRecord_findOne (ownedBy id (Caller.id c)) ;;
  match found with
  | None => raise NotFoundError
  | Some (i, timer) =>
      let endTime := now in
      let durationSeconds := (endTime - TimeRecord.startTime timer) / 1000 in
      let timer := TimeRecord.set_stopped endTime (formatDuration durationSeconds)
                                          durationSeconds timer in
      TimeRecord_save i timer ;;
      ret timer
  end.

(** POST /api/employee/timer/pause/:id *)
Definition pauseTimer (c : Caller.t) (id : string) (action : string)
  : Handler TimeRecord.t :=
  found <- TimeRecord_findOne (ownedBy id (Caller.id c)) ;;
  match found with
  | None => raise NotFoundError
  | Some (i, timer) =>
      let timer :=
        if (action =? "pause")%string then TimeRecord.set_isPaused true timer
        else if (action =? "resume")%string then TimeRecord.set_isPaused false timer
        else timer in
      TimeRecord_save i timer ;;
      ret timer
  end.

(** The record a stop writes back. *)
Definition stopped (now : Z) (timer : TimeRecord.t) : TimeRecord.t :=
  let durationSeconds := (now - TimeRecord.startTime timer) / 1000 in
  TimeRecord.set_stopped now (formatDuration durationSeconds) durationSeconds timer.

(** The record a pause request writes back. *)
Definition toggled (action : string) (timer : TimeRecord.t) : TimeRecord.t :=
  if (action =? "pause")%string then TimeRecord.set_isPaused true timer
  else if (action =? "resume")%string then TimeRecord.set_isPaused false timer
  else timer.

(** POST /api/employee/records/manual *)

(** The document built by [new TimeRecord({...})] in the manual-entry
    handler. *)
Definition newRecord (c : Caller.t) (user : User.t) (project task : string)
    (startTime endTime durationSeconds : Z) (now : Z) : TimeRecord.t :=
  TimeRecord.mk ("manual_" ++ Js.ToString now) (Caller.id c)
    (User.firstName user ++ " " ++ User.lastName user) (User.email user)
    project task startTime (Some endTime)
    (Some (formatDuration durationSeconds)) (Some durationSeconds)
    false false true (Js.toISODate startTime) now.

(** [Math.floor((end - start) / 1000)] on the time values of two valid
    Dates, in binary64 as the server computes it. *)
Definition elapsedSeconds (startTime endTime : Z) : option Z :=
  Js.floor (Js.div (Js.sub (Js.ofZ endTime) (Js.ofZ startTime)) (Js.ofZ 1000)).

(** [startTime] and [endTime] are the numbers the body gives to
    [new Date(...)]. With an Invalid Date the handler ends in its [catch]
    branch: [toISOString] throws on the start, and the schema refuses to
    cast the end (and the NaN duration). *)
Definition manualEntry (c : Caller.t) (project task : string)
    (startTime endTime : Z) (now : Z) : Handler TimeRecord.t :=
  user <- User_findOne (fun u => (User.id u =? Caller.id c)%string) ;;
  match user with
  | None => raise InternalError      (* TypeError: user is null *)
  | Some user =>
      match Js.newDate startTime, Js.newDate endTime with
      | Some start, Some end_ =>
          match elapsedSeconds start end_ with
          | Some durationSeconds =>
              let record :=
                newRecord c user project task start end_ durationSeconds now in
              TimeRecord_create record ;;
              ret record
          | None => raise InternalError
          end
      | _, _ => raise InternalError    (* RangeError: Invalid time value *)
      end
  end.

(** The body of GET /api/employee/dashboard/stats. *)
Module EmployeeStats.
Record t : Set := mk {
  todayHours : option string;
  todaySessions : Z;
  weeklyTotal : option string;
  daysThisWeek : Z;
  currentStatus : string;
  statusDetail : string;
  productivityScore : Js.double
}.

Definition keys : list string :=
  ["todayHours"; "todaySessions"; "weeklyTotal"; "daysThisWeek";
   "currentStatus"; "statusDetail"; "productivityScore"].
End EmployeeStats.

Definition employeeStats (tz : Js.TimeZone) (c : Caller.t) (now : Z)
  : Handler EmployeeStats.t :=
  todayRecords <- TimeRecord_find (matches (todayQuery (Some (Caller.id c)) now)) ;;
  weekRecords <- TimeRecord_find (matches (weekQuery tz (Some (Caller.id c)) now)) ;;
  activeTimer <- TimeRecord_findOne (matches (runningQuery (Some (Caller.id c)))) ;;
  ret (EmployeeStats.mk
         (Js.toFixed1 (totalHours todayRecords))
         (Z.of_nat (List.length todayRecords))
         (Js.toFixed1 (totalHours weekRecords))
         (setSize (map TimeRecord.date weekRecords))
         (match activeTimer with
          | Some (_, t) => if TimeRecord.isPaused t then "Paused" else "Working"
          | None => "Not Working"
          end)
         (match activeTimer with
          | Some (_, t) => "On: " ++ TimeRecord.task t
          | None => "Ready to start tracking"
          end)
         (calculateProductivityScore weekRecords)).

(** ** Initialization *)

Definition initialAdmin (now : Z) : User.t :=
  User.mk "admin_001" "Admin" "User" "admin@codeexanalytics.com" "admin123"
          admin "Administration" "System Administrator" "ADM001" now.

(** [initializeAdmin()]: a failure is logged and swallowed. *)
Definition initializeAdmin (now : Z) : Handler unit :=
  adminExists <- User_findOne (fun u => Role_eqb (User.role u) admin) ;;
  match adminExists with
  | Some _ => ret tt
  | None => catch (User_create (initialAdmin now)) (fun _ => ret tt)
  end.

(** ** The record state machine and the reachable stores *)

(** The states of section 4.2 of the spec, read off the two flags the way
    the employee dashboard reads them: a record found by [isRunning: true]
    is 'Paused' or 'Working' according to [isPaused]; any other record is
    closed. *)
Inductive TimerState : Set := Running | Paused | Stopped.

Definition stateOf (r : TimeRecord.t) : TimerState :=
  if TimeRecord.isRunning r then
    if TimeRecord.isPaused r then Paused else Running
  else Stopped.

(** The requests that write to the store. *)
Inductive Request : Set :=
| Boot
| AddEmployee (c : Caller.t) (firstName lastName email password : string)
              (department position : option string)
| DeleteEmployee (c : Caller.t) (id : string)
| StartTimer (c : Caller.t) (project task : string)
| StopTimer (c : Caller.t) (id : string)
| PauseTimer (c : Caller.t) (id action : string)
| ManualEntry (c : Caller.t) (project task : string) (startTime endTime : Z).

(** The store a handler leaves behind when no other request is served
    before it ends; a failed handler wrote nothing. *)
Definition after {A : Type} (h : Handler A) (s : Store) : Store :=
  match run h s with
  | inr (_, s') => s'
  | inl _ => s
  end.

Definition exec (req : Request) (now : Z) (s : Store) : Store :=
  match req with
  | Boot => after (initializeAdmin now) s
  | AddEmployee c f l e p d q => after (addEmployee c f l e p d q now) s
  | DeleteEmployee c id => after (deleteEmployee c id) s
  | StartTimer c p t => after (startTimer c p t now) s
  | StopTimer c id => after (stopTimer c id now) s
  | PauseTimer c id a => after (pauseTimer c id a) s
  | ManualEntry c p t st et => after (manualEntry c p t st et now) s
  end.

(** The stores that requests handled one after another lead to. The
    [await]s inside a handler are not points of interleaving here; what two
    start requests at once can do is described with [startTimer_check] and
    [startTimer_resume]. *)
Inductive reachable : Store -> Prop :=
| reachable_empty : reachable emptyStore
| reachable_exec : forall s req now, reachable s -> reachable (exec req now s).

(** Replaying a trace of timed requests from the empty store. *)
Definition replay (trace : list (Request * Z)) : Store :=
  fold_left (fun s rq => exec (fst rq) (snd rq) s) trace emptyStore.

(** Records a user owns, and the ones still open (Running or Paused). *)
Definition owned (userId : string) (s : Store) : list TimeRecord.t :=
  List.filter (fun r => (TimeRecord.userId r =? userId)%string) (timeRecords s).

Definition others (userId : string) (s : Store) : list TimeRecord.t :=
  List.filter (fun r => negb (TimeRecord.userId r =? userId)%string) (timeRecords s).

Definition activeOf (userId : string) (s : Store) : list TimeRecord.t :=
  List.filter TimeRecord.isRunning (owned userId s).

(** Both unique indexes hold. *)
Definition uniqueIds (s : Store) : Prop :=
  NoDup (map User.id (users s)) /\ NoDup (map TimeRecord.id (timeRecords s)).

(** What creating a record asks of the request and the store: the token
    names a user document (with the email the record copies), project and
    task are present, and no record carries the id about to be generated. *)
Definition canCreate (c : Caller.t) (project task newId : string) (s : Store) : bool :=
  negb (Caller.id c =? "")%string && negb (project =? "")%string
  && negb (task =? "")%string
  && match List.find (fun u => (User.id u =? Caller.id c)%string) (users s) with
     | Some u => negb (User.email u =? "")%string
     | None => false
     end
  && negb (List.existsb (fun r => (TimeRecord.id r =? newId)%string) (timeRecords s)).

(** ** Sample data *)

Definition root : Caller.t := Caller.mk "admin_001" "admin@codeexanalytics.com" admin.
Definition ada : Caller.t := Caller.mk "emp_2000" "ada@example.com" employee.
Definition bob : Caller.t := Caller.mk "emp_3000" "bob@example.com" employee.

(** A booted server with two employees. *)
Definition office : Store :=
  replay [(Boot, 1000);
          (AddEmployee root "Ada" "Lovelace" "ada@example.com" "pw" None None, 2000);
          (AddEmployee root "Bob" "Babbage" "bob@example.com" "pw" (Some "R&D") None, 3000)].

(** ** The duration codec, decoding side *)

Inductive Bucket : Set := Hours | Minutes | Seconds.

(** The boundary classification of a number of seconds. *)
Definition bucketOf (s : Z) : Bucket :=
  if 3600 <=? s then Hours else if 60 <=? s then Minutes else Seconds.

Definition isDigit (c : ascii) : bool :=
  ((48 <=? N_of_ascii c) && (N_of_ascii c <=? 57))%N.

Fixpoint skipDigits (s : string) : string :=
  match s with
  | String c rest => if isDigit c then skipDigits rest else s
  | EmptyString => s
  end.

(** Modelled from the spec: the decoding direction of the Duration Codec
    ("parse"), which server.js does not contain. It classifies a rendered
    duration by the unit letter that follows its leading number. *)
Definition parseBucket (s : string) : option Bucket :=
  match skipDigits s with
  | String "h" _ => Some Hours
  | String "m" _ => Some Minutes
  | String "s" _ => Some Seconds
  | _ => None
  end.

(** ** Invariants under study *)

(** "isPaused = true implies isRunning = true", for every record. *)
Definition flagsConsistent (s : Store) : Prop :=
  forall r, In r (timeRecords s) ->
            TimeRecord.isPaused r = true -> TimeRecord.isRunning r = true.

(** A request that respects the state machine of section 4.2: it does not
    pause a record that is already stopped, nor stop one that is paused. *)
Definition respectsState (req : Request) (s : Store) : bool :=
  match req with
  | PauseTimer c id action =>
      match findFirst (ownedBy id (Caller.id c)) (timeRecords s) with
      | Some (_, timer) => negb (action =? "pause")%string || TimeRecord.isRunning timer
      | None => true
      end
  | StopTimer c id =>
      match findFirst (ownedBy id (Caller.id c)) (timeRecords s) with
      | Some (_, timer) => negb (TimeRecord.isPaused timer)
      | None => true
      end
  | _ => true
  end.

(** The three closing paths are unset. *)
Definition unclosed (r : TimeRecord.t) : Prop :=
  TimeRecord.endTime r = None /\ TimeRecord.duration r = None
  /\ TimeRecord.durationSeconds r = None.

(** ** More sample data *)

(** Ada logs, at 00:00:04, a manual entry that starts at 00:01:00. *)
Definition earlyBird : Store :=
  exec (ManualEntry ada "Compiler" "Parser" 60000 120000) 4000 office.

(** Ada starts a timer, pauses it, then stops it. *)
Definition pausedThenStopped : Store :=
  replay [(Boot, 1000);
          (AddEmployee root "Ada" "Lovelace" "ada@example.com" "pw" None None, 2000);
          (StartTimer ada "Compiler" "Parser", 5000);
          (PauseTimer ada "timer_5000" "pause", 6000);
          (StopTimer ada "timer_5000", 9000)].

(** ** The week of an instant *)

(** Weekday index counted from Monday, in the server's zone: 0 is Monday,
    ..., 6 is Sunday. *)
Definition weekdayFromMonday (tz : Js.TimeZone) (now : Z) : Z :=
  (Js.getDay tz now + 6) mod 7.

(** The spec's start of week: the current date minus the weekday index
    counted from Monday. The days are taken off the server's local time,
    and the result is the instant that has that local time. *)
Definition mondayOf (tz : Js.TimeZone) (now : Z) : Z :=
  Js.UTC tz (Js.LocalTime tz now - weekdayFromMonday tz now * Js.msPerDay).

(** Stopped records dated on or after the date [toISOString] prints for
    the start of week of [now], of everyone ([None]) or of one user. *)
Definition weekWindow (tz : Js.TimeZone) (userId : option string) (now : Z) (s : Store)
  : list TimeRecord.t :=
  List.filter
    (fun r => negb (TimeRecord.isRunning r)
              && (Js.toISODate (mondayOf tz now) <=? TimeRecord.date r)%string
              && optMatches userId (TimeRecord.userId r))
    (timeRecords s).

(** The sum of the durations of the records that have one, and the sum of
    their magnitudes. *)
Fixpoint sumDurations (l : list TimeRecord.t) : Z :=
  match l with
  | [] => 0
  | r :: rest =>
      match TimeRecord.durationSeconds r with
      | Some d => d + sumDurations rest
      | None => sumDurations rest
      end
  end.

Fixpoint sumMagnitudes (l : list TimeRecord.t) : Z :=
  match l with
  | [] => 0
  | r :: rest =>
      match TimeRecord.durationSeconds r with
      | Some d => Z.abs d + sumMagnitudes rest
      | None => sumMagnitudes rest
      end
  end.

(** Three one-hour entries by Ada on Monday 1, Wednesday 3 and Friday 5
    January 2024, from 09:00 to 10:00, logged on the Friday at 17:00. *)
Definition jan1 : Z := 19723 * Js.msPerDay.

Definition threeDays : Store :=
  replay [(Boot, 1000);
          (AddEmployee root "Ada" "Lovelace" "ada@example.com" "pw" None None, 2000);
          (ManualEntry ada "Compiler" "Parser"
                       (jan1 + 32400000) (jan1 + 36000000),
           jan1 + 4 * Js.msPerDay + 61200000);
          (ManualEntry ada "Compiler" "Lexer"
                       (jan1 + 2 * Js.msPerDay + 32400000) (jan1 + 2 * Js.msPerDay + 36000000),
           jan1 + 4 * Js.msPerDay + 61200001);
          (ManualEntry ada "Compiler" "Printer"
                       (jan1 + 4 * Js.msPerDay + 32400000) (jan1 + 4 * Js.msPerDay + 36000000),
           jan1 + 4 * Js.msPerDay + 61200002)].

(** Sunday 7 January 2024, noon. *)
Definition sundayNoon : Z := jan1 + 6 * Js.msPerDay + 43200000.

(** ** Views of the store used in the statements *)

(** The records that are not running. *)
Definition closedRecords (s : Store) : list TimeRecord.t :=
  List.filter (fun r => negb (TimeRecord.isRunning r)) (timeRecords s).

(** Newest first: the start times never increase along the list. *)
Definition newestFirst (l : list TimeRecord.t) : Prop :=
  StronglySorted (fun a b => TimeRecord.startTime b <= TimeRecord.startTime a) l.

(** Apply [f] to the first element satisfying [p]. *)
Fixpoint amendFirst {A : Type} (p : A -> bool) (f : A -> A) (l : list A) : list A :=
  match l with
  | [] => []
  | x :: t => if p x then f x :: t else x :: amendFirst p f t
  end.

(** What the client is sent: the failure, or the body of the response. *)
Definition answer {A : Type} (x : Failure + A * Store) : Failure + A :=
  match x with
  | inl e => inl e
  | inr (a, _) => inr a
  end.

(** Bob tracks time too: Ada's view of the two stores is the same. *)
Definition withBob : Store :=
  exec (ManualEntry bob "Engine" "Gears" (jan1 + 32400000) (jan1 + 39600000))
       (jan1 + 4 * Js.msPerDay + 61200003)
       (exec (AddEmployee root "Bob" "Babbage" "bob@example.com" "pw" (Some "R&D") None)
             3000 threeDays).

(** Ada logs 101 one-second entries on 1 January 2024. *)
Definition busyDay : Store :=
  fold_left
    (fun s k => exec (ManualEntry ada "Compiler" "Parser" (jan1 + k) (jan1 + k + 1000))
                     (jan1 + k) s)
    (map Z.of_nat (seq 1 101)) office.

(** ** Authentication *)

(** [s.split(c)] for a one-character separator: the pieces between the
    separators, empty pieces included. *)
Fixpoint split (sep : ascii) (s : string) : list string :=
  match s with
  | EmptyString => [EmptyString]
  | String c rest =>
      let parts := split sep rest in
      if Ascii.eqb c sep then EmptyString :: parts
      else match parts with
           | p :: ps => String c p :: ps
           | [] => [String c EmptyString]
           end
  end.

(** [authHeader && authHeader.split(' ')[1]]. *)
Definition tokenOfHeader (authHeader : option string) : option string :=
  match authHeader with
  | Some h => nth_error (split " "%char h) 1
  | None => None
  end.

(** What the middleware does with a request. *)
Inductive AuthResult : Set :=
| Status401
| Status403
| Next (user : Caller.t).

Section Middleware.

(** [jwt.verify(token, JWT_SECRET, ...)]: the payload of a token the
    library accepts. *)
Variable verify : string -> option Caller.t.

(** [authenticateToken]. *)
Definition authenticateToken (authHeader : option string) : AuthResult :=
  match tokenOfHeader authHeader with
  | None => Status401
  | Some token =>
      if (token =? "")%string then Status401
      else match verify token with
           | None => Status403
           | Some user => Next user
           end
  end.

End Middleware.

(** The [user] object of a login response. *)
Module Profile.
Record t : Set := mk {
  id : string;
  firstName : string;
  lastName : string;
  email : string;
  role : Role;
  department : string;
  position : string;
  employeeId : string
}.
End Profile.

Definition profileOf (u : User.t) : Profile.t :=
  Profile.mk (User.id u) (User.firstName u) (User.lastName u) (User.email u)
             (User.role u) (User.department u) (User.position u) (User.employeeId u).

(** The payload given to [jwt.sign]. *)
Definition payloadOf (u : User.t) : Caller.t :=
  Caller.mk (User.id u) (User.email u) (User.role u).

Inductive LoginFailure : Set :=
| AccountNotFound     (* 404 'Admin account not found' / 'Employee account not found' *)
| InvalidPassword.    (* 401 'Invalid password' *)

(** POST /api/admin/login and POST /api/employee/login differ in the role
    of the lookup only. They do not write; the signed token is stood for by
    its payload. *)
Definition login (as_ : Role) (email password : string) (s : Store)
  : LoginFailure + Caller.t * Profile.t :=
  match List.find (fun u => (User.email u =? email)%string && Role_eqb (User.role u) as_)
                  (users s) with
  | None => inl AccountNotFound
  | Some user =>
      let validPassword := (User.password user =? password)%string in
      if validPassword then inr (payloadOf user, profileOf user)
      else inl InvalidPassword
  end.

Definition adminLogin : string -> string -> Store -> LoginFailure + Caller.t * Profile.t :=
  login admin.

Definition employeeLogin : string -> string -> Store -> LoginFailure + Caller.t * Profile.t :=
  login employee.

(** ** The employee list *)

Definition User_find (p : User.t -> bool) : Handler (list User.t) :=
  s <- get ;; ret (List.filter p (users s)).

(** GET /api/admin/employees *)
Definition getEmployees (c : Caller.t) : Handler (list User.t) :=
  requireAdmin c ;;
  User_find (fun u => Role_eqb (User.role u) employee).

(** ** The front-end service (api.js) *)

Module ApiService.

(** [localStorage]. *)
Definition Storage : Type := string -> option string.

Definition setItem (key value : string) (st : Storage) : Storage :=
  fun k => if (k =? key)%string then Some value else st k.

Definition removeItem (key : string) (st : Storage) : Storage :=
  fun k => if (k =? key)%string then None else st k.

(** The two fields: [token] is a string or [null]; [currentUser] is an
    object or [null], stood for by its JSON text. *)
Record t : Set := mk { token : option string; currentUser : option string }.

(** [x || fallback] on a stored item: a missing or empty item is falsy. *)
Definition truthy (item : option string) : option string :=
  match item with
  | Some v => if (v =? "")%string then None else Some v
  | None => None
  end.

(** The constructor: [localStorage.getItem('ce_token') || null] and
    [JSON.parse(localStorage.getItem('ce_current_user') || 'null')]. *)
Definition create (st : Storage) : t :=
  mk (truthy (st "ce_token")) (truthy (st "ce_current_user")).

(** [setAuthToken(token, user)], with [userJson] the text
    [JSON.stringify(user)]. *)
Definition setAuthToken (tok userJson : string) (st : Storage) : t * Storage :=
  (mk (Some tok) (Some userJson),
   setItem "ce_current_user" userJson (setItem "ce_token" tok st)).

(** [clearAuth()]. *)
Definition clearAuth (st : Storage) : t * Storage :=
  (mk None None, removeItem "ce_current_user" (removeItem "ce_token" st)).

(** The Authorization header [request] adds: [if (this.token) ...]. *)
Definition authorization (svc : t) : option string :=
  match token svc with
  | Some tok => if (tok =? "")%string then None else Some ("Bearer " ++ tok)
  | None => None
  end.

End ApiService.

(** No space occurs in the string. *)
Fixpoint spaceFree (s : string) : bool :=
  match s with
  | EmptyString => true
  | String c rest => negb (Ascii.eqb c " "%char) && spaceFree rest
  end.

(** Ada has a timer running since 00:00:05. *)
Definition tracking : Store := exec (StartTimer ada "Compiler" "Parser") 5000 office.

(** Every character is a decimal digit. *)
Fixpoint allDigits (s : string) : bool :=
  match s with
  | EmptyString => true
  | String c rest => isDigit c && allDigits rest
  end.

(** The user collection is well formed: emails and employee numbers are
    unique and every user passes the schema validation. *)
Definition usersWellFormed (s : Store) : Prop :=
  NoDup (map User.email (users s))
  /\ NoDup (map User.employeeId (users s))
  /\ forall u, In u (users s) -> User.valid u = true.

Definition isAdmin (u : User.t) : bool := Role_eqb (User.role u) admin.

(** The employee number the next [addEmployee] will assign. *)
Definition nextEmployeeId (s : Store) : string :=
  "EMP" ++ Js.padStart 3 "0"%char
             (Js.ToString
                (Z.of_nat (List.length
                             (List.filter (fun u => Role_eqb (User.role u) employee)
                                          (users s))) + 1)).

(** Ada and Bob are hired, Ada leaves: one employee is left, numbered
    EMP002. *)
Definition adaLeft : Store :=
  exec (DeleteEmployee root "emp_2000") 4000 office.

(** The token a request was made with; the bootstrap has none. *)
Definition requestCaller (req : Request) : option Caller.t :=
  match req with
  | Boot => None
  | AddEmployee c _ _ _ _ _ _ | DeleteEmployee c _ | StartTimer c _ _
  | StopTimer c _ | PauseTimer c _ _ | ManualEntry c _ _ _ _ => Some c
  end.

(** ** The month window *)

(** [p] holds of the [n] integers from [z] on. *)
Fixpoint allFrom (n : nat) (z : Z) (p : Z -> bool) : bool :=
  match n with
  | O => true
  | S k => p z && allFrom k (z + 1) p
  end.

(** Year of the 400-year cycle of a day of the cycle, as [Js.civil]
    computes it, and the first day of a year of the cycle. *)
Definition yearOfCycle (doe : Z) : Z :=
  (doe - doe / 1460 + doe / 36524 - doe / 146096) / 365.

Definition yearStart (yoe : Z) : Z := 365 * yoe + yoe / 4 - yoe / 100.

(** The first and the last day of year [y] of the cycle are given year
    [y]. *)
Definition yearOk (y : Z) : bool :=
  (yearOfCycle (yearStart y) =? y)
  && (yearOfCycle (yearStart (y + 1) - 1) =? y).

(** [Js.civil] on the cycle and the day of the cycle. *)
Definition civilOfCycle (era doe : Z) : Z * Z * Z :=
  let yoe := yearOfCycle doe in
  let doy := doe - yearStart yoe in
  let mp := (5 * doy + 2) / 153 in
  let d := doy - (153 * mp + 2) / 5 + 1 in
  let m := if mp <? 10 then mp + 3 else mp - 9 in
  let y := yoe + era * 400 + (if m <=? 2 then 1 else 0) in
  (y, m, d).

(** ** Binary64 values of integers *)

(** The significand of the binary64 value of a positive integer below
    2^53: the integer shifted left to 53 bits. *)
Definition significand (p : positive) : positive :=
  match (53 - Zpos (digits2_pos p))%Z with
  | Zpos n => Pos.iter xO p n
  | _ => p
  end.

(** The binary64 value of an integer of magnitude below 2^53. *)
Definition exactDouble (n : Z) : Js.double :=
  match n with
  | Z0 => S754_zero false
  | Zpos p => S754_finite false (significand p) (Zpos (digits2_pos p) - 53)
  | Zneg p => S754_finite true (significand p) (Zpos (digits2_pos p) - 53)
  end.

(** The last steps of [binary_round_aux], on a rounded significand. *)
Definition roundFinish (s : bool) (m : Z) (e : Z) : Js.double :=
  let '(mrs, e') := shr_fexp Js.prec Js.emax m e loc_Exact in
  match shr_m mrs with
  | Z0 => S754_zero s
  | Zpos p => if e' <=? Js.emax - Js.prec then S754_finite s p e' else S754_infinity s
  | Zneg _ => S754_nan
  end.

(** The location of a quotient by 1000 * 2^43, from the remainder. *)
Definition locationOf (rho : Z) : location :=
  if rho =? 0 then loc_Exact else loc_Inexact (2 * rho ?= 1000).

(** ** Time zones and a week of uneven entries *)

(** Pacific Standard Time, eight hours behind UTC. *)
Definition pacific : Js.TimeZone := Js.fixedOffset (-28800000).

(** Japan Standard Time, nine hours ahead of UTC. *)
Definition tokyo : Js.TimeZone := Js.fixedOffset 32400000.

(** Ada logs half an hour on Monday 1 January 2024 and, on the Tuesday, an
    hour and a half and three quarters of an hour. *)
Definition unevenWeek : Store :=
  replay [(Boot, 1000);
          (AddEmployee root "Ada" "Lovelace" "ada@example.com" "pw" None None, 2000);
          (ManualEntry ada "Compiler" "Parser"
                       (jan1 + 32400000) (jan1 + 34200000),
           jan1 + Js.msPerDay + 61200000);
          (ManualEntry ada "Compiler" "Lexer"
                       (jan1 + Js.msPerDay + 32400000) (jan1 + Js.msPerDay + 37800000),
           jan1 + Js.msPerDay + 61200001);
          (ManualEntry ada "Compiler" "Printer"
                       (jan1 + Js.msPerDay + 50400000) (jan1 + Js.msPerDay + 53100000),
           jan1 + Js.msPerDay + 61200002)].

(** Tuesday 2 January 2024, 18:00 UTC: ten in the morning on the Pacific
    coast. *)
Definition tuesdayEvening : Z := jan1 + Js.msPerDay + 64800000.

(** Tuesday 9 January 2024, 02:00 UTC: Monday evening on the Pacific
    coast. *)
Definition mondayEveningPacific : Z := jan1 + 8 * Js.msPerDay + 7200000.

(** ** The start handler around its first [await] *)

(** The start handler up to its first [await], the check for a running
    timer, and from there on. Another request can be served in between. *)
Definition startTimer_check (c : Caller.t) : Handler (option (nat * TimeRecord.t)) :=
  TimeRecord_findOne (matches (runningQuery (Some (Caller.id c)))).

Definition startTimer_resume (c : Caller.t) (project task : string) (now : Z)
    (existingTimer : option (nat * TimeRecord.t)) : Handler TimeRecord.t :=
  match existingTimer with
  | Some _ => raise ConflictError
  | None =>
      user <- User_findOne (fun u => (User.id u =? Caller.id c)%string) ;;
      match user with
      | None => raise InternalError
      | Some user =>
          let timer := newTimer c user project task now in
          TimeRecord_create timer ;;
          ret timer
      end
  end.

(** ** Hours printed with one decimal *)

(** The location of a quotient by [D], from the remainder [rho]. *)
Definition locationAt (D rho : Z) : location :=
  if rho =? 0 then loc_Exact else loc_Inexact (2 * rho ?= D).

(** A number of tenths in decimal notation with one digit after the
    point. *)
Definition decimal1 (n : Z) : string :=
  Js.ToString (n / 10) ++ "." ++ Js.ToString (n mod 10).

(** [seconds] spread over [days], in tenths of an hour, rounded to the
    nearest tenth with the halves upwards. *)
Definition tenthsOfHours (seconds days : Z) : Z :=
  (seconds + 180 * days) / (360 * days).

(** [seconds] over [days] lies half-way between two tenths of an hour. *)
Definition halfTenth (seconds days : Z) : bool :=
  (seconds + 180 * days) mod (360 * days) =? 0.

(** * Properties *)

(** ** Binary64 arithmetic on integers *)

Lemma digits2_size (p : positive) : digits2_pos p = Pos.size p.
Proof. induction p; simpl; congruence. Qed.

Lemma digits2_log2 (p : positive) : Zpos (digits2_pos p) = Z.log2 (Zpos p) + 1.
Proof.
  rewrite digits2_size. destruct p; simpl; lia.
Qed.

Lemma digits2_bounds (p : positive) :
  2 ^ (Zpos (digits2_pos p) - 1) <= Zpos p < 2 ^ Zpos (digits2_pos p).
Proof.
  rewrite digits2_log2.
  replace (Z.log2 (Zpos p) + 1 - 1) with (Z.log2 (Zpos p)) by ring.
  pose proof (Z.log2_spec (Zpos p) ltac:(lia)). unfold Z.succ in *. lia.
Qed.

Lemma digits2_unique (p : positive) (d : Z) :
  2 ^ (d - 1) <= Zpos p < 2 ^ d -> Zpos (digits2_pos p) = d.
Proof.
  intros H. rewrite digits2_log2.
  assert (0 <= d - 1).
  { destruct (Z.lt_ge_cases (d - 1) 0) as [Hn | ?]; [| assumption].
    assert (2 ^ d <= 1).
    { destruct (Z.eq_dec d 0) as [-> | ?]; [simpl; lia |].
      rewrite Z.pow_neg_r by lia. lia. }
    lia. }
  rewrite (Z.log2_unique (Zpos p) (d - 1)); [ring | assumption |].
  unfold Z.succ. replace (d - 1 + 1) with d by ring. exact H.
Qed.

Lemma iter_pos_iter {A : Type} (f : A -> A) (n : positive) (x : A) :
  iter_pos f n x = Pos.iter f x n.
Proof.
  revert x. induction n as [n IH | n IH |]; intros x; simpl.
  - rewrite !IH, !Pos.iter_swap. reflexivity.
  - rewrite !IH. reflexivity.
  - reflexivity.
Qed.

Lemma iter_xO (p n : positive) : Zpos (Pos.iter xO p n) = Zpos p * 2 ^ Zpos n.
Proof.
  induction n as [| n IH] using Pos.peano_ind.
  - cbn [Pos.iter]. rewrite Pos2Z.inj_xO. change (2 ^ 1) with 2. lia.
  - rewrite Pos.iter_succ, Pos2Z.inj_succ, Z.pow_succ_r by lia.
    rewrite Pos2Z.inj_xO, IH. ring.
Qed.

Lemma shr_exact (j q : positive) :
  iter_pos shr_1 j (Build_shr_record (Zpos (Pos.iter xO q j)) false false)
  = Build_shr_record (Zpos q) false false.
Proof.
  rewrite iter_pos_iter. revert q.
  induction j as [| j IH] using Pos.peano_ind; intros q.
  - reflexivity.
  - rewrite !Pos.iter_succ, <- Pos.iter_swap. simpl. apply IH.
Qed.

Lemma fexp_normal (e : Z) : -1021 <= e -> fexp Js.prec Js.emax e = e - 53.
Proof. intros H. unfold fexp, emin, Js.prec, Js.emax. lia. Qed.

(** A mantissa of 53 bits is kept as it is. *)
Lemma binary_round_aux_canonical (s : bool) (m : positive) (e : Z) :
  Zpos (digits2_pos m) = 53 -> -1074 <= e <= 971 ->
  binary_round_aux Js.prec Js.emax s (Zpos m) e loc_Exact = S754_finite s m e.
Proof.
  intros Hd He. unfold binary_round_aux, shr_fexp. cbn [Zdigits2 shr_record_of_loc].
  rewrite Hd, fexp_normal by lia.
  replace (53 + e - 53 - e) with 0 by ring. cbn [shr shr_m loc_of_shr_record round_nearest_even].
  cbn [Zdigits2 shr_record_of_loc]. rewrite Hd, fexp_normal by lia.
  replace (53 + e - 53 - e) with 0 by ring. cbn [shr shr_m].
  unfold Js.emax, Js.prec.
  destruct (Z.leb_spec e (1024 - 53)); [reflexivity | lia].
Qed.

Lemma digits2_le_53 (p : positive) : Zpos p < 2 ^ 53 -> Zpos (digits2_pos p) <= 53.
Proof.
  intros H. pose proof (digits2_bounds p) as [B _].
  destruct (Z.le_gt_cases (Zpos (digits2_pos p)) 53) as [? | Hgt]; [assumption |].
  assert (2 ^ 53 <= 2 ^ (Zpos (digits2_pos p) - 1)) by (apply Z.pow_le_mono_r; lia).
  lia.
Qed.

Lemma significand_value (p : positive) :
  Zpos p < 2 ^ 53 ->
  Zpos (significand p) = Zpos p * 2 ^ (53 - Zpos (digits2_pos p)).
Proof.
  intros H. pose proof (digits2_le_53 p H). unfold significand.
  destruct (53 - Zpos (digits2_pos p)) eqn:E; [simpl; lia | apply iter_xO | lia].
Qed.

Lemma scale_bounds (a d j : Z) :
  0 < d -> 0 <= j -> 2 ^ (d - 1) <= a < 2 ^ d ->
  2 ^ (d - 1 + j) <= a * 2 ^ j < 2 ^ (d + j).
Proof.
  intros Hd Hj H. rewrite !Z.pow_add_r by lia.
  assert (0 < 2 ^ j) by (apply Z.pow_pos_nonneg; lia).
  split; [apply Z.mul_le_mono_nonneg_r | apply Z.mul_lt_mono_pos_r]; lia.
Qed.

Lemma significand_digits (p : positive) :
  Zpos p < 2 ^ 53 -> Zpos (digits2_pos (significand p)) = 53.
Proof.
  intros H. apply digits2_unique. rewrite (significand_value p H).
  pose proof (digits2_le_53 p H). pose proof (digits2_bounds p) as B.
  set (d := Zpos (digits2_pos p)) in *.
  assert (Hd : 0 < d) by (unfold d; lia).
  pose proof (scale_bounds (Zpos p) d (53 - d) Hd ltac:(lia) B) as S.
  replace (d - 1 + (53 - d)) with (53 - 1) in S by lia.
  replace (d + (53 - d)) with 53 in S by lia. exact S.
Qed.

(** Rounding an integer below 2^53 given with [k] extra low zero bits. *)
Lemma binary_round_exact (s : bool) (P p : positive) (k : Z) :
  Zpos p < 2 ^ 53 -> 0 <= k <= 1000 -> Zpos P = Zpos p * 2 ^ k ->
  binary_round Js.prec Js.emax s P (- k)
  = S754_finite s (significand p) (Zpos (digits2_pos p) - 53).
Proof.
  intros Hp Hk HP.
  pose proof (digits2_le_53 p Hp) as Hd53.
  pose proof (digits2_bounds p) as [B1 B2].
  pose proof (significand_value p Hp) as Hsv.
  pose proof (significand_digits p Hp) as Hsd.
  set (d := Zpos (digits2_pos p)) in *.
  assert (Hd : 0 < d) by (unfold d; lia).
  assert (HdP : Zpos (digits2_pos P) = d + k).
  { apply digits2_unique. rewrite HP.
    replace (d + k - 1) with ((d - 1) + k) by ring.
    apply scale_bounds; [lia | lia | split; assumption]. }
  unfold binary_round. rewrite HdP, fexp_normal by lia.
  replace (d + k + - k - 53) with (d - 53) by ring.
  unfold shl_align.
  destruct (d - 53 - - k) as [| n | n] eqn:E.
  - assert (HPs : P = significand p).
    { apply Pos2Z.inj. rewrite HP, Hsv. f_equal. f_equal. lia. }
    rewrite HPs, binary_round_aux_canonical by (try assumption; lia).
    f_equal. lia.
  - assert (HPs : P = Pos.iter xO (significand p) n).
    { apply Pos2Z.inj. rewrite iter_xO, HP, Hsv, <- Z.mul_assoc, <- Z.pow_add_r by lia.
      f_equal. f_equal. lia. }
    unfold binary_round_aux, shr_fexp. cbn [Zdigits2 shr_record_of_loc].
    rewrite HdP, fexp_normal by lia.
    replace (d + k + - k - 53 - - k) with (Zpos n) by lia.
    cbn [shr]. rewrite HPs, shr_exact.
    cbn [shr_m loc_of_shr_record round_nearest_even Zdigits2 shr_record_of_loc].
    rewrite Hsd, fexp_normal by lia.
    replace (53 + (- k + Zpos n) - 53 - (- k + Zpos n)) with 0 by ring.
    cbn [shr shr_m]. unfold Js.emax, Js.prec.
    destruct (Z.leb_spec (- k + Zpos n) (1024 - 53)); [f_equal; lia | lia].
  - assert (HPs : Pos.iter xO P n = significand p).
    { apply Pos2Z.inj. rewrite iter_xO, HP, Hsv, <- Z.mul_assoc, <- Z.pow_add_r by lia.
      f_equal. f_equal. lia. }
    rewrite HPs, binary_round_aux_canonical by (try assumption; lia).
    reflexivity.
Qed.

Lemma binary_normalize_exact (n k : Z) :
  Z.abs n < 2 ^ 53 -> 0 <= k <= 1000 ->
  binary_normalize Js.prec Js.emax (n * 2 ^ k) (- k) false = exactDouble n.
Proof.
  intros Hn Hk.
  assert (H2 : 0 < 2 ^ k) by (apply Z.pow_pos_nonneg; lia).
  destruct n as [| p | p]; [reflexivity | |].
  - destruct (Zpos p * 2 ^ k) as [| P | P] eqn:E; try lia.
    cbn [binary_normalize exactDouble]. apply binary_round_exact; [exact Hn | exact Hk | symmetry; exact E].
  - destruct (Zneg p * 2 ^ k) as [| P | P] eqn:E; try lia.
    cbn [binary_normalize exactDouble]. apply binary_round_exact; [exact Hn | exact Hk | lia].
Qed.

Lemma ofZ_exact (n : Z) : Z.abs n < 2 ^ 53 -> Js.ofZ n = exactDouble n.
Proof.
  intros H. unfold Js.ofZ.
  rewrite <- (binary_normalize_exact n 0 H ltac:(lia)).
  f_equal. change (2 ^ 0) with 1. lia.
Qed.

Lemma exact_value (n : Z) (s : bool) (m : positive) (e : Z) :
  Z.abs n < 2 ^ 53 -> exactDouble n = S754_finite s m e ->
  cond_Zopp s (Zpos m) = n * 2 ^ (- e) /\ -52 <= e <= 0.
Proof.
  intros Hn H.
  assert (V : forall p, Zpos p < 2 ^ 53 ->
                Zpos (significand p) = Zpos p * 2 ^ (- (Zpos (digits2_pos p) - 53))
                /\ -52 <= Zpos (digits2_pos p) - 53 <= 0).
  { intros p Hp. pose proof (digits2_le_53 p Hp). rewrite (significand_value p Hp).
    split; [f_equal; f_equal; ring | lia]. }
  destruct n as [| p | p]; [discriminate | |]; injection H as <- <- <-;
    destruct (V p Hn) as [V1 V2]; unfold cond_Zopp; (split; [| exact V2]).
  - exact V1.
  - rewrite V1. change (Zneg p) with (- Zpos p). symmetry. apply Z.mul_opp_l.
Qed.

Lemma shl_align_fst (m : positive) (e ez : Z) :
  ez <= e -> Zpos (fst (shl_align m e ez)) = Zpos m * 2 ^ (e - ez).
Proof.
  intros H. unfold shl_align.
  destruct (ez - e) as [| n | n] eqn:E; cbn [fst].
  - replace (e - ez) with 0 by lia. change (2 ^ 0) with 1. lia.
  - lia.
  - rewrite iter_xO. f_equal. f_equal. lia.
Qed.

Lemma cond_Zopp_mul (s : bool) (x y : Z) : cond_Zopp s (x * y) = cond_Zopp s x * y.
Proof. destruct s; cbn [cond_Zopp]; ring. Qed.

Lemma aligned (s : bool) (m : positive) (e ez n : Z) :
  cond_Zopp s (Zpos m) = n * 2 ^ (- e) -> e <= 0 -> ez <= e ->
  cond_Zopp s (Zpos (fst (shl_align m e ez))) = n * 2 ^ (- ez).
Proof.
  intros H He Hz. rewrite shl_align_fst, cond_Zopp_mul, H, <- Z.mul_assoc by assumption.
  rewrite <- Z.pow_add_r by lia. f_equal. f_equal. ring.
Qed.

(** Sums and differences of integers are exact below 2^53. *)
Lemma add_exact (a b : Z) :
  Z.abs a < 2 ^ 53 -> Z.abs b < 2 ^ 53 -> Z.abs (a + b) < 2 ^ 53 ->
  Js.add (exactDouble a) (exactDouble b) = exactDouble (a + b).
Proof.
  intros Ha Hb Hab. unfold Js.add.
  destruct (exactDouble a) as [sa | | | sa ma ea] eqn:Ea;
    try (destruct a; discriminate).
  { destruct a; try discriminate. injection Ea as <-.
    destruct (exactDouble b) as [sb | | | sb mb eb] eqn:Eb; try (destruct b; discriminate).
    - destruct b; try discriminate. injection Eb as <-. reflexivity.
    - cbn [SFadd]. rewrite Z.add_0_l, Eb. reflexivity. }
  destruct (exactDouble b) as [sb | | | sb mb eb] eqn:Eb; try (destruct b; discriminate).
  { destruct b; try discriminate. cbn [SFadd]. rewrite Z.add_0_r, Ea. reflexivity. }
  destruct (exact_value a sa ma ea Ha Ea) as [Va Ra].
  destruct (exact_value b sb mb eb Hb Eb) as [Vb Rb].
  cbn [SFadd].
  rewrite (aligned sa ma ea (Z.min ea eb) a Va) by lia.
  rewrite (aligned sb mb eb (Z.min ea eb) b Vb) by lia.
  rewrite <- Z.mul_add_distr_r.
  rewrite <- (binary_normalize_exact (a + b) (- Z.min ea eb)) by lia.
  f_equal. ring.
Qed.

Lemma sub_exact (a b : Z) :
  Z.abs a < 2 ^ 53 -> Z.abs b < 2 ^ 53 -> Z.abs (a - b) < 2 ^ 53 ->
  Js.sub (exactDouble a) (exactDouble b) = exactDouble (a - b).
Proof.
  intros Ha Hb Hab. unfold Js.sub.
  destruct (exactDouble a) as [sa | | | sa ma ea] eqn:Ea;
    try (destruct a; discriminate).
  { destruct a; try discriminate. injection Ea as <-.
    destruct b as [| p | p]; reflexivity. }
  destruct (exactDouble b) as [sb | | | sb mb eb] eqn:Eb; try (destruct b; discriminate).
  { destruct b; try discriminate. cbn [SFsub]. rewrite Z.sub_0_r, Ea. reflexivity. }
  destruct (exact_value a sa ma ea Ha Ea) as [Va Ra].
  destruct (exact_value b sb mb eb Hb Eb) as [Vb Rb].
  cbn [SFsub].
  rewrite (aligned sa ma ea (Z.min ea eb) a Va) by lia.
  rewrite (aligned sb mb eb (Z.min ea eb) b Vb) by lia.
  rewrite <- Z.mul_sub_distr_r.
  rewrite <- (binary_normalize_exact (a - b) (- Z.min ea eb)) by lia.
  f_equal. ring.
Qed.

(** *** Division by 1000 and [Math.floor] *)

Lemma binary_round_aux_finish (s : bool) (m e : Z) (l : location) :
  binary_round_aux Js.prec Js.emax s m e l
  = let '(mrs, e') := shr_fexp Js.prec Js.emax m e l in
    roundFinish s (round_nearest_even (shr_m mrs) (loc_of_shr_record mrs)) e'.
Proof. reflexivity. Qed.

Lemma Zdigits2_unique (m d : Z) :
  0 < m -> 2 ^ (d - 1) <= m < 2 ^ d -> Zdigits2 m = d.
Proof.
  intros Hm H. destruct m as [| p | p]; try lia. apply digits2_unique, H.
Qed.

Lemma finish_floor (s : bool) (m e : Z) :
  2 ^ 52 <= m <= 2 ^ 53 -> -1000 <= e <= -2 ->
  Js.floor (roundFinish s m e) = Some (cond_Zopp s m / 2 ^ (- e)).
Proof.
  intros Hm He. unfold roundFinish, shr_fexp.
  destruct (Z.eq_dec m (2 ^ 53)) as [-> | Hne].
  - change (Zdigits2 (2 ^ 53)) with 54. rewrite fexp_normal by lia.
    replace (54 + e - 53 - e) with 1 by ring.
    cbn [shr shr_record_of_loc iter_pos]. 
    change (shr_1 {| shr_m := 2 ^ 53; shr_r := false; shr_s := false |})
      with {| shr_m := 2 ^ 52; shr_r := false; shr_s := false |}.
    cbn [shr_m]. change (2 ^ 52) with (Zpos 4503599627370496).
    unfold Js.emax, Js.prec.
    destruct (Z.leb_spec (e + 1) (1024 - 53)); [| lia].
    cbn [Js.floor]. destruct (Z.leb_spec 0 (e + 1)); [lia |].
    f_equal. replace (- e) with (1 + - (e + 1)) by ring.
    rewrite Z.pow_add_r by lia. change (2 ^ 1) with 2.
    assert (0 < 2 ^ (- (e + 1))) by (apply Z.pow_pos_nonneg; lia).
    destruct s; cbn [cond_Zopp].
    + change (- 2 ^ 53) with (2 * - Zpos 4503599627370496).
      rewrite Z.div_mul_cancel_l by lia. reflexivity.
    + change (2 ^ 53) with (2 * Zpos 4503599627370496).
      rewrite Z.div_mul_cancel_l by lia. reflexivity.
  - rewrite (Zdigits2_unique m 53) by (change (2 ^ (53 - 1)) with (2 ^ 52); lia).
    rewrite fexp_normal by lia.
    replace (53 + e - 53 - e) with 0 by ring.
    cbn [shr shr_record_of_loc shr_m].
    destruct m as [| p | p]; try lia.
    unfold Js.emax, Js.prec.
    destruct (Z.leb_spec e (1024 - 53)); [| lia].
    cbn [Js.floor]. destruct (Z.leb_spec 0 e); [lia | reflexivity].
Qed.

(** The integer arithmetic behind it: a significand [m] nearest to
    [n * G / 1000], on a grid of spacing 1 / G finer than 1 / 500, has the
    same floor over [G] as [n] over 1000. [K] is 1 or 2. *)
Lemma nearest_floor (K n G q T m : Z) :
  K = 1 \/ K = 2 ->
  0 <= n -> 512 <= G ->
  n * G * K = 1000 * K * q + T -> 0 <= T < 1000 * K ->
  m = q \/ m = q + 1 ->
  (2 * T < 1000 * K -> m = q) ->
  (1000 * K < 2 * T -> m = q + 1) ->
  m / G = n / 1000 /\ (- m) / G = (- n) / 1000.
Proof.
  intros HK Hn HG E HT Hm Hlo Hhi.
  pose proof (Z.div_mod n 1000 ltac:(lia)) as D.
  pose proof (Z.mod_pos_bound n 1000 ltac:(lia)) as B.
  set (A := n / 1000) in *. set (b := n mod 1000) in *.
  assert (EX : n * G = 1000 * (A * G) + b * G) by (rewrite D; ring).
  set (X := A * G) in *. set (Y := b * G) in *.
  destruct (Z.eq_dec b 0) as [Hb | Hb].
  - assert (HY : Y = 0) by (unfold Y; rewrite Hb; ring).
    assert (m = X) by (destruct HK; subst K; lia).
    assert (En : - n = 1000 * - A) by lia.
    subst m. unfold X. rewrite En.
    replace (- (A * G)) with (- A * G) by ring.
    rewrite !Z.div_mul by lia.
    rewrite Z.mul_comm, Z.div_mul by lia. auto.
  - assert (HY : G <= Y <= 999 * G) by (unfold Y; nia).
    assert (HX : X < m < X + G) by (destruct HK; subst K; lia).
    split.
    + symmetry. apply (Z.div_unique m G A (m - X)); [lia | unfold X; ring].
    + rewrite <- (Z.div_unique (- m) G (- A - 1) (G - (m - X)))
        by (try lia; unfold X; ring).
      apply (Z.div_unique (- n) 1000 (- A - 1) (1000 - b)); lia.
Qed.

Lemma loc_of_shr_record_of_loc (m : Z) (l : location) :
  loc_of_shr_record (shr_record_of_loc m l) = l.
Proof. destruct l as [| []]; reflexivity. Qed.

Lemma round_nearest_even_spec (q rho : Z) :
  let m := round_nearest_even q (locationOf rho) in
  (m = q \/ m = q + 1) /\ (2 * rho < 1000 -> m = q) /\ (1000 < 2 * rho -> m = q + 1).
Proof.
  unfold locationOf. destruct (Z.eqb_spec rho 0) as [-> | Hne]; cbn [round_nearest_even].
  - lia.
  - destruct (Z.compare_spec (2 * rho) 1000); cbn [round_nearest_even];
      [destruct (Z.even q) |..]; lia.
Qed.

(** One shift to the right, then rounding. *)
Lemma round_shifted_spec (q rho : Z) :
  0 < q -> 0 <= rho < 1000 ->
  let mrs := shr_1 (shr_record_of_loc q (locationOf rho)) in
  let m := round_nearest_even (shr_m mrs) (loc_of_shr_record mrs) in
  let T := 1000 * (q mod 2) + rho in
  (m = q / 2 \/ m = q / 2 + 1) /\ (T < 1000 -> m = q / 2) /\ (1000 < T -> m = q / 2 + 1).
Proof.
  intros Hq Hrho. unfold locationOf.
  destruct q as [| p | p]; try lia.
  assert (Hp : forall p', Zpos p'~0 / 2 = Zpos p' /\ Zpos p'~0 mod 2 = 0
                          /\ Zpos p'~1 / 2 = Zpos p' /\ Zpos p'~1 mod 2 = 1).
  { intros p'. rewrite Pos2Z.inj_xO, Pos2Z.inj_xI.
    repeat split.
    - rewrite Z.mul_comm. apply Z.div_mul. lia.
    - rewrite Z.mul_comm. apply Z.mod_mul. lia.
    - symmetry. apply (Z.div_unique _ 2 _ 1); lia.
    - symmetry. apply (Z.mod_unique _ 2 (Zpos p') 1); lia. }
  destruct (Z.eqb_spec rho 0) as [-> | Hne].
  - destruct p as [p' | p' |]; cbn [shr_record_of_loc shr_1 orb shr_m loc_of_shr_record
                                    round_nearest_even];
      try (destruct (Hp p') as (H1 & H2 & H3 & H4)).
    + rewrite H3, H4. destruct (Z.even (Zpos p')); lia.
    + rewrite H1, H2. lia.
    + change (1 / 2) with 0. change (1 mod 2) with 1. cbn. lia.
  - destruct (2 * rho ?= 1000);
      destruct p as [p' | p' |]; cbn [shr_record_of_loc shr_1 orb shr_m loc_of_shr_record
                                      round_nearest_even];
      try (destruct (Hp p') as (H1 & H2 & H3 & H4));
      try (rewrite H3, H4; lia); try (rewrite H1, H2; lia);
      change (1 / 2) with 0; change (1 mod 2) with 1; lia.
Qed.

Lemma div_1000_floor (s : bool) (mx : positive) (ex n : Z) :
  0 < n < 2 ^ 53 -> Zpos mx = n * 2 ^ (- ex) -> Zpos (digits2_pos mx) = 53 ->
  -52 <= ex <= 0 ->
  Js.floor (Js.div (S754_finite s mx ex) (S754_finite false 8796093022208000 (-43)))
  = Some (cond_Zopp s n / 1000).
Proof.
  intros Hn Hmx Hd Hex.
  unfold Js.div. cbn [SFdiv]. unfold SFdiv_core_binary. cbn [Zdigits2]. rewrite Hd.
  change (Zpos (digits2_pos 8796093022208000)) with 53.
  cbv zeta.
  replace (Z.min (fexp Js.prec Js.emax (53 + ex - (53 + -43))) (ex - -43)) with (ex - 10)
    by (rewrite fexp_normal by lia; lia).
  replace (ex - -43 - (ex - 10)) with 53 by ring.
  cbv iota.
  rewrite Z.shiftl_mul_pow2 by lia.
  set (W := Zpos mx * 1024).
  replace (Zpos mx * 2 ^ 53) with (W * 2 ^ 43) by (unfold W; lia).
  change 8796093022208000 with (1000 * 2 ^ 43).
  destruct (Z.div_eucl (W * 2 ^ 43) (1000 * 2 ^ 43)) as [q r] eqn:E.
  assert (Hq : q = W / 1000).
  { rewrite <- (Z.div_mul_cancel_r W 1000 (2 ^ 43)) by lia.
    unfold Z.div. rewrite E. reflexivity. }
  assert (Hr : r = W mod 1000 * 2 ^ 43).
  { rewrite <- Z.mul_mod_distr_r by lia. unfold Z.modulo. rewrite E. reflexivity. }
  pose proof (Z.div_mod W 1000 ltac:(lia)) as D.
  pose proof (Z.mod_pos_bound W 1000 ltac:(lia)) as B.
  rewrite <- Hq in D. set (rho := W mod 1000) in *.
  assert (Hl : new_location (1000 * 2 ^ 43) r = locationOf rho).
  { unfold new_location. change (Z.even (1000 * 2 ^ 43)) with true. cbv iota.
    unfold new_location_even, locationOf. rewrite Hr.
    destruct (Z.eqb_spec rho 0) as [-> | Hne]; [reflexivity |].
    destruct (Z.eqb_spec (rho * 2 ^ 43) 0) as [H0 | _]; [lia |].
    f_equal. change (2 ^ 43) with 8796093022208 in *.
    destruct (Z.compare_spec (2 * (rho * 8796093022208)) (1000 * 8796093022208)),
      (Z.compare_spec (2 * rho) 1000); try reflexivity; lia. }
  rewrite Hl. clear Hl E Hr r.
  pose proof (digits2_bounds mx) as Bm. rewrite Hd in Bm.
  change (2 ^ (53 - 1)) with 4503599627370496 in Bm.
  change (2 ^ 53) with 9007199254740992 in *.
  assert (Bq : 4503599627370496 <= q < 18014398509481984) by (unfold W in D; lia).
  set (G := 2 ^ (- (ex - 10))).
  assert (HG : 2 ^ (- ex) * 1024 = G).
  { unfold G. replace (- (ex - 10)) with (- ex + 10) by ring.
    rewrite Z.pow_add_r by lia. reflexivity. }
  assert (HnG : n * G = 1000 * q + rho).
  { rewrite <- D, <- HG. unfold W. rewrite Hmx. ring. }
  assert (H1024 : 1024 <= G).
  { rewrite <- HG. assert (0 < 2 ^ (- ex)) by (apply Z.pow_pos_nonneg; lia). lia. }
  rewrite xorb_false_r, binary_round_aux_finish. unfold shr_fexp.
  destruct (Z.lt_ge_cases q 9007199254740992) as [Hlt | Hge].
  - rewrite (Zdigits2_unique q 53)
      by (change (2 ^ (53 - 1)) with 4503599627370496;
          change (2 ^ 53) with 9007199254740992; lia).
    rewrite fexp_normal by lia.
    replace (53 + (ex - 10) - 53 - (ex - 10)) with 0 by ring.
    cbn [shr]. rewrite loc_of_shr_record_of_loc.
    replace (shr_m (shr_record_of_loc q (locationOf rho))) with q
      by (destruct (locationOf rho) as [| []]; reflexivity).
    pose proof (round_nearest_even_spec q rho) as (M1 & M2 & M3).
    set (m := round_nearest_even q (locationOf rho)) in *.
    rewrite finish_floor
      by (change (2 ^ 52) with 4503599627370496;
          change (2 ^ 53) with 9007199254740992; lia).
    fold G. f_equal.
    destruct (nearest_floor 1 n G q rho m) as [F1 F2]; try lia.
    destruct s; cbn [cond_Zopp]; assumption.
  - rewrite (Zdigits2_unique q 54)
      by (change (2 ^ (54 - 1)) with 9007199254740992;
          change (2 ^ 54) with 18014398509481984; lia).
    rewrite fexp_normal by lia.
    replace (54 + (ex - 10) - 53 - (ex - 10)) with 1 by ring.
    cbn [shr iter_pos].
    pose proof (round_shifted_spec q rho ltac:(lia) B) as (M1 & M2 & M3).
    cbv zeta in M1, M2, M3.
    set (m := round_nearest_even _ _) in *.
    pose proof (Z.div_mod q 2 ltac:(lia)) as D2.
    pose proof (Z.mod_pos_bound q 2 ltac:(lia)) as B2.
    rewrite finish_floor
      by (change (2 ^ 52) with 4503599627370496;
          change (2 ^ 53) with 9007199254740992; lia).
    set (G' := 2 ^ (- (ex - 10 + 1))).
    assert (HG' : G = 2 * G').
    { unfold G, G'. replace (- (ex - 10)) with (1 + - (ex - 10 + 1)) by ring.
      rewrite Z.pow_add_r by lia. reflexivity. }
    f_equal.
    destruct (nearest_floor 2 n G' (q / 2) (1000 * (q mod 2) + rho) m) as [F1 F2];
      try lia.
    destruct s; cbn [cond_Zopp]; assumption.
Qed.

(** [Math.floor(n / 1000)] on an integer of magnitude below 2^53. *)
Theorem floor_div_1000 (n : Z) :
  Z.abs n < 2 ^ 53 ->
  Js.floor (Js.div (exactDouble n) (exactDouble 1000)) = Some (n / 1000).
Proof.
  intros Hn. change (exactDouble 1000) with (S754_finite false 8796093022208000 (-43)).
  destruct n as [| p | p]; [reflexivity | |]; cbn [exactDouble];
    pose proof (digits2_le_53 p Hn) as Hd.
  - rewrite (div_1000_floor false _ _ (Zpos p)); [reflexivity | lia | | | lia].
    + rewrite (significand_value p Hn). f_equal. f_equal. ring.
    + apply significand_digits, Hn.
  - rewrite (div_1000_floor true _ _ (Zpos p)); [reflexivity | lia | | | lia].
    + rewrite (significand_value p Hn). f_equal. f_equal. ring.
    + apply significand_digits, Hn.
Qed.

(** *** Division by an integer and [toFixed(1)] *)

Lemma round_nearest_even_at (D q rho : Z) :
  0 < D ->
  let m := round_nearest_even q (locationAt D rho) in
  (m = q \/ m = q + 1) /\ (2 * rho < D -> m = q) /\ (D < 2 * rho -> m = q + 1).
Proof.
  intros HD.
  unfold locationAt. destruct (Z.eqb_spec rho 0) as [-> | Hne]; cbn [round_nearest_even].
  - lia.
  - destruct (Z.compare_spec (2 * rho) D); cbn [round_nearest_even];
      [destruct (Z.even q) |..]; lia.
Qed.

Lemma round_shifted_at (D q rho : Z) :
  0 < q -> 0 <= rho < D ->
  let mrs := shr_1 (shr_record_of_loc q (locationAt D rho)) in
  let m := round_nearest_even (shr_m mrs) (loc_of_shr_record mrs) in
  let T := D * (q mod 2) + rho in
  (m = q / 2 \/ m = q / 2 + 1) /\ (T < D -> m = q / 2) /\ (D < T -> m = q / 2 + 1).
Proof.
  intros Hq Hrho. unfold locationAt.
  destruct q as [| p | p]; try lia.
  assert (Hp : forall p', Zpos p'~0 / 2 = Zpos p' /\ Zpos p'~0 mod 2 = 0
                          /\ Zpos p'~1 / 2 = Zpos p' /\ Zpos p'~1 mod 2 = 1).
  { intros p'. rewrite Pos2Z.inj_xO, Pos2Z.inj_xI.
    repeat split.
    - rewrite Z.mul_comm. apply Z.div_mul. lia.
    - rewrite Z.mul_comm. apply Z.mod_mul. lia.
    - symmetry. apply (Z.div_unique _ 2 _ 1); lia.
    - symmetry. apply (Z.mod_unique _ 2 (Zpos p') 1); lia. }
  destruct (Z.eqb_spec rho 0) as [-> | Hne].
  - destruct p as [p' | p' |]; cbn [shr_record_of_loc shr_1 orb shr_m loc_of_shr_record
                                    round_nearest_even];
      try (destruct (Hp p') as (H1 & H2 & H3 & H4)).
    + rewrite H3, H4. destruct (Z.even (Zpos p')); lia.
    + rewrite H1, H2. lia.
    + change (1 / 2) with 0. change (1 mod 2) with 1. cbn. lia.
  - destruct (2 * rho ?= D);
      destruct p as [p' | p' |]; cbn [shr_record_of_loc shr_1 orb shr_m loc_of_shr_record
                                      round_nearest_even];
      try (destruct (Hp p') as (H1 & H2 & H3 & H4));
      try (rewrite H3, H4; lia); try (rewrite H1, H2; lia);
      change (1 / 2) with 0; change (1 mod 2) with 1; lia.
Qed.

Lemma digits2_lt (p : positive) (k : Z) :
  0 <= k -> Zpos p < 2 ^ k -> Zpos (digits2_pos p) <= k.
Proof.
  intros Hk H. pose proof (digits2_bounds p) as [B _].
  destruct (Z.le_gt_cases (Zpos (digits2_pos p)) k) as [? | Hgt]; [assumption |].
  assert (2 ^ k <= 2 ^ (Zpos (digits2_pos p) - 1)) by (apply Z.pow_le_mono_r; lia).
  lia.
Qed.

Lemma div_nearest (s : bool) (mx d : positive) (ex : Z) :
  Zpos (digits2_pos mx) = 53 -> Zpos d < 2 ^ 52 -> -900 <= ex <= 900 ->
  exists m K q T,
    Js.div (S754_finite s mx ex) (exactDouble (Zpos d))
    = roundFinish s m (ex - Zpos (digits2_pos d) + (K - 1))
    /\ (K = 1 \/ K = 2)
    /\ 2 ^ 52 <= m <= 2 ^ 53
    /\ (K = 2 -> m < 2 ^ 53)
    /\ Zpos mx * 2 ^ Zpos (digits2_pos d) = Zpos d * K * q + T
    /\ 0 <= T < Zpos d * K
    /\ (m = q \/ m = q + 1)
    /\ (2 * T < Zpos d * K -> m = q)
    /\ (Zpos d * K < 2 * T -> m = q + 1).
Proof.
  intros Hd Hdd Hex.
  pose proof (digits2_lt d 52 ltac:(lia) Hdd) as HL.
  pose proof (digits2_bounds d) as Bd.
  set (L := Zpos (digits2_pos d)) in *.
  assert (HL1 : 1 <= L) by (unfold L; lia).
  cbn [exactDouble]. fold L.
  assert (Hd53 : Zpos d < 2 ^ 53).
  { assert (2 ^ 52 < 2 ^ 53) by (apply Z.pow_lt_mono_r; lia). lia. }
  pose proof (significand_value d Hd53) as Hmy. fold L in Hmy.
  pose proof (significand_digits d Hd53) as Hdy.
  set (my := significand d) in *.
  set (P := 2 ^ (53 - L)) in *.
  set (X := 2 ^ L).
  assert (HP : 0 < P) by (apply Z.pow_pos_nonneg; lia).
  assert (HX : Zpos d < X <= 2 * Zpos d).
  { unfold X. replace L with (1 + (L - 1)) at 2 by ring.
    rewrite Z.pow_add_r by lia. change (2 ^ 1) with 2. lia. }
  assert (HXP : X * P = 2 ^ 53).
  { unfold X, P. rewrite <- Z.pow_add_r by lia. f_equal. ring. }
  set (W := Zpos mx * X).
  pose proof (Z.div_mod W (Zpos d) ltac:(lia)) as D.
  pose proof (Z.mod_pos_bound W (Zpos d) ltac:(lia)) as B.
  set (q := W / Zpos d) in *. set (rho := W mod Zpos d) in *.
  pose proof (digits2_bounds mx) as Bm. rewrite Hd in Bm.
  change (2 ^ (53 - 1)) with 4503599627370496 in Bm.
  change (2 ^ 53) with 9007199254740992 in *.
  assert (Bq : 4503599627370496 <= q < 18014398509481984).
  { assert (4503599627370496 * X <= W) by (unfold W; nia).
    assert (W < 9007199254740992 * X) by (unfold W; nia).
    split; [| nia].
    destruct (Z.le_gt_cases 4503599627370496 q); [assumption | nia]. }
  assert (E0 : Js.div (S754_finite s mx ex) (S754_finite false my (L - 53))
               = binary_round_aux Js.prec Js.emax s q (ex - L) (locationAt (Zpos d) rho)).
  { unfold Js.div. cbn [SFdiv]. unfold SFdiv_core_binary. cbn [Zdigits2].
    rewrite Hd, Hdy. cbv zeta.
    replace (Z.min (fexp Js.prec Js.emax (53 + ex - (53 + (L - 53)))) (ex - (L - 53)))
      with (ex - L) by (rewrite fexp_normal by lia; lia).
    replace (ex - (L - 53) - (ex - L)) with 53 by ring.
    cbv iota. rewrite Z.shiftl_mul_pow2 by lia.
    change (2 ^ 53) with 9007199254740992. rewrite <- HXP, Hmy.
    replace (Zpos mx * (X * P)) with (W * P) by (unfold W; ring).
    destruct (Z.div_eucl (W * P) (Zpos d * P)) as [q' r] eqn:E.
    assert (Hq : q' = q).
    { unfold q. rewrite <- (Z.div_mul_cancel_r W (Zpos d) P) by lia.
      unfold Z.div. rewrite E. reflexivity. }
    assert (Hr : r = rho * P).
    { unfold rho. rewrite <- Z.mul_mod_distr_r by lia. unfold Z.modulo. rewrite E.
      reflexivity. }
    subst q'. rewrite xorb_false_r. f_equal.
    unfold new_location.
    assert (Hev : Z.even (Zpos d * P) = true).
    { rewrite Z.even_mul. unfold P. replace (53 - L) with (1 + (52 - L)) by ring.
      rewrite Z.pow_add_r by lia. rewrite Z.even_mul. apply orb_true_r. }
    rewrite Hev. unfold new_location_even, locationAt. rewrite Hr.
    destruct (Z.eqb_spec rho 0) as [-> | Hne]; [reflexivity |].
    destruct (Z.eqb_spec (rho * P) 0) as [H0 | _]; [nia |].
    f_equal.
    destruct (Z.compare_spec (2 * (rho * P)) (Zpos d * P)),
      (Z.compare_spec (2 * rho) (Zpos d)); try reflexivity; nia. }
  rewrite E0, binary_round_aux_finish. unfold shr_fexp.
  destruct (Z.lt_ge_cases q 9007199254740992) as [Hlt | Hge].
  - rewrite (Zdigits2_unique q 53)
      by (change (2 ^ (53 - 1)) with 4503599627370496;
          change (2 ^ 53) with 9007199254740992; lia).
    rewrite fexp_normal by lia.
    replace (53 + (ex - L) - 53 - (ex - L)) with 0 by ring.
    cbn [shr]. rewrite loc_of_shr_record_of_loc.
    replace (shr_m (shr_record_of_loc q (locationAt (Zpos d) rho))) with q
      by (destruct (locationAt (Zpos d) rho) as [| []]; reflexivity).
    pose proof (round_nearest_even_at (Zpos d) q rho ltac:(lia)) as (M1 & M2 & M3).
    set (m := round_nearest_even q (locationAt (Zpos d) rho)) in *.
    exists m, 1, q, rho.
    split; [f_equal; ring |]. split; [auto |].
    change (2 ^ 52) with 4503599627370496.
    split; [lia |]. split; [intros; lia |]. split; [fold X; fold W; lia |].
    split; [lia |]. split; [exact M1 |]. split; intros; [apply M2 | apply M3]; lia.
  - rewrite (Zdigits2_unique q 54)
      by (change (2 ^ (54 - 1)) with 9007199254740992;
          change (2 ^ 54) with 18014398509481984; lia).
    rewrite fexp_normal by lia.
    replace (54 + (ex - L) - 53 - (ex - L)) with 1 by ring.
    cbn [shr iter_pos].
    pose proof (round_shifted_at (Zpos d) q rho ltac:(lia) B) as (M1 & M2 & M3).
    cbv zeta in M1, M2, M3.
    set (m := round_nearest_even _ _) in *.
    pose proof (Z.div_mod q 2 ltac:(lia)) as D2.
    pose proof (Z.mod_pos_bound q 2 ltac:(lia)) as B2.
    assert (Hm53 : m < 9007199254740992).
    { destruct (Z.lt_ge_cases m 9007199254740992) as [? | Hm]; [assumption | exfalso].
      assert (Hq2 : q / 2 = 9007199254740991) by lia.
      assert (HW : W <= Zpos d * 18014398509481982) by (unfold W; nia).
      assert (Hq : q = 18014398509481982) by nia.
      assert (Hrho : rho = 0) by nia.
      rewrite Hq, Hrho in M2.
      change (18014398509481982 mod 2) with 0 in M2.
      change (18014398509481982 / 2) with 9007199254740991 in M2. lia. }
    exists m, 2, (q / 2), (Zpos d * (q mod 2) + rho).
    split; [f_equal; ring |]. split; [auto |].
    change (2 ^ 52) with 4503599627370496.
    split; [lia |]. split; [intros; exact Hm53 |]. split; [fold X; fold W; nia |].
    split; [nia |]. split; [exact M1 |]. split; intros; [apply M2 | apply M3]; lia.
Qed.

Lemma roundFinish_finite (s : bool) (m e : Z) :
  2 ^ 52 <= m <= 2 ^ 53 -> -1000 <= e <= 900 ->
  exists (m' : positive) (K : Z),
    roundFinish s m e = S754_finite s m' (e + (K - 1))
    /\ (K = 1 \/ K = 2) /\ Zpos m' * K = m /\ Zpos (digits2_pos m') = 53.
Proof.
  intros Hm He. unfold roundFinish, shr_fexp.
  destruct (Z.eq_dec m (2 ^ 53)) as [-> | Hne].
  - change (Zdigits2 (2 ^ 53)) with 54. rewrite fexp_normal by lia.
    replace (54 + e - 53 - e) with 1 by ring.
    cbn [shr shr_record_of_loc iter_pos].
    change (shr_1 {| shr_m := 2 ^ 53; shr_r := false; shr_s := false |})
      with {| shr_m := 2 ^ 52; shr_r := false; shr_s := false |}.
    cbn [shr_m]. change (2 ^ 52) with (Zpos 4503599627370496).
    unfold Js.emax, Js.prec.
    destruct (Z.leb_spec (e + 1) (1024 - 53)); [| lia].
    exists 4503599627370496%positive, 2.
    split; [reflexivity |]. split; [auto |]. split; reflexivity.
  - assert (Hd : Zdigits2 m = 53)
      by (apply Zdigits2_unique; change (2 ^ (53 - 1)) with (2 ^ 52); lia).
    rewrite Hd, fexp_normal by lia.
    replace (53 + e - 53 - e) with 0 by ring.
    cbn [shr shr_record_of_loc shr_m].
    destruct m as [| p | p]; try lia.
    unfold Js.emax, Js.prec.
    destruct (Z.leb_spec e (1024 - 53)); [| lia].
    exists p, 1. split; [f_equal; ring |]. split; [auto |]. split; [lia | exact Hd].
Qed.

Lemma toFixed1_finite (m : positive) (e : Z) :
  Zpos m < 2 ^ 53 -> e < 0 ->
  Js.toFixed1 (S754_finite false m e)
  = Some (decimal1 ((20 * Zpos m + 2 ^ (- e)) / (2 * 2 ^ (- e)))).
Proof.
  intros Hm He. unfold Js.toFixed1, Js.atLeast1e21, Js.tenths.
  destruct (Z.leb_spec 0 e); [lia |].
  assert (HG : 0 < 2 ^ (- e)) by (apply Z.pow_pos_nonneg; lia).
  change (2 ^ 53) with 9007199254740992 in Hm.
  change (10 ^ 21) with 1000000000000000000000.
  destruct (Z.leb_spec (1000000000000000000000 * 2 ^ (- e)) (Zpos m)); [nia |].
  replace (2 ^ (1 - e)) with (2 * 2 ^ (- e))
    by (replace (1 - e) with (1 + - e) by ring; rewrite Z.pow_add_r by lia; reflexivity).
  reflexivity.
Qed.

(** The integer arithmetic of the printed tenths. [G] is the grid of the
    quotient, [m] its significand, nearest to [S * G / 3600]. *)
Lemma tenths_nearest (S G m : Z) :
  0 <= S -> 1800 < G ->
  - 1800 <= S * G - 3600 * m <= 1800 ->
  (S + 180) mod 360 <> 0 \/ S * G = 3600 * m ->
  (20 * m + G) / (2 * G) = (S + 180) / 360.
Proof.
  intros HS HG Hm Htie.
  pose proof (Z.div_mod (S + 180) 360 ltac:(lia)) as D.
  pose proof (Z.mod_pos_bound (S + 180) 360 ltac:(lia)) as B.
  set (N := (S + 180) / 360) in *. set (b := (S + 180) mod 360) in *.
  assert (ES : S * G = 360 * (N * G) + b * G - 180 * G) by nia.
  symmetry. apply (Z.div_unique _ _ N (20 * m + G - 2 * G * N)); [| ring].
  left.
  destruct Htie as [Hb | Hex].
  - assert (G <= b * G) by nia. assert (b * G <= 359 * G) by nia. lia.
  - assert (0 <= b * G) by nia. assert (b * G <= 359 * G) by nia. lia.
Qed.

(** Nearest significand and grid of [S / 3600]. *)
Lemma div_3600_nearest (S : Z) :
  0 < S < 2 ^ 53 ->
  exists (m : positive) (e : Z),
    Js.div (Js.ofZ S) (Js.ofZ 3600) = S754_finite false m e
    /\ Zpos (digits2_pos m) = 53
    /\ -70 <= e <= -11
    /\ (forall k, 0 <= k <= 53 -> S < 2 ^ k -> e <= k - 63)
    /\ - 1800 <= S * 2 ^ (- e) - 3600 * Zpos m <= 1800
    /\ (S mod 225 = 0 -> S * 2 ^ (- e) = 3600 * Zpos m).
Proof.
  intros HS.
  rewrite !ofZ_exact by (try rewrite Z.abs_eq by lia; try lia; reflexivity).
  destruct S as [| p | p]; try lia. cbn [exactDouble].
  pose proof (digits2_le_53 p ltac:(lia)) as Hp.
  pose proof (significand_value p ltac:(lia)) as Hv.
  pose proof (significand_digits p ltac:(lia)) as Hd.
  pose proof (digits2_bounds p) as Bp.
  set (dp := Zpos (digits2_pos p)) in *.
  assert (Hdp : 1 <= dp) by (unfold dp; lia).
  set (mx := significand p) in *.
  destruct (div_nearest false mx 3600 (dp - 53) Hd ltac:(reflexivity) ltac:(lia))
    as (m & K & q & T & E & HK & Hm & HK2 & HW & HT & M1 & M2 & M3).
  change (exactDouble 3600) with (S754_finite false (significand 3600) (12 - 53)) in E.
  change (S754_finite false 7916483719987200 (-41))
    with (S754_finite false (significand 3600) (12 - 53)).
  change (Zpos (digits2_pos 3600)) with 12 in *.
  rewrite E.
  destruct (roundFinish_finite false m (dp - 53 - 12 + (K - 1)) Hm)
    as (m' & K' & E' & HK' & Hm' & Hd'); [destruct HK; subst K; lia |].
  rewrite E'. exists m'. eexists. split; [reflexivity |]. split; [exact Hd' |].
  assert (HKK : K = 1 \/ K' = 1).
  { destruct HK as [? | ->]; [auto |]. destruct HK' as [? | ->]; [auto | exfalso].
    pose proof (digits2_bounds m') as Bm'. rewrite Hd' in Bm'.
    change (2 ^ (53 - 1)) with 4503599627370496 in Bm'.
    specialize (HK2 eq_refl). change (2 ^ 53) with 9007199254740992 in HK2. lia. }
  set (e := dp - 53 - 12 + (K - 1) + (K' - 1)).
  split; [destruct HK, HK'; subst K K'; unfold e; lia |].
  split.
  { intros k Hk Hlt. assert (dp <= k) by (apply digits2_lt; lia).
    destruct HK, HK'; subst K K'; unfold e; lia. }
  set (G := 2 ^ (- e)).
  assert (HG : G * K * K' = 2 ^ (53 - dp) * 4096).
  { unfold G, e. change 4096 with (2 ^ 12). rewrite <- Z.pow_add_r by lia.
    destruct HK, HK'; subst K K'.
    - rewrite !Z.mul_1_r. f_equal. ring.
    - replace (53 - dp + 12) with (- (dp - 53 - 12 + (1 - 1) + (2 - 1)) + 1) by ring.
      rewrite Z.pow_add_r by lia. change (2 ^ 1) with 2. ring.
    - replace (53 - dp + 12) with (- (dp - 53 - 12 + (2 - 1) + (1 - 1)) + 1) by ring.
      rewrite Z.pow_add_r by lia. change (2 ^ 1) with 2. ring.
    - replace (53 - dp + 12) with (- (dp - 53 - 12 + (2 - 1) + (2 - 1)) + 2) by ring.
      rewrite Z.pow_add_r by lia. change (2 ^ 2) with 4. ring. }
  assert (HSG : Zpos p * G * K * K' = 3600 * K * q + T).
  { rewrite <- HW, Hv. change (2 ^ 12) with 4096.
    rewrite <- !Z.mul_assoc. rewrite (Z.mul_assoc G), HG. ring. }
  assert (HGpos : 0 < G) by (apply Z.pow_pos_nonneg;
                              destruct HK, HK'; subst K K'; unfold e; lia).
  split.
  - destruct HK, HK'; subst K K'; nia.
  - intros H225.
    pose proof (Z.div_mod (Zpos p) 225 ltac:(lia)) as D. rewrite H225 in D.
    set (a := Zpos p / 225) in *.
    assert (Hmul : exists c, Zpos mx * 2 ^ 12 = 3600 * (2 * c)).
    { exists (a * 2 ^ (53 - dp) * 128). rewrite Hv, D. change (2 ^ 12) with 4096. ring. }
    destruct Hmul as (c & Hc).
    assert (HT0 : T = 0) by (rewrite Hc in HW; destruct HK; subst K; lia).
    subst T. assert (m = q) by (apply M2; lia). subst q.
    destruct HK, HK'; subst K K'; nia.
Qed.

(** [(seconds / 3600).toFixed(1)] prints seconds rounded to the nearest
    tenth of an hour, ties (where binary64 holds them exactly) upwards. *)
Lemma hours_printed (S : Z) :
  0 <= S < 2 ^ 53 ->
  halfTenth S 1 = false \/ S mod 225 = 0 ->
  Js.toFixed1 (Js.div (Js.ofZ S) (Js.ofZ 3600)) = Some (decimal1 (tenthsOfHours S 1)).
Proof.
  unfold halfTenth, tenthsOfHours. rewrite Z.eqb_neq.
  change (180 * 1) with 180. change (360 * 1) with 360.
  intros HS Htie.
  destruct (Z.eq_dec S 0) as [-> | Hne]; [reflexivity |].
  destruct (div_3600_nearest S ltac:(lia)) as (m & e & E & Hd & He & _ & Hn & Hex).
  rewrite E.
  pose proof (digits2_bounds m) as Bm. rewrite Hd in Bm.
  rewrite toFixed1_finite by lia.
  f_equal. f_equal.
  assert (HG : 2 ^ 11 <= 2 ^ (- e)) by (apply Z.pow_le_mono_r; lia).
  change (2 ^ 11) with 2048 in HG.
  apply tenths_nearest; [lia | lia | exact Hn |].
  destruct Htie as [H | H]; [left; exact H | right; apply Hex, H].
Qed.

(** The same arithmetic after a second division, by the number of days. *)
Lemma average_nearest (S D G1 m1 X C m2 G2 : Z) :
  0 <= S -> 1 <= D -> 8192 <= G1 -> D < X <= 2 * D ->
  - 1800 <= S * G1 - 3600 * m1 <= 1800 ->
  C = 1 \/ C = 2 -> G2 * C = G1 * X ->
  - (D * C) <= 2 * (D * C * m2 - m1 * X) <= D * C ->
  (S + 180 * D) mod (360 * D) <> 0 ->
  (20 * m2 + G2) / (2 * G2) = (S + 180 * D) / (360 * D).
Proof.
  intros HS HD HG1 HX H1 HC HG2 H2 Htie.
  pose proof (Z.div_mod (S + 180 * D) (360 * D) ltac:(lia)) as Dv.
  pose proof (Z.mod_pos_bound (S + 180 * D) (360 * D) ltac:(lia)) as B.
  set (N := (S + 180 * D) / (360 * D)) in *.
  set (b := (S + 180 * D) mod (360 * D)) in *.
  set (Y := G1 * X) in *.
  assert (HY : 8192 * D < Y) by (unfold Y; nia).
  assert (HG2pos : 0 < G2) by nia.
  set (Z1 := m1 * X) in *.
  assert (F1 : - (3600 * D) <= S * Y - 3600 * Z1 <= 3600 * D).
  { unfold Y, Z1.
    replace (S * (G1 * X) - 3600 * (m1 * X)) with ((S * G1 - 3600 * m1) * X) by ring.
    nia. }
  set (M := D * C * m2) in *.
  assert (F2 : - (3600 * D) <= 3600 * M - 3600 * Z1 <= 3600 * D)
    by (destruct HC; subst C; lia).
  assert (ES : S * Y = 360 * (D * N * Y) + b * Y - 180 * (D * Y)) by nia.
  assert (Hb1 : Y <= b * Y) by nia.
  assert (Hb2 : b * Y <= 360 * (D * Y) - Y) by nia.
  set (r := 20 * m2 + G2 - 2 * G2 * N).
  assert (Er : 180 * (D * C) * r = 3600 * M + 180 * (D * Y) - 360 * (D * N * Y)).
  { unfold r, M. rewrite <- HG2. ring. }
  assert (Hr : 0 < 180 * (D * C) * r < 360 * (D * Y)) by lia.
  symmetry. apply (Z.div_unique _ _ N r); [| unfold r; ring].
  left. rewrite <- HG2 in Hr.
  assert (0 < D * C) by (destruct HC; subst C; lia).
  split; [nia |].
  assert (180 * (D * C) * r < 180 * (D * C) * (2 * G2)) by lia.
  apply (Z.mul_lt_mono_pos_l (180 * (D * C))); lia.
Qed.

(** [((seconds / 3600) / days).toFixed(1)]: seconds over the days,
    rounded to the nearest tenth of an hour, away from the ties. *)
Lemma average_printed (S D : Z) :
  0 <= S < 2 ^ 50 -> 1 <= D < 2 ^ 52 ->
  halfTenth S D = false ->
  Js.toFixed1 (Js.div (Js.div (Js.ofZ S) (Js.ofZ 3600)) (Js.ofZ D))
  = Some (decimal1 (tenthsOfHours S D)).
Proof.
  unfold halfTenth, tenthsOfHours. rewrite Z.eqb_neq.
  intros HS HD Htie.
  assert (H5253 : 2 ^ 52 < 2 ^ 53) by (apply Z.pow_lt_mono_r; lia).
  assert (H5053 : 2 ^ 50 < 2 ^ 53) by (apply Z.pow_lt_mono_r; lia).
  rewrite (ofZ_exact D) by (rewrite Z.abs_eq; lia).
  destruct D as [| d | d]; try lia.
  destruct (Z.eq_dec S 0) as [-> | Hne].
  { change (Js.div (Js.ofZ 0) (Js.ofZ 3600)) with (S754_zero false).
    cbn [exactDouble Js.div SFdiv xorb Js.toFixed1].
    rewrite Z.div_small by lia. reflexivity. }
  destruct (div_3600_nearest S ltac:(lia)) as (m1 & e1 & E1 & Hd1 & He1 & Hk & Hn1 & _).
  rewrite E1.
  specialize (Hk 50 ltac:(lia) ltac:(lia)).
  destruct (div_nearest false m1 d e1 Hd1 ltac:(lia) ltac:(lia))
    as (n2 & K & q & T & E2 & HK & Hn2 & HK2 & HW & HT & M1 & M2 & M3).
  rewrite E2.
  pose proof (digits2_bounds d) as Bd.
  pose proof (digits2_lt d 52 ltac:(lia) ltac:(lia)) as HL.
  set (L := Zpos (digits2_pos d)) in *.
  assert (HL1 : 1 <= L) by (unfold L; lia).
  destruct (roundFinish_finite false n2 (e1 - L + (K - 1)) Hn2)
    as (m2 & K' & E' & HK' & Hm2 & Hd2); [destruct HK; subst K; lia |].
  rewrite E'.
  assert (HKK : K = 1 \/ K' = 1).
  { destruct HK as [? | ->]; [auto |]. destruct HK' as [? | ->]; [auto | exfalso].
    pose proof (digits2_bounds m2) as Bm'. rewrite Hd2 in Bm'.
    change (2 ^ (53 - 1)) with 4503599627370496 in Bm'.
    specialize (HK2 eq_refl). change (2 ^ 53) with 9007199254740992 in HK2. lia. }
  pose proof (digits2_bounds m2) as Bm2. rewrite Hd2 in Bm2.
  set (e2 := e1 - L + (K - 1) + (K' - 1)).
  assert (He2 : e2 < 0) by (destruct HK, HK'; subst K K'; unfold e2; lia).
  rewrite toFixed1_finite by lia.
  f_equal. f_equal.
  set (X := 2 ^ L) in *.
  assert (HX : Zpos d < X <= 2 * Zpos d).
  { unfold X. replace L with (1 + (L - 1)) at 2 by ring.
    rewrite Z.pow_add_r by lia. change (2 ^ 1) with 2. lia. }
  assert (HG1 : 2 ^ 13 <= 2 ^ (- e1)) by (apply Z.pow_le_mono_r; lia).
  change (2 ^ 13) with 8192 in HG1.
  assert (HG : 2 ^ (- e2) * (K * K') = 2 ^ (- e1) * X).
  { unfold X, e2. rewrite <- Z.pow_add_r by lia.
    destruct HK, HK'; subst K K'.
    - rewrite !Z.mul_1_r. f_equal. ring.
    - replace (- e1 + L) with (- (e1 - L + (1 - 1) + (2 - 1)) + 1) by ring.
      rewrite Z.pow_add_r by lia. change (2 ^ 1) with 2. ring.
    - replace (- e1 + L) with (- (e1 - L + (2 - 1) + (1 - 1)) + 1) by ring.
      rewrite Z.pow_add_r by lia. change (2 ^ 1) with 2. ring.
    - exfalso. destruct HKK; discriminate. }
  apply (average_nearest S (Zpos d) (2 ^ (- e1)) (Zpos m1) X (K * K'));
    try assumption; lia.
Qed.

(** ** Running a handler *)

Lemma run_ret {A : Type} (a : A) (s : Store) : run (ret a) s = inr (a, s).
Proof. reflexivity. Qed.

Lemma run_bind {A B : Type} (m : Handler A) (f : A -> Handler B) (s : Store) :
  run (bind m f) s =
  match run m s with
  | inl e => inl e
  | inr (a, s') => run (f a) s'
  end.
Proof. unfold run. cbn. destruct (runStateT m s) as [e | [a s']]; reflexivity. Qed.

Lemma run_get (s : Store) : run get s = inr (s, s).
Proof. reflexivity. Qed.

Lemma run_put (s' s : Store) : run (put s') s = inr (tt, s').
Proof. reflexivity. Qed.

Lemma run_raise {A : Type} (e : Failure) (s : Store) :
  run (raise e : Handler A) s = inl e.
Proof. reflexivity. Qed.

Lemma run_catch {A : Type} (m : Handler A) (h : Failure -> Handler A) (s : Store) :
  run (catch m h) s =
  match run m s with
  | inl e => run (h e) s
  | inr x => inr x
  end.
Proof. unfold run. cbn. destruct (runStateT m s) as [e | [a s']]; reflexivity. Qed.

Lemma requireAdmin_run (c : Caller.t) (s : Store) :
  run (requireAdmin c) s =
  match Caller.role c with
  | admin => inr (tt, s)
  | employee => inl ForbiddenError
  end.
Proof. unfold requireAdmin. destruct (Caller.role c); reflexivity. Qed.

Lemma User_findOne_run (p : User.t -> bool) (s : Store) :
  run (User_findOne p) s = inr (List.find p (users s), s).
Proof. reflexivity. Qed.

Lemma User_countDocuments_run (p : User.t -> bool) (s : Store) :
  run (User_countDocuments p) s
  = inr (Z.of_nat (List.length (List.filter p (users s))), s).
Proof. reflexivity. Qed.

Lemma User_create_run (u : User.t) (s : Store) :
  run (User_create u) s =
  if User.valid u && negb (List.existsb (User.clashes u) (users s))
  then inr (tt, mkStore (users s ++ [u])%list (timeRecords s))
  else inl InternalError.
Proof.
  unfold User_create. rewrite run_bind, run_get.
  destruct (_ && _); reflexivity.
Qed.

Lemma User_findOneAndDelete_run (p : User.t -> bool) (s : Store) :
  run (User_findOneAndDelete p) s
  = inr (tt, mkStore (removeFirst p (users s)) (timeRecords s)).
Proof. reflexivity. Qed.

Lemma TimeRecord_find_run (p : TimeRecord.t -> bool) (s : Store) :
  run (TimeRecord_find p) s = inr (List.filter p (timeRecords s), s).
Proof. reflexivity. Qed.

Lemma TimeRecord_findOne_run (p : TimeRecord.t -> bool) (s : Store) :
  run (TimeRecord_findOne p) s = inr (findFirst p (timeRecords s), s).
Proof. reflexivity. Qed.

Lemma TimeRecord_countDocuments_run (p : TimeRecord.t -> bool) (s : Store) :
  run (TimeRecord_countDocuments p) s
  = inr (Z.of_nat (List.length (List.filter p (timeRecords s))), s).
Proof. reflexivity. Qed.

Lemma TimeRecord_create_run (r : TimeRecord.t) (s : Store) :
  run (TimeRecord_create r) s =
  if TimeRecord.valid r
     && negb (List.existsb (fun x => (TimeRecord.id x =? TimeRecord.id r)%string)
                           (timeRecords s))
  then inr (tt, mkStore (users s) (timeRecords s ++ [r])%list)
  else inl InternalError.
Proof.
  unfold TimeRecord_create. rewrite run_bind, run_get.
  destruct (_ && _); reflexivity.
Qed.

Lemma TimeRecord_save_run (i : nat) (r : TimeRecord.t) (s : Store) :
  run (TimeRecord_save i r) s
  = inr (tt, mkStore (users s) (replaceAt i r (timeRecords s))).
Proof. reflexivity. Qed.

Lemma TimeRecord_deleteMany_run (p : TimeRecord.t -> bool) (s : Store) :
  run (TimeRecord_deleteMany p) s
  = inr (tt, mkStore (users s) (List.filter (fun r => negb (p r)) (timeRecords s))).
Proof. reflexivity. Qed.

Create Rewrite HintDb run.
#[local] Hint Rewrite @run_bind @run_ret @run_get @run_put @run_raise @run_catch
  requireAdmin_run User_findOne_run User_countDocuments_run User_create_run
  User_findOneAndDelete_run TimeRecord_find_run TimeRecord_findOne_run
  TimeRecord_countDocuments_run TimeRecord_create_run TimeRecord_save_run
  TimeRecord_deleteMany_run : run.

(** Unfold the handler in the goal one monadic step at a time. *)
Ltac step_run := autorewrite with run; cbv beta iota zeta.

(** *** What each handler computes *)

Lemma startTimer_run (c : Caller.t) (project task : string) (now : Z) (s : Store) :
  run (startTimer c project task now) s =
  match findFirst (matches (runningQuery (Some (Caller.id c)))) (timeRecords s) with
  | Some _ => inl ConflictError
  | None =>
      match List.find (fun u => (User.id u =? Caller.id c)%string) (users s) with
      | None => inl InternalError
      | Some user =>
          let timer := newTimer c user project task now in
          if TimeRecord.valid timer
             && negb (List.existsb
                        (fun x => (TimeRecord.id x =? TimeRecord.id timer)%string)
                        (timeRecords s))
          then inr (timer, mkStore (users s) (timeRecords s ++ [timer])%list)
          else inl InternalError
      end
  end.
Proof.
  unfold startTimer. step_run.
  destruct (findFirst _ _) as [[i r] |]; step_run; [reflexivity |].
  destruct (List.find _ _) as [u |]; step_run; [| reflexivity].
  destruct (_ && _); step_run; reflexivity.
Qed.

Lemma manualEntry_run (c : Caller.t) (project task : string)
    (startTime endTime now : Z) (s : Store) :
  run (manualEntry c project task startTime endTime now) s =
  match List.find (fun u => (User.id u =? Caller.id c)%string) (users s) with
  | None => inl InternalError
  | Some user =>
      if Js.isValid startTime && Js.isValid endTime then
        match elapsedSeconds startTime endTime with
        | Some durationSeconds =>
            let record :=
              newRecord c user project task startTime endTime durationSeconds now in
            if TimeRecord.valid record
               && negb (List.existsb
                          (fun x => (TimeRecord.id x =? TimeRecord.id record)%string)
                          (timeRecords s))
            then inr (record, mkStore (users s) (timeRecords s ++ [record])%list)
            else inl InternalError
        | None => inl InternalError
        end
      else inl InternalError
  end.
Proof.
  unfold manualEntry. step_run.
  destruct (List.find _ _) as [u |]; step_run; [| reflexivity].
  unfold Js.newDate.
  destruct (Js.isValid startTime); [| reflexivity].
  destruct (Js.isValid endTime); [| reflexivity]. cbn [andb].
  destruct (elapsedSeconds startTime endTime) as [d |]; [| reflexivity].
  step_run. destruct (_ && _); step_run; reflexivity.
Qed.

(** Between two instants of magnitude below 2^53 that are less than 2^53
    milliseconds apart, which covers the valid Dates up to 285 000 years
    apart, the server's binary64 computation is the integer one. *)
Lemma elapsedSeconds_exact (startTime endTime : Z) :
  Z.abs startTime < 2 ^ 53 -> Z.abs endTime < 2 ^ 53 ->
  Z.abs (endTime - startTime) < 2 ^ 53 ->
  elapsedSeconds startTime endTime = Some ((endTime - startTime) / 1000).
Proof.
  intros Hs He Hd. unfold elapsedSeconds.
  rewrite !ofZ_exact by (try assumption; simpl; lia).
  rewrite sub_exact by assumption. apply floor_div_1000, Hd.
Qed.

Lemma isValid_bound (v : Z) : Js.isValid v = true -> Z.abs v < 2 ^ 53.
Proof.
  unfold Js.isValid, Js.maxTime. intros H. apply Z.leb_le in H.
  change (2 ^ 53) with 9007199254740992. lia.
Qed.

Lemma stopTimer_run (c : Caller.t) (id : string) (now : Z) (s : Store) :
  run (stopTimer c id now) s =
  match findFirst (ownedBy id (Caller.id c)) (timeRecords s) with
  | None => inl NotFoundError
  | Some (i, timer) =>
      inr (stopped now timer,
           mkStore (users s) (replaceAt i (stopped now timer) (timeRecords s)))
  end.
Proof.
  unfold stopTimer. step_run.
  destruct (findFirst _ _) as [[i r] |]; step_run; reflexivity.
Qed.

Lemma pauseTimer_run (c : Caller.t) (id action : string) (s : Store) :
  run (pauseTimer c id action) s =
  match findFirst (ownedBy id (Caller.id c)) (timeRecords s) with
  | None => inl NotFoundError
  | Some (i, timer) =>
      inr (toggled action timer,
           mkStore (users s) (replaceAt i (toggled action timer) (timeRecords s)))
  end.
Proof.
  unfold pauseTimer. step_run.
  destruct (findFirst _ _) as [[i r] |]; step_run; reflexivity.
Qed.

Lemma deleteEmployee_run (c : Caller.t) (id : string) (s : Store) :
  run (deleteEmployee c id) s =
  match Caller.role c with
  | admin =>
      inr (tt, mkStore (removeFirst (fun u => (User.id u =? id)%string) (users s))
                       (List.filter (fun r => negb (TimeRecord.userId r =? id)%string)
                                    (timeRecords s)))
  | employee => inl ForbiddenError
  end.
Proof.
  unfold deleteEmployee. step_run.
  destruct (Caller.role c); step_run; reflexivity.
Qed.

Lemma adminRecords_run {tz : Js.TimeZone} (c : Caller.t)
    (dateRange employeeId project : option string)
    (now : Z) (s : Store) :
  run (adminRecords tz c dateRange employeeId project now) s =
  match Caller.role c with
  | admin =>
      inr (firstn 100
             (sortNewestFirst
                (List.filter (matches (adminRecordsQuery tz dateRange employeeId project now))
                             (timeRecords s))), s)
  | employee => inl ForbiddenError
  end.
Proof.
  unfold adminRecords. step_run.
  destruct (Caller.role c); step_run; reflexivity.
Qed.

Lemma employeeRecords_run {tz : Js.TimeZone} (c : Caller.t) (dateRange project : option string)
    (now : Z) (s : Store) :
  run (employeeRecords tz c dateRange project now) s =
  inr (sortNewestFirst
         (List.filter (matches (employeeRecordsQuery tz c dateRange project now))
                      (timeRecords s)), s).
Proof. unfold employeeRecords. step_run. reflexivity. Qed.

(** ** Strings *)

Lemma append_nonempty (a : string) (c : ascii) (b : string) :
  (a ++ String c b =? "")%string = false.
Proof. destruct a; reflexivity. Qed.

Lemma uint_digits (d : Decimal.uint) (rest : string) :
  skipDigits (NilEmpty.string_of_uint d ++ rest) = skipDigits rest.
Proof. induction d; simpl; auto. Qed.

Lemma ToString_digits (z : Z) (rest : string) :
  0 <= z -> skipDigits (Js.ToString z ++ rest) = skipDigits rest.
Proof.
  intros Hz. unfold Js.ToString.
  destruct z as [| p | p]; [reflexivity | | lia].
  unfold Z.to_int, NilZero.string_of_int, NilZero.string_of_uint.
  destruct (Pos.to_uint p) eqn:E; try apply (uint_digits _ rest).
  reflexivity.
Qed.

(** ** C8: formatDuration *)

Lemma formatDuration_hours (s : Z) :
  3600 <= s ->
  formatDuration s
  = Js.ToString (s / 3600) ++ "h " ++ Js.ToString (s mod 3600 / 60) ++ "m".
Proof.
  intros H. unfold formatDuration.
  assert (0 < s / 3600) by (apply Z.div_str_pos; lia).
  rewrite Z.rem_mod_nonneg by lia.
  destruct (Z.ltb_spec 0 (s / 3600)); [reflexivity | lia].
Qed.

Lemma formatDuration_minutes (s : Z) :
  60 <= s < 3600 ->
  formatDuration s = Js.ToString (s / 60) ++ "m " ++ Js.ToString (s mod 60) ++ "s".
Proof.
  intros H. unfold formatDuration.
  rewrite (Z.div_small s 3600) by lia.
  rewrite !Z.rem_mod_nonneg by lia.
  rewrite (Z.mod_small s 3600) by lia.
  assert (0 < s / 60) by (apply Z.div_str_pos; lia).
  destruct (Z.ltb_spec 0 (s / 60)); [reflexivity | lia].
Qed.

Lemma formatDuration_seconds (s : Z) :
  0 <= s < 60 -> formatDuration s = Js.ToString s ++ "s".
Proof.
  intros H. unfold formatDuration.
  rewrite (Z.div_small s 3600) by lia.
  rewrite !Z.rem_mod_nonneg by lia.
  rewrite (Z.mod_small s 3600), (Z.div_small s 60), (Z.mod_small s 60) by lia.
  reflexivity.
Qed.

(** C8. For a non-negative number of seconds [s], [formatDuration s] is
    "{hours}h {minutes}m" from 3600 up (floor division, seconds dropped),
    "{minutes}m {seconds}s" from 60 to 3599 and "{s}s" below 60; the three
    sample values are as the spec gives them; and the unit read back from
    the output is the bucket [s] falls in. *)
Theorem formatDuration_buckets (s : Z) :
  0 <= s ->
  (3600 <= s ->
   formatDuration s
   = Js.ToString (s / 3600) ++ "h " ++ Js.ToString (s mod 3600 / 60) ++ "m")
  /\ (60 <= s < 3600 ->
      formatDuration s = Js.ToString (s / 60) ++ "m " ++ Js.ToString (s mod 60) ++ "s")
  /\ (s < 60 -> formatDuration s = Js.ToString s ++ "s")
  /\ formatDuration 3661 = "1h 1m"
  /\ formatDuration 125 = "2m 5s"
  /\ formatDuration 45 = "45s"
  /\ parseBucket (formatDuration s) = Some (bucketOf s).
Proof.
  intros Hs.
  split; [apply formatDuration_hours |].
  split; [apply formatDuration_minutes |].
  split; [intros; apply formatDuration_seconds; lia |].
  repeat (split; [reflexivity |]).
  unfold bucketOf, parseBucket.
  destruct (Z.leb_spec 3600 s) as [Hh | Hh].
  - rewrite formatDuration_hours by exact Hh.
    rewrite ToString_digits by (apply Z.div_pos; lia). reflexivity.
  - destruct (Z.leb_spec 60 s) as [Hm | Hm].
    + rewrite formatDuration_minutes by lia.
      rewrite ToString_digits by (apply Z.div_pos; lia). reflexivity.
    + rewrite formatDuration_seconds by lia.
      rewrite ToString_digits by lia. reflexivity.
Qed.

Lemma formatDuration_buckets_witness :
  0 <= 7325
  /\ formatDuration 7325 = "2h 2m"
  /\ parseBucket (formatDuration 7325) = Some Hours.
Proof.
  assert (H : 0 <= 7325) by lia.
  destruct (formatDuration_buckets 7325 H) as (Hh & _ & _ & _ & _ & _ & Hp).
  split; [exact H |].
  split; [rewrite Hh by lia; reflexivity | exact Hp].
Defined.

(** ** Collections *)

Section CollectionFacts.
Context {A : Type}.
Implicit Types (p q : A -> bool) (l : list A).

Lemma findFrom_None p l i :
  findFrom i p l = None <-> (forall x, In x l -> p x = false).
Proof.
  revert i. induction l as [| a l IH]; intros i; simpl.
  - split; [intros _ x [] | reflexivity].
  - destruct (p a) eqn:Ha.
    + split; [discriminate |].
      intros H. rewrite (H a) in Ha by auto. discriminate.
    + rewrite IH. split.
      * intros H x [<- | Hx]; auto.
      * intros H x Hx. apply H. auto.
Qed.

Lemma findFrom_Some p l i j x :
  findFrom i p l = Some (j, x) ->
  In x l /\ p x = true /\ (i <= j)%nat /\ nth_error l (j - i) = Some x.
Proof.
  revert i. induction l as [| a l IH]; intros i; simpl; [discriminate |].
  destruct (p a) eqn:Ha.
  - intros [= <- <-]. rewrite Nat.sub_diag. auto.
  - intros H. destruct (IH _ H) as (Hin & Hp & Hle & Hn).
    repeat split; auto; [lia |].
    replace (j - i)%nat with (S (j - S i)) by lia. exact Hn.
Qed.

Lemma findFirst_None p l :
  findFirst p l = None <-> (forall x, In x l -> p x = false).
Proof. apply findFrom_None. Qed.

Lemma findFirst_Some p l j x :
  findFirst p l = Some (j, x) ->
  In x l /\ p x = true /\ nth_error l j = Some x.
Proof.
  intros H. destruct (findFrom_Some _ _ _ _ _ H) as (? & ? & _ & Hn).
  rewrite Nat.sub_0_r in Hn. auto.
Qed.

Lemma findFrom_find p l i : option_map snd (findFrom i p l) = List.find p l.
Proof.
  revert i. induction l as [| a l IH]; intros i; simpl; [reflexivity |].
  destruct (p a); [reflexivity | apply IH].
Qed.

Lemma filter_nil_iff p l :
  List.filter p l = [] <-> (forall x, In x l -> p x = false).
Proof.
  induction l as [| a l IH]; simpl.
  - split; [intros _ x [] | reflexivity].
  - destruct (p a) eqn:Ha.
    + split; [discriminate |].
      intros H. rewrite (H a) in Ha by auto. discriminate.
    + rewrite IH. split.
      * intros H x [<- | Hx]; auto.
      * intros H x Hx. apply H. auto.
Qed.

(** Filtering twice: the weaker test is redundant. *)
Lemma filter_implied p q l :
  (forall x, p x = true -> q x = true) ->
  List.filter p (List.filter q l) = List.filter p l.
Proof.
  intros H. induction l as [| a l IH]; simpl; [reflexivity |].
  destruct (q a) eqn:Hq; simpl.
  - destruct (p a); [f_equal |]; exact IH.
  - destruct (p a) eqn:Hp; [| exact IH].
    rewrite (H a Hp) in Hq. discriminate.
Qed.

Lemma In_replaceAt i y l x :
  In x (replaceAt i y l) -> x = y \/ In x l.
Proof.
  revert i. induction l as [| a l IH]; intros i; simpl; [tauto |].
  destruct i as [| k]; simpl.
  - intros [<- | H]; auto.
  - intros [<- | H]; auto. destruct (IH _ H); auto.
Qed.

End CollectionFacts.

(** ** The state of a record *)

Lemma isRunning_state (r : TimeRecord.t) :
  TimeRecord.isRunning r = true <-> stateOf r = Running \/ stateOf r = Paused.
Proof.
  unfold stateOf.
  destruct (TimeRecord.isRunning r), (TimeRecord.isPaused r);
    split; intros H; try (destruct H as [H | H]); auto; discriminate.
Qed.

Lemma matches_running (u : string) (r : TimeRecord.t) :
  matches (runningQuery (Some u)) r = true
  <-> TimeRecord.userId r = u /\ TimeRecord.isRunning r = true.
Proof.
  unfold matches, runningQuery; simpl.
  rewrite andb_true_r, andb_true_iff, String.eqb_eq.
  destruct (TimeRecord.isRunning r); simpl; intuition congruence.
Qed.

(** A user has an open record exactly when the start handler's lookup
    finds one. *)
Lemma hasActive_findFirst (u : string) (s : Store) :
  (exists r, In r (timeRecords s) /\ TimeRecord.userId r = u
             /\ (stateOf r = Running \/ stateOf r = Paused))
  <-> findFirst (matches (runningQuery (Some u))) (timeRecords s) <> None.
Proof.
  split.
  - intros (r & Hin & Hu & Hst) Hnone.
    rewrite findFirst_None in Hnone. specialize (Hnone r Hin).
    apply isRunning_state in Hst.
    assert (matches (runningQuery (Some u)) r = true) by (apply matches_running; auto).
    congruence.
  - intros H. destruct (findFirst _ _) as [[i r] |] eqn:E; [| congruence].
    apply findFirst_Some in E. destruct E as (Hin & Hm & _).
    apply matches_running in Hm. destruct Hm as [Hu Hr].
    exists r. rewrite <- isRunning_state. auto.
Qed.


(** ** Creating records *)

Lemma toISODate_nonempty (t : Z) : (Js.toISODate t =? "")%string = false.
Proof.
  unfold Js.toISODate. destruct (Js.civil (Js.Day t)) as [[y m] d].
  unfold Js.isoDate. simpl. apply append_nonempty.
Qed.

Lemma canCreate_inv (c : Caller.t) (project task newId : string) (s : Store) :
  canCreate c project task newId s = true ->
  exists u,
    List.find (fun u => (User.id u =? Caller.id c)%string) (users s) = Some u
    /\ (Caller.id c =? "")%string = false
    /\ (project =? "")%string = false
    /\ (task =? "")%string = false
    /\ (User.email u =? "")%string = false
    /\ List.existsb (fun r => (TimeRecord.id r =? newId)%string) (timeRecords s) = false.
Proof.
  unfold canCreate. rewrite !andb_true_iff, !negb_true_iff.
  intros ((((Hc & Hp) & Ht) & Hu) & Hid).
  destruct (List.find _ (users s)) as [u |]; [| discriminate].
  exists u. rewrite negb_true_iff in Hu. auto 10.
Qed.

Lemma canCreate_false (c : Caller.t) (project task newId : string) (s : Store) :
  canCreate c project task newId s = false ->
  match List.find (fun u => (User.id u =? Caller.id c)%string) (users s) with
  | None => True
  | Some u =>
      negb (Caller.id c =? "")%string && negb (User.email u =? "")%string
      && negb (project =? "")%string && negb (task =? "")%string
      && negb (List.existsb (fun r => (TimeRecord.id r =? newId)%string) (timeRecords s))
      = false
  end.
Proof.
  unfold canCreate. destruct (List.find _ (users s)) as [u |]; [| trivial].
  destruct (Caller.id c =? "")%string, (project =? "")%string, (task =? "")%string,
    (User.email u =? "")%string; simpl; auto.
Qed.

Lemma newTimer_valid (c : Caller.t) (u : User.t) (project task : string) (now : Z) :
  TimeRecord.valid (newTimer c u project task now)
  = negb (Caller.id c =? "")%string && negb (User.email u =? "")%string
    && negb (project =? "")%string && negb (task =? "")%string.
Proof.
  unfold TimeRecord.valid, newTimer; simpl.
  rewrite append_nonempty, toISODate_nonempty. simpl.
  rewrite !andb_true_r. reflexivity.
Qed.

Lemma newRecord_valid (c : Caller.t) (u : User.t) (project task : string)
    (st et secs now : Z) :
  TimeRecord.valid (newRecord c u project task st et secs now)
  = negb (Caller.id c =? "")%string && negb (User.email u =? "")%string
    && negb (project =? "")%string && negb (task =? "")%string.
Proof.
  unfold TimeRecord.valid, newRecord; simpl.
  rewrite append_nonempty, toISODate_nonempty. simpl.
  rewrite !andb_true_r. reflexivity.
Qed.

(** The records after a manual entry: the old ones, and at most one new
    closed record. *)
Lemma manualEntry_records (c : Caller.t) (project task : string)
    (st et now : Z) (s : Store) :
  timeRecords (exec (ManualEntry c project task st et) now s) = timeRecords s
  \/ exists u d,
       elapsedSeconds st et = Some d
       /\ timeRecords (exec (ManualEntry c project task st et) now s)
          = (timeRecords s ++ [newRecord c u project task st et d now])%list.
Proof.
  unfold exec, after. rewrite manualEntry_run.
  destruct (List.find _ (users s)) as [u |]; [| auto].
  destruct (_ && _); [| auto].
  destruct (elapsedSeconds st et) as [d |]; [| auto].
  cbv zeta. destruct (_ && _); [right; exists u, d; split; reflexivity | auto].
Qed.

Lemma startTimer_conflict (c : Caller.t) (project task : string) (now : Z) (s : Store) :
  run (startTimer c project task now) s = inl ConflictError
  <-> findFirst (matches (runningQuery (Some (Caller.id c)))) (timeRecords s) <> None.
Proof.
  rewrite startTimer_run.
  destruct (findFirst _ _) as [[i r] |].
  - split; [discriminate | reflexivity].
  - split; [| congruence].
    destruct (List.find _ _); [cbv zeta; destruct (_ && _) |]; discriminate.
Qed.

(** ** C1: starting a timer *)



(** Outside the well-formed requests a start that meets no open record
    ends in the handler's catch branch. *)
Lemma startTimer_internal_error (c : Caller.t) (project task : string) (now : Z)
    (s : Store) :
  findFirst (matches (runningQuery (Some (Caller.id c)))) (timeRecords s) = None ->
  canCreate c project task ("timer_" ++ Js.ToString now) s = false ->
  run (startTimer c project task now) s = inl InternalError.
Proof.
  intros Hnone Hcan. apply canCreate_false in Hcan.
  rewrite startTimer_run, Hnone.
  destruct (List.find _ (users s)) as [u |]; [| reflexivity].
  cbv zeta. rewrite newTimer_valid.
  change (TimeRecord.id (newTimer c u project task now))
    with ("timer_" ++ Js.ToString now).
  rewrite <- !andb_assoc in *. rewrite Hcan. reflexivity.
Qed.

(** ** Where the records of a store come from *)

Lemma addEmployee_run (c : Caller.t) (firstName lastName email password : string)
    (department position : option string) (now : Z) (s : Store) :
  run (addEmployee c firstName lastName email password department position now) s =
  match Caller.role c with
  | employee => inl ForbiddenError
  | admin =>
      match List.find (fun u => (User.email u =? email)%string) (users s) with
      | Some _ => inl EmailExistsError
      | None =>
          let count :=
            Z.of_nat (List.length
                        (List.filter (fun u => Role_eqb (User.role u) employee) (users s))) in
          let emp :=
            newEmployee firstName lastName email password department position
              ("EMP" ++ Js.padStart 3 "0"%char (Js.ToString (count + 1))) now in
          if User.valid emp && negb (List.existsb (User.clashes emp) (users s))
          then inr (emp, mkStore (users s ++ [emp])%list (timeRecords s))
          else inl InternalError
      end
  end.
Proof.
  unfold addEmployee. step_run.
  destruct (Caller.role c); step_run; [| reflexivity].
  destruct (List.find _ _); step_run; [reflexivity |].
  destruct (_ && _); step_run; reflexivity.
Qed.

Lemma initializeAdmin_run (now : Z) (s : Store) :
  run (initializeAdmin now) s =
  match List.find (fun u => Role_eqb (User.role u) admin) (users s) with
  | Some _ => inr (tt, s)
  | None =>
      if User.valid (initialAdmin now)
         && negb (List.existsb (User.clashes (initialAdmin now)) (users s))
      then inr (tt, mkStore (users s ++ [initialAdmin now])%list (timeRecords s))
      else inr (tt, s)
  end.
Proof.
  unfold initializeAdmin. step_run.
  destruct (List.find _ _); step_run; [reflexivity |].
  destruct (_ && _); step_run; reflexivity.
Qed.

(** Every record of the store after a request was there before, or is the
    document the request built or rewrote. *)
Lemma exec_record_origin (req : Request) (now : Z) (s : Store) (r : TimeRecord.t) :
  In r (timeRecords (exec req now s)) ->
  In r (timeRecords s)
  \/ (exists c u p t, req = StartTimer c p t /\ r = newTimer c u p t now)
  \/ (exists c u p t st et d,
        req = ManualEntry c p t st et
        /\ Js.isValid st = true /\ Js.isValid et = true
        /\ elapsedSeconds st et = Some d
        /\ r = newRecord c u p t st et d now)
  \/ (exists c id i timer,
        req = StopTimer c id
        /\ findFirst (ownedBy id (Caller.id c)) (timeRecords s) = Some (i, timer)
        /\ r = stopped now timer)
  \/ (exists c id action i timer,
        req = PauseTimer c id action
        /\ findFirst (ownedBy id (Caller.id c)) (timeRecords s) = Some (i, timer)
        /\ r = toggled action timer).
Proof.
  destruct req as [| c f l e p d q | c id | c p t | c id | c id a | c p t st et];
    unfold exec, after.
  - rewrite initializeAdmin_run.
    destruct (List.find _ _); [auto |]. destruct (_ && _); auto.
  - rewrite addEmployee_run.
    destruct (Caller.role c); [| auto].
    destruct (List.find _ _); [auto |]. cbv zeta. destruct (_ && _); auto.
  - rewrite deleteEmployee_run.
    destruct (Caller.role c); [| auto].
    simpl. intros H. apply filter_In in H. tauto.
  - rewrite startTimer_run.
    destruct (findFirst _ _) as [[i x] |]; [auto |].
    destruct (List.find _ _) as [u |]; [| auto].
    cbv zeta. destruct (_ && _); [| auto].
    simpl. intros H. apply in_app_or in H. destruct H as [H | [<- | []]]; [auto |].
    right; left. exists c, u, p, t. auto.
  - rewrite stopTimer_run.
    destruct (findFirst _ _) as [[i x] |] eqn:E; [| auto].
    simpl. intros H. apply In_replaceAt in H. destruct H as [-> | H]; [| auto].
    do 3 right. left. exists c, id, i, x. auto.
  - rewrite pauseTimer_run.
    destruct (findFirst _ _) as [[i x] |] eqn:E; [| auto].
    simpl. intros H. apply In_replaceAt in H. destruct H as [-> | H]; [| auto].
    do 4 right. exists c, id, a, i, x. auto.
  - rewrite manualEntry_run.
    destruct (List.find _ _) as [u |]; [| auto].
    destruct (Js.isValid st) eqn:Vs; [| auto].
    destruct (Js.isValid et) eqn:Ve; [| auto]. cbn [andb].
    destruct (elapsedSeconds st et) as [d |] eqn:Ed; [| auto].
    cbv zeta. destruct (_ && _); [| auto].
    simpl. intros H. apply in_app_or in H. destruct H as [H | [<- | []]]; [auto |].
    do 2 right. left. exists c, u, p, t, st, et, d. auto 10.
Qed.

(** Induction over the reachable stores, for a property of single records. *)
Lemma reachable_records_ind (P : TimeRecord.t -> Prop) :
  (forall c u p t now, P (newTimer c u p t now)) ->
  (forall c u p t st et d now,
      Js.isValid st = true -> Js.isValid et = true -> elapsedSeconds st et = Some d ->
      P (newRecord c u p t st et d now)) ->
  (forall now timer, P timer -> P (stopped now timer)) ->
  (forall action timer, P timer -> P (toggled action timer)) ->
  forall s, reachable s -> forall r, In r (timeRecords s) -> P r.
Proof.
  intros Hstart Hmanual Hstop Hpause s Hs.
  induction Hs as [| s req now Hs IH]; intros r Hr; [destruct Hr |].
  apply exec_record_origin in Hr.
  destruct Hr as [Hr | [(c & u & p & t & _ & ->)
    | [(c & u & p & t & st & et & d & _ & Vs & Ve & Ed & ->)
    | [(c & id & i & timer & _ & Hf & ->) | (c & id & a & i & timer & _ & Hf & ->)]]]].
  - auto.
  - apply Hstart.
  - apply Hmanual; assumption.
  - apply Hstop, IH. apply findFirst_Some in Hf. tauto.
  - apply Hpause, IH. apply findFirst_Some in Hf. tauto.
Qed.

Lemma reachable_from (trace : list (Request * Z)) (s : Store) :
  reachable s -> reachable (fold_left (fun s rq => exec (fst rq) (snd rq) s) trace s).
Proof.
  revert s. induction trace as [| [req now] trace IH]; intros s Hs; simpl; [exact Hs |].
  apply IH. constructor. exact Hs.
Qed.

Lemma reachable_replay (trace : list (Request * Z)) : reachable (replay trace).
Proof. apply reachable_from. constructor. Qed.

Lemma reachable_office : reachable office.
Proof. apply reachable_replay. Qed.

(** In a reachable store a running record has no end time and no duration. *)
Lemma running_unclosed (s : Store) :
  reachable s ->
  forall r, In r (timeRecords s) -> TimeRecord.isRunning r = true -> unclosed r.
Proof.
  apply (reachable_records_ind (fun r => TimeRecord.isRunning r = true -> unclosed r)).
  - intros; repeat split.
  - intros; discriminate.
  - intros; discriminate.
  - intros action timer IH. unfold toggled.
    destruct (action =? "pause")%string; [exact IH |].
    destruct (action =? "resume")%string; exact IH.
Qed.

Lemma findFrom_replaceAt {A : Type} (p : A -> bool) (l : list A) (k i : nat) (x y : A) :
  findFrom k p l = Some (i, x) -> p y = true ->
  findFrom k p (replaceAt (i - k) y l) = Some (i, y).
Proof.
  revert k. induction l as [| a l IH]; intros k; simpl; [discriminate |].
  destruct (p a) eqn:Ha.
  - intros [= <- <-] Hy. rewrite Nat.sub_diag. simpl. rewrite Hy. reflexivity.
  - intros H Hy. destruct (findFrom_Some _ _ _ _ _ H) as (_ & _ & Hle & _).
    replace (i - k)%nat with (S (i - S k)) by lia.
    simpl. rewrite Ha. apply IH; assumption.
Qed.

Lemma findFirst_replaceAt {A : Type} (p : A -> bool) (l : list A) (i : nat) (x y : A) :
  findFirst p l = Some (i, x) -> p y = true ->
  findFirst p (replaceAt i y l) = Some (i, y).
Proof.
  intros H Hy. unfold findFirst.
  rewrite <- (Nat.sub_0_r i) at 1. apply findFrom_replaceAt with (x := x); assumption.
Qed.

Lemma replaceAt_twice {A : Type} (i : nat) (y z : A) (l : list A) :
  replaceAt i z (replaceAt i y l) = replaceAt i z l.
Proof.
  revert i. induction l as [| a l IH]; intros [| k]; simpl; try reflexivity.
  f_equal. apply IH.
Qed.

Lemma findFirst_exists {A : Type} (p : A -> bool) (l : list A) :
  (exists x, In x l /\ p x = true) -> exists i x, findFirst p l = Some (i, x).
Proof.
  intros (x & Hin & Hp).
  destruct (findFirst p l) as [[i y] |] eqn:E; [eauto |].
  rewrite findFirst_None in E. rewrite (E x Hin) in Hp. discriminate.
Qed.

Lemma ownedBy_true (id u : string) (r : TimeRecord.t) :
  ownedBy id u r = true <-> TimeRecord.id r = id /\ TimeRecord.userId r = u.
Proof. unfold ownedBy. rewrite andb_true_iff, !String.eqb_eq. tauto. Qed.

(** ** C2: stopping a timer *)

(** C2, as the code has it. When the caller owns a record with the given
    id, [stopTimer] succeeds on the first such record and writes back, in
    one save, isRunning = false, endTime = now, durationSeconds =
    floor((now - startTime) / 1000) and duration = formatDuration of it;
    the value is not clamped (it is negative exactly when now is before
    startTime); the other paths keep their values. A later stop of the same
    record succeeds again and overwrites the three paths with the values for
    the later instant. In every reachable store the three paths are unset on
    the records that are still running. *)
Theorem stopTimer_spec :
  (forall (c : Caller.t) (id : string) (now : Z) (s : Store),
      (exists r, In r (timeRecords s) /\ TimeRecord.id r = id
                 /\ TimeRecord.userId r = Caller.id c) ->
      exists i timer r,
        findFirst (ownedBy id (Caller.id c)) (timeRecords s) = Some (i, timer)
        /\ run (stopTimer c id now) s
           = inr (r, mkStore (users s) (replaceAt i r (timeRecords s)))
        /\ TimeRecord.isRunning r = false
        /\ TimeRecord.endTime r = Some now
        /\ TimeRecord.durationSeconds r = Some ((now - TimeRecord.startTime timer) / 1000)
        /\ TimeRecord.duration r
           = Some (formatDuration ((now - TimeRecord.startTime timer) / 1000))
        /\ ((now - TimeRecord.startTime timer) / 1000 < 0 <-> now < TimeRecord.startTime timer)
        /\ TimeRecord.startTime r = TimeRecord.startTime timer
        /\ TimeRecord.date r = TimeRecord.date timer
        /\ TimeRecord.isPaused r = TimeRecord.isPaused timer
        /\ TimeRecord.isManual r = TimeRecord.isManual timer
        /\ forall later,
             exists r',
               run (stopTimer c id later) (after (stopTimer c id now) s)
               = inr (r', mkStore (users s) (replaceAt i r' (timeRecords s)))
               /\ TimeRecord.endTime r' = Some later
               /\ TimeRecord.durationSeconds r'
                  = Some ((later - TimeRecord.startTime timer) / 1000))
  /\ (forall s, reachable s ->
      forall r, In r (timeRecords s) -> TimeRecord.isRunning r = true ->
                TimeRecord.endTime r = None /\ TimeRecord.duration r = None
                /\ TimeRecord.durationSeconds r = None).
Proof.
  split; [| exact running_unclosed].
  intros c id now s (r0 & Hin & Hid & Hu).
  destruct (findFirst_exists (ownedBy id (Caller.id c)) (timeRecords s)) as (i & timer & Hf).
  { exists r0. split; [exact Hin | apply ownedBy_true; auto]. }
  exists i, timer, (stopped now timer).
  split; [exact Hf |].
  split; [rewrite stopTimer_run, Hf; reflexivity |].
  repeat (split; [reflexivity |]).
  split.
  { split; intros H.
    - destruct (Z.lt_ge_cases now (TimeRecord.startTime timer)) as [Hlt | Hge];
        [exact Hlt |].
      assert (0 <= (now - TimeRecord.startTime timer) / 1000)
        by (apply Z.div_pos; lia).
      lia.
    - apply Z.div_lt_upper_bound; lia. }
  repeat (split; [reflexivity |]).
  intros later. exists (stopped later timer).
  unfold after. rewrite (stopTimer_run c id now), Hf.
  rewrite stopTimer_run. cbn [timeRecords users].
  assert (Hp := proj1 (proj2 (findFirst_Some _ _ _ _ Hf))).
  rewrite (findFirst_replaceAt _ _ _ _ (stopped now timer) Hf) by exact Hp.
  rewrite replaceAt_twice. repeat split.
Qed.

Lemma stopTimer_spec_witness :
  (exists r, In r (timeRecords earlyBird) /\ TimeRecord.id r = "manual_4000"
             /\ TimeRecord.userId r = Caller.id ada)
  /\ (exists r s', run (stopTimer ada "manual_4000" 5000) earlyBird = inr (r, s')
                   /\ TimeRecord.isRunning r = false
                   /\ TimeRecord.endTime r = Some 5000)
  /\ reachable (exec (StartTimer ada "Compiler" "Parser") 5000 office)
  /\ forall r, In r (timeRecords (exec (StartTimer ada "Compiler" "Parser") 5000 office)) ->
                TimeRecord.isRunning r = true -> TimeRecord.endTime r = None.
Proof.
  assert (H : exists r, In r (timeRecords earlyBird) /\ TimeRecord.id r = "manual_4000"
                        /\ TimeRecord.userId r = Caller.id ada).
  { eexists. split; [left; reflexivity | split; reflexivity]. }
  assert (R : reachable (exec (StartTimer ada "Compiler" "Parser") 5000 office)).
  { apply reachable_exec, reachable_replay. }
  split; [exact H |]. split; [| split; [exact R |]].
  - destruct (proj1 stopTimer_spec ada "manual_4000" 5000 earlyBird H)
      as (i & timer & r & _ & Hrun & Hr & He & _).
    exists r. eexists. split; [exact Hrun | split; assumption].
  - intros r Hin Hrun. exact (proj1 (proj2 stopTimer_spec _ R r Hin Hrun)).
Defined.

(** C2 as stated fails: the duration is not clamped. Ada's manual entry
    starts at 00:01:00; stopping it at 00:00:05 stores -55 seconds. *)
Lemma stopTimer_negative_duration :
  reachable earlyBird
  /\ exists r s',
       run (stopTimer ada "manual_4000" 5000) earlyBird = inr (r, s')
       /\ In r (timeRecords s')
       /\ TimeRecord.durationSeconds r = Some (-55)
       /\ TimeRecord.duration r = Some "-55s".
Proof.
  split; [apply reachable_exec, reachable_office |].
  eexists. eexists. split; [vm_compute; reflexivity |].
  split; [left; reflexivity | split; reflexivity].
Qed.

(** ** C3: isPaused implies isRunning *)

(** C3, as the code has it. The invariant "isPaused implies isRunning" is
    kept by every request that respects the state machine: by start, manual
    entry, resume (and the requests that do not write records) always, by
    pause when the record it finds is running, and by stop when the record
    it finds is not paused. *)
Theorem flagsConsistent_preserved (req : Request) (now : Z) (s : Store) :
  flagsConsistent s ->
  respectsState req s = true ->
  flagsConsistent (exec req now s)
  /\ (forall c p t, respectsState (StartTimer c p t) s = true)
  /\ (forall c p t st et, respectsState (ManualEntry c p t st et) s = true)
  /\ (forall c id, respectsState (PauseTimer c id "resume") s = true)
  /\ (forall c id i timer,
        findFirst (ownedBy id (Caller.id c)) (timeRecords s) = Some (i, timer) ->
        (respectsState (PauseTimer c id "pause") s = TimeRecord.isRunning timer)
        /\ respectsState (StopTimer c id) s = negb (TimeRecord.isPaused timer)).
Proof.
  intros Hinv Hreq. split.
  - intros r Hin. apply exec_record_origin in Hin.
    destruct Hin as [Hr | [(c & u & p & t & _ & ->)
      | [(c & u & p & t & st & et & d & _ & _ & _ & _ & ->)
      | [(c & id & i & timer & -> & Hf & ->) | (c & id & a & i & timer & -> & Hf & ->)]]]].
    + apply Hinv, Hr.
    + discriminate.
    + discriminate.
    + simpl in Hreq. rewrite Hf in Hreq. apply negb_true_iff in Hreq.
      simpl. congruence.
    + simpl in Hreq. rewrite Hf in Hreq.
      apply findFirst_Some in Hf. destruct Hf as (Hin & _).
      unfold toggled.
      destruct (a =? "pause")%string; [simpl in *; auto |].
      destruct (a =? "resume")%string; [discriminate | apply Hinv, Hin].
  - split; [reflexivity |]. split; [reflexivity |]. split.
    + intros c id. simpl. destruct (findFirst _ _) as [[i t] |]; reflexivity.
    + intros c id i timer Hf. simpl. rewrite Hf. split; reflexivity.
Qed.

Lemma flagsConsistent_preserved_witness :
  flagsConsistent (exec (StartTimer ada "Compiler" "Parser") 5000 office)
  /\ respectsState (PauseTimer ada "timer_5000" "pause")
                   (exec (StartTimer ada "Compiler" "Parser") 5000 office) = true
  /\ flagsConsistent
       (exec (PauseTimer ada "timer_5000" "pause") 6000
             (exec (StartTimer ada "Compiler" "Parser") 5000 office)).
Proof.
  assert (H : flagsConsistent (exec (StartTimer ada "Compiler" "Parser") 5000 office)).
  { intros r Hin _. vm_compute in Hin. destruct Hin as [<- | []]. reflexivity. }
  split; [exact H |]. split; [reflexivity |].
  exact (proj1 (flagsConsistent_preserved
                  (PauseTimer ada "timer_5000" "pause") 6000 _ H eq_refl)).
Defined.

(** C3 as stated fails: after start, pause, stop the record is paused and
    not running, in a store the API reaches. *)
Lemma flagsConsistent_broken :
  ~ (forall s, reachable s -> flagsConsistent s).
Proof.
  intros H. specialize (H pausedThenStopped (reachable_replay _)).
  assert (E : exists r, timeRecords pausedThenStopped = [r]
                        /\ TimeRecord.isPaused r = true
                        /\ TimeRecord.isRunning r = false).
  { eexists. split; [reflexivity | split; reflexivity]. }
  destruct E as (r & Hl & Hp & Hr).
  assert (Hin : In r (timeRecords pausedThenStopped)) by (rewrite Hl; left; reflexivity).
  specialize (H r Hin Hp). congruence.
Qed.

(** ** C4: manual entries *)

(** C4, as the code has it. [manualEntry] stores the duration whatever its
    sign; no request is refused for a negative duration. A request whose
    two timestamps are valid Dates less than 2^53 milliseconds apart, whose
    user document exists, whose project and task are present and whose id
    "manual_<now>" is unused succeeds: it appends one record with
    durationSeconds = floor((endTime - startTime) / 1000), negative exactly
    when endTime is before startTime, duration = formatDuration of it,
    isManual = true, isRunning = false, the caller's two timestamps and
    date = the calendar date (UTC) of startTime. Every successful request
    stores such a record, with the duration as binary64 arithmetic gives
    it. A request with a timestamp that is not a valid Date, or that is not
    well formed, is answered with the internal error and stores nothing. *)
Theorem manualEntry_spec (c : Caller.t) (project task : string)
    (startTime endTime now : Z) (s : Store) :
  (canCreate c project task ("manual_" ++ Js.ToString now) s = true ->
   Js.isValid startTime = true -> Js.isValid endTime = true ->
   Z.abs (endTime - startTime) < 2 ^ 53 ->
   exists r,
     run (manualEntry c project task startTime endTime now) s
       = inr (r, mkStore (users s) (timeRecords s ++ [r]))
     /\ TimeRecord.userId r = Caller.id c
     /\ TimeRecord.durationSeconds r = Some ((endTime - startTime) / 1000)
     /\ TimeRecord.duration r = Some (formatDuration ((endTime - startTime) / 1000))
     /\ ((endTime - startTime) / 1000 < 0 <-> endTime < startTime)
     /\ TimeRecord.isManual r = true
     /\ TimeRecord.isRunning r = false
     /\ TimeRecord.isPaused r = false
     /\ TimeRecord.startTime r = startTime
     /\ TimeRecord.endTime r = Some endTime
     /\ TimeRecord.date r = Js.toISODate startTime
     /\ stateOf r = Stopped)
  /\ (canCreate c project task ("manual_" ++ Js.ToString now) s = false
      \/ Js.isValid startTime = false \/ Js.isValid endTime = false ->
      run (manualEntry c project task startTime endTime now) s = inl InternalError)
  /\ (forall r s',
        run (manualEntry c project task startTime endTime now) s = inr (r, s') ->
        s' = mkStore (users s) (timeRecords s ++ [r])
        /\ TimeRecord.durationSeconds r = elapsedSeconds startTime endTime
        /\ (exists d, TimeRecord.durationSeconds r = Some d
                      /\ TimeRecord.duration r = Some (formatDuration d))
        /\ TimeRecord.isManual r = true
        /\ TimeRecord.isRunning r = false
        /\ TimeRecord.startTime r = startTime
        /\ TimeRecord.endTime r = Some endTime
        /\ TimeRecord.date r = Js.toISODate startTime).
Proof.
  split; [| split].
  - intros Hcan Vs Ve Hspan.
    destruct (canCreate_inv _ _ _ _ _ Hcan) as (u & Hu & Hc & Hp & Ht & He & Hid).
    exists (newRecord c u project task startTime endTime ((endTime - startTime) / 1000) now).
    rewrite manualEntry_run, Hu, Vs, Ve. cbn [andb].
    rewrite (elapsedSeconds_exact startTime endTime (isValid_bound _ Vs)
                                  (isValid_bound _ Ve) Hspan).
    cbv zeta. rewrite newRecord_valid, Hc, Hp, Ht, He.
    change (TimeRecord.id (newRecord c u project task startTime endTime
                                     ((endTime - startTime) / 1000) now))
      with ("manual_" ++ Js.ToString now).
    rewrite Hid. simpl.
    repeat (split; [reflexivity |]).
    split; [| repeat split].
    split; intros H.
    + destruct (Z.lt_ge_cases endTime startTime) as [Hlt | Hge]; [exact Hlt |].
      assert (0 <= (endTime - startTime) / 1000) by (apply Z.div_pos; lia).
      lia.
    + apply Z.div_lt_upper_bound; lia.
  - intros H. rewrite manualEntry_run.
    destruct (List.find _ (users s)) as [u |] eqn:Hu; [| reflexivity].
    destruct (Js.isValid startTime); [| reflexivity].
    destruct (Js.isValid endTime); [| reflexivity]. cbn [andb].
    destruct H as [Hcan | [H | H]]; try discriminate.
    destruct (elapsedSeconds startTime endTime) as [d |]; [| reflexivity].
    apply canCreate_false in Hcan. rewrite Hu in Hcan.
    cbv zeta. rewrite newRecord_valid.
    change (TimeRecord.id (newRecord c u project task startTime endTime d now))
      with ("manual_" ++ Js.ToString now).
    rewrite <- !andb_assoc in *. rewrite Hcan. reflexivity.
  - intros r s'. rewrite manualEntry_run.
    destruct (List.find _ (users s)) as [u |]; [| discriminate].
    destruct (_ && _); [| discriminate].
    destruct (elapsedSeconds startTime endTime) as [d |]; [| discriminate].
    cbv zeta. destruct (_ && _); [| discriminate].
    intros [= <- <-].
    split; [reflexivity |]. split; [reflexivity |].
    split; [exists d; split; reflexivity |]. repeat split.
Qed.

Lemma manualEntry_spec_witness :
  canCreate ada "Compiler" "Parser" ("manual_" ++ Js.ToString 7000) office = true
  /\ Js.isValid 5000 = true /\ Js.isValid 65000 = true
  /\ Z.abs (65000 - 5000) < 2 ^ 53
  /\ (exists r,
        run (manualEntry ada "Compiler" "Parser" 5000 65000 7000) office
          = inr (r, mkStore (users office) (timeRecords office ++ [r]))
        /\ TimeRecord.durationSeconds r = Some 60
        /\ TimeRecord.isManual r = true)
  /\ canCreate ada "" "Parser" ("manual_" ++ Js.ToString 7000) office = false
  /\ run (manualEntry ada "" "Parser" 5000 65000 7000) office = inl InternalError
  /\ Js.isValid (Js.maxTime + 1) = false
  /\ run (manualEntry ada "Compiler" "Parser" (Js.maxTime + 1) 65000 7000) office
     = inl InternalError
  /\ (exists r s',
        run (manualEntry ada "Compiler" "Parser"
                         (-8000000000000000) 7999999999999999 7000) office
          = inr (r, s')
        /\ TimeRecord.durationSeconds r = Some 16000000000000).
Proof.
  split; [reflexivity |]. split; [reflexivity |]. split; [reflexivity |].
  split; [reflexivity |].
  split; [| split; [reflexivity | split; [| split; [reflexivity | split]]]].
  - destruct (proj1 (manualEntry_spec ada "Compiler" "Parser" 5000 65000 7000 office)
                eq_refl eq_refl eq_refl eq_refl)
      as (r & Hrun & _ & Hd & _ & _ & Hm & _).
    exists r. split; [exact Hrun | split; [exact Hd | exact Hm]].
  - exact (proj1 (proj2 (manualEntry_spec ada "" "Parser" 5000 65000 7000 office))
                 (or_introl eq_refl)).
  - exact (proj1 (proj2 (manualEntry_spec ada "Compiler" "Parser" (Js.maxTime + 1)
                                          65000 7000 office))
                 (or_intror (or_introl eq_refl))).
  - destruct (run (manualEntry ada "Compiler" "Parser"
                               (-8000000000000000) 7999999999999999 7000) office)
      as [e | [r s']] eqn:E; [vm_compute in E; discriminate |].
    exists r, s'. split; [reflexivity |].
    destruct (proj2 (proj2 (manualEntry_spec ada "Compiler" "Parser"
                              (-8000000000000000) 7999999999999999 7000 office))
                    r s' E) as (_ & Hd & _).
    rewrite Hd. vm_compute. reflexivity.
Defined.

(** C4 as stated fails: an entry that ends four seconds before it starts is
    not refused, it is stored with durationSeconds = -4. *)
Lemma manualEntry_negative_stored :
  exists r s',
    run (manualEntry ada "Compiler" "Parser" 5000 1000 7000) office = inr (r, s')
    /\ In r (timeRecords s')
    /\ TimeRecord.durationSeconds r = Some (-4)
    /\ TimeRecord.duration r = Some "-4s".
Proof.
  eexists. eexists. split; [vm_compute; reflexivity |].
  split; [left; reflexivity | split; reflexivity].
Qed.

(** ** Dashboard statistics *)

Lemma adminStats_run {tz : Js.TimeZone} (c : Caller.t) (now : Z) (s : Store) :
  run (adminStats tz c now) s =
  match Caller.role c with
  | employee => inl ForbiddenError
  | admin =>
      let todayRecords := List.filter (matches (todayQuery None now)) (timeRecords s) in
      let weekRecords := List.filter (matches (weekQuery tz None now)) (timeRecords s) in
      inr (AdminStats.mk
             (Js.toFixed1 (totalHours todayRecords))
             (Js.toFixed1 (totalHours weekRecords))
             (Z.of_nat (List.length (List.filter (matches (runningQuery None)) (timeRecords s))))
             (setSize (map TimeRecord.date weekRecords))
             (Z.of_nat (List.length
                          (List.filter (fun u => Role_eqb (User.role u) employee) (users s))))
             (setSize (map TimeRecord.userId todayRecords))
             (Js.toFixed1
                (Js.div (totalHours weekRecords)
                        (Js.ofZ (Z.max 1 (setSize (map TimeRecord.date weekRecords)))))),
           s)
  end.
Proof.
  unfold adminStats. step_run.
  destruct (Caller.role c); step_run; reflexivity.
Qed.

Lemma employeeStats_run {tz : Js.TimeZone} (c : Caller.t) (now : Z) (s : Store) :
  run (employeeStats tz c now) s =
  let todayRecords :=
    List.filter (matches (todayQuery (Some (Caller.id c)) now)) (timeRecords s) in
  let weekRecords :=
    List.filter (matches (weekQuery tz (Some (Caller.id c)) now)) (timeRecords s) in
  let activeTimer :=
    findFirst (matches (runningQuery (Some (Caller.id c)))) (timeRecords s) in
  inr (EmployeeStats.mk
         (Js.toFixed1 (totalHours todayRecords))
         (Z.of_nat (List.length todayRecords))
         (Js.toFixed1 (totalHours weekRecords))
         (setSize (map TimeRecord.date weekRecords))
         (match activeTimer with
          | Some (_, t) => if TimeRecord.isPaused t then "Paused" else "Working"
          | None => "Not Working"
          end)
         (match activeTimer with
          | Some (_, t) => "On: " ++ TimeRecord.task t
          | None => "Ready to start tracking"
          end)
         (calculateProductivityScore weekRecords),
       s).
Proof. unfold employeeStats. step_run. reflexivity. Qed.

(** ** The start of the week *)

Lemma Day_shift (t k : Z) : Js.Day (t + k * Js.msPerDay) = Js.Day t + k.
Proof. unfold Js.Day. apply Z.div_add. discriminate. Qed.

Lemma getDay_range (tz : Js.TimeZone) (t : Z) : 0 <= Js.getDay tz t < 7.
Proof. unfold Js.getDay, Js.WeekDay. apply Z.mod_pos_bound. lia. Qed.

Lemma startOfWeek_eq (tz : Js.TimeZone) (now : Z) :
  startOfWeek tz now
  = Js.UTC tz (Js.LocalTime tz now + (1 - Js.getDay tz now) * Js.msPerDay).
Proof.
  unfold startOfWeek, Js.setDate, Js.getDate.
  destruct (Js.civil (Js.Day (Js.LocalTime tz now))) as [[y m] d].
  f_equal. f_equal. f_equal. ring.
Qed.

(** From Monday to Saturday, by the server's calendar, the handler's start
    of week is the spec's. *)
Lemma startOfWeek_weekday (tz : Js.TimeZone) (now : Z) :
  Js.getDay tz now <> 0 -> startOfWeek tz now = mondayOf tz now.
Proof.
  intros H. rewrite startOfWeek_eq. unfold mondayOf, weekdayFromMonday.
  pose proof (getDay_range tz now) as R.
  replace ((Js.getDay tz now + 6) mod 7) with (Js.getDay tz now - 1);
    [f_equal; ring |].
  apply Z.mod_unique with (q := 1); lia.
Qed.

(** On a Sunday it is the day after: the Monday of the week to come. *)
Lemma startOfWeek_sunday (tz : Js.TimeZone) (now : Z) :
  Js.getDay tz now = 0 ->
  startOfWeek tz now = Js.UTC tz (Js.LocalTime tz now + Js.msPerDay)
  /\ weekdayFromMonday tz now = 6.
Proof.
  intros H. rewrite startOfWeek_eq. unfold weekdayFromMonday. rewrite H.
  split; [f_equal; ring | reflexivity].
Qed.

(** In a zone without daylight saving, going to local time and back
    cancels out. *)
Lemma fixedOffset_shift (off t k : Z) :
  Js.UTC (Js.fixedOffset off) (Js.LocalTime (Js.fixedOffset off) t + k) = t + k.
Proof. unfold Js.UTC, Js.LocalTime. simpl. ring. Qed.

Lemma WeekDay_monday (day : Z) :
  Js.WeekDay (day - (Js.WeekDay day + 6) mod 7) = 1.
Proof.
  unfold Js.WeekDay.
  pose proof (Z.mod_pos_bound (day + 4) 7 ltac:(lia)) as R1.
  pose proof (Z.div_mod (day + 4) 7 ltac:(lia)) as D1.
  set (g := (day + 4) mod 7) in *. set (q := (day + 4) / 7) in *.
  assert (Hg : (g + 6) mod 7 = if g =? 0 then 6 else g - 1).
  { destruct (Z.eqb_spec g 0) as [-> | Hn]; [reflexivity |].
    symmetry. apply Z.mod_unique with (q := 1); lia. }
  rewrite Hg. destruct (Z.eqb_spec g 0) as [Hz | Hn].
  - symmetry. apply Z.mod_unique with (q := q - 1); lia.
  - symmetry. apply Z.mod_unique with (q := q); lia.
Qed.

Lemma mondayOf_fixed (off now : Z) :
  mondayOf (Js.fixedOffset off) now
  = now - weekdayFromMonday (Js.fixedOffset off) now * Js.msPerDay
  /\ Js.getDay (Js.fixedOffset off) (mondayOf (Js.fixedOffset off) now) = 1
  /\ Js.Day (Js.LocalTime (Js.fixedOffset off) (mondayOf (Js.fixedOffset off) now))
     = Js.Day (Js.LocalTime (Js.fixedOffset off) now)
       - weekdayFromMonday (Js.fixedOffset off) now.
Proof.
  set (tz := Js.fixedOffset off).
  assert (E : mondayOf tz now = now - weekdayFromMonday tz now * Js.msPerDay).
  { unfold mondayOf.
    replace (Js.LocalTime tz now - weekdayFromMonday tz now * Js.msPerDay)
      with (Js.LocalTime tz now + - (weekdayFromMonday tz now * Js.msPerDay)) by ring.
    unfold tz at 1 2. rewrite fixedOffset_shift. ring. }
  assert (D : Js.Day (Js.LocalTime tz (mondayOf tz now))
              = Js.Day (Js.LocalTime tz now) - weekdayFromMonday tz now).
  { rewrite E. unfold Js.LocalTime, tz. simpl.
    replace (now - weekdayFromMonday (Js.fixedOffset off) now * Js.msPerDay + off)
      with (now + off + (- weekdayFromMonday (Js.fixedOffset off) now) * Js.msPerDay)
      by ring.
    rewrite Day_shift. ring. }
  split; [exact E |]. split; [| exact D].
  unfold Js.getDay at 1. rewrite D. unfold weekdayFromMonday, Js.getDay.
  apply WeekDay_monday.
Qed.

Lemma weekQuery_window (tz : Js.TimeZone) (u : option string) (now : Z) (s : Store) :
  Js.getDay tz now <> 0 ->
  List.filter (matches (weekQuery tz u now)) (timeRecords s) = weekWindow tz u now s.
Proof.
  intros H. unfold weekWindow. apply filter_ext. intros r.
  unfold matches, weekQuery; simpl.
  rewrite (startOfWeek_weekday tz now H), andb_true_r.
  destruct (TimeRecord.isRunning r); reflexivity.
Qed.

(** *** The totals are the sums of the durations *)

Lemma sumMagnitudes_nonneg (l : list TimeRecord.t) : 0 <= sumMagnitudes l.
Proof.
  induction l as [| r l IH]; simpl; [lia |].
  destruct (TimeRecord.durationSeconds r); lia.
Qed.

Lemma sumDurations_bound (l : list TimeRecord.t) :
  Z.abs (sumDurations l) <= sumMagnitudes l.
Proof.
  induction l as [| r l IH]; simpl; [lia |].
  destruct (TimeRecord.durationSeconds r); lia.
Qed.

Lemma sumMagnitudes_filter (p : TimeRecord.t -> bool) (l : list TimeRecord.t) :
  sumMagnitudes (List.filter p l) <= sumMagnitudes l.
Proof.
  induction l as [| r l IH]; simpl; [lia |].
  pose proof (sumMagnitudes_nonneg l).
  destruct (p r); simpl; destruct (TimeRecord.durationSeconds r); lia.
Qed.

Lemma reduce_exact (l : list TimeRecord.t) (acc : Z) :
  Z.abs acc + sumMagnitudes l < 2 ^ 53 ->
  fold_left (fun sum r => Js.add sum (Js.ofZ (secondsOrZero r))) l (exactDouble acc)
  = exactDouble (acc + sumDurations l).
Proof.
  revert acc. induction l as [| r l IH]; intros acc H; simpl in *.
  - rewrite Z.add_0_r. reflexivity.
  - pose proof (sumMagnitudes_nonneg l) as N.
    unfold secondsOrZero.
    destruct (TimeRecord.durationSeconds r) as [d |].
    + rewrite ofZ_exact, add_exact by lia.
      rewrite IH by lia. f_equal. ring.
    + change (Js.ofZ 0) with (exactDouble 0).
      rewrite add_exact by (simpl; lia).
      rewrite Z.add_0_r. apply IH. lia.
Qed.

(** Below 2^53 seconds in all, the binary64 sum of the reduce is the sum
    of the durations. *)
Lemma totalSeconds_exact (l : list TimeRecord.t) :
  sumMagnitudes l < 2 ^ 53 -> totalSeconds l = Js.ofZ (sumDurations l).
Proof.
  intros H. unfold totalSeconds. change (Js.ofZ 0) with (exactDouble 0).
  pose proof (sumDurations_bound l).
  rewrite reduce_exact by (simpl; lia).
  rewrite ofZ_exact by lia. reflexivity.
Qed.

Lemma weekWindow_bound (tz : Js.TimeZone) (u : option string) (now : Z) (s : Store) :
  sumMagnitudes (timeRecords s) < 2 ^ 53 ->
  sumMagnitudes (weekWindow tz u now s) < 2 ^ 53.
Proof.
  intros H. unfold weekWindow.
  pose proof (sumMagnitudes_filter
                (fun r => negb (TimeRecord.isRunning r)
                          && (Js.toISODate (mondayOf tz now) <=? TimeRecord.date r)%string
                          && optMatches u (TimeRecord.userId r))
                (timeRecords s)).
  lia.
Qed.

(** ** C5: the weekly window *)

(** C5, as the code has it from Monday to Saturday of the server's
    calendar. On such a day the weekly window of both dashboards is the set
    of stopped records (of everyone for the admin, of the caller for an
    employee) whose date is on or after the date printed for the start
    of week: the instant that lies the weekday index counted from Monday,
    in days of the server's local time, before now; its date and the
    records' dates are read in UTC. weeklyTotal is the sum of
    durationSeconds over the window (exact below 2^53 seconds) divided by
    3600, printed with one decimal: for a sum that is not negative, the
    nearest tenth of an hour, unless the sum lies half-way between two
    tenths and binary64 does not hold the hours exactly. daysThisWeek is
    the number of distinct dates in the window. The admin dashboard alone
    reports avgHoursPerDay: the unrounded weekly hours divided by
    max(1, daysThisWeek), printed with one decimal, which below 2^50
    seconds and away from the halves is the nearest tenth of an hour of
    the sum over the days; the employee dashboard has no such property. In
    a zone without daylight saving the start of week is now minus that many
    days, a Monday of the server's calendar. For the three one-hour records
    of Monday, Wednesday and Friday, the admin dashboard says weeklyTotal
    "3.0", daysThisWeek 3 and avgHoursPerDay "1.0" whenever the start of
    week is printed as that Monday. *)
Theorem weeklyStats_spec (tz : Js.TimeZone) (c : Caller.t) (now : Z) (s : Store) :
  Js.getDay tz now <> 0 ->
  sumMagnitudes (timeRecords s) < 2 ^ 53 ->
  (Caller.role c = admin ->
   exists st,
     run (adminStats tz c now) s = inr (st, s)
     /\ AdminStats.weeklyTotal st
        = Js.toFixed1 (Js.div (Js.ofZ (sumDurations (weekWindow tz None now s)))
                              (Js.ofZ 3600))
     /\ AdminStats.daysThisWeek st
        = Z.of_nat (List.length
                      (nodup string_dec (map TimeRecord.date (weekWindow tz None now s))))
     /\ AdminStats.avgHoursPerDay st
        = Js.toFixed1
            (Js.div (Js.div (Js.ofZ (sumDurations (weekWindow tz None now s)))
                            (Js.ofZ 3600))
                    (Js.ofZ (Z.max 1 (AdminStats.daysThisWeek st))))
     /\ (0 <= sumDurations (weekWindow tz None now s) ->
         halfTenth (sumDurations (weekWindow tz None now s)) 1 = false
         \/ sumDurations (weekWindow tz None now s) mod 225 = 0 ->
         AdminStats.weeklyTotal st
         = Some (decimal1 (tenthsOfHours (sumDurations (weekWindow tz None now s)) 1)))
     /\ (0 <= sumDurations (weekWindow tz None now s) < 2 ^ 50 ->
         AdminStats.daysThisWeek st < 2 ^ 52 ->
         halfTenth (sumDurations (weekWindow tz None now s))
                   (Z.max 1 (AdminStats.daysThisWeek st)) = false ->
         AdminStats.avgHoursPerDay st
         = Some (decimal1 (tenthsOfHours (sumDurations (weekWindow tz None now s))
                                         (Z.max 1 (AdminStats.daysThisWeek st))))))
  /\ (exists st,
        run (employeeStats tz c now) s = inr (st, s)
        /\ EmployeeStats.weeklyTotal st
           = Js.toFixed1
               (Js.div (Js.ofZ (sumDurations (weekWindow tz (Some (Caller.id c)) now s)))
                       (Js.ofZ 3600))
        /\ EmployeeStats.daysThisWeek st
           = Z.of_nat (List.length
                         (nodup string_dec
                                (map TimeRecord.date
                                     (weekWindow tz (Some (Caller.id c)) now s))))
        /\ (0 <= sumDurations (weekWindow tz (Some (Caller.id c)) now s) ->
            halfTenth (sumDurations (weekWindow tz (Some (Caller.id c)) now s)) 1 = false
            \/ sumDurations (weekWindow tz (Some (Caller.id c)) now s) mod 225 = 0 ->
            EmployeeStats.weeklyTotal st
            = Some (decimal1
                      (tenthsOfHours
                         (sumDurations (weekWindow tz (Some (Caller.id c)) now s)) 1))))
  /\ In "avgHoursPerDay" AdminStats.keys
  /\ ~ In "avgHoursPerDay" EmployeeStats.keys
  /\ startOfWeek tz now = mondayOf tz now
  /\ (forall off,
        tz = Js.fixedOffset off ->
        mondayOf tz now = now - weekdayFromMonday tz now * Js.msPerDay
        /\ Js.getDay tz (mondayOf tz now) = 1)
  /\ (forall tz' t,
        Js.toISODate (startOfWeek tz' t) = "2024-01-01" ->
        exists st,
          run (adminStats tz' root t) threeDays = inr (st, threeDays)
          /\ AdminStats.weeklyTotal st = Some "3.0"
          /\ AdminStats.daysThisWeek st = 3
          /\ AdminStats.avgHoursPerDay st = Some "1.0").
Proof.
  intros Hday Hsum.
  assert (Hm : forall u, sumMagnitudes (weekWindow tz u now s) < 2 ^ 53)
    by (intros u; apply weekWindow_bound, Hsum).
  assert (Hb : forall u, Z.abs (sumDurations (weekWindow tz u now s)) < 2 ^ 53).
  { intros u. pose proof (sumDurations_bound (weekWindow tz u now s)).
    specialize (Hm u). lia. }
  split.
  { intros Hadmin. rewrite adminStats_run, Hadmin. cbv zeta.
    rewrite (weekQuery_window tz None now s Hday). unfold totalHours.
    rewrite (totalSeconds_exact _ (Hm None)).
    eexists. split; [reflexivity |].
    cbn [AdminStats.weeklyTotal AdminStats.daysThisWeek AdminStats.avgHoursPerDay].
    split; [reflexivity |]. split; [reflexivity |]. split; [reflexivity |].
    specialize (Hb None). split.
    - intros H0 Htie. apply hours_printed; [lia | exact Htie].
    - intros H0 Hdays Htie. apply average_printed; [exact H0 | lia | exact Htie]. }
  split.
  { rewrite employeeStats_run. cbv zeta.
    rewrite (weekQuery_window tz (Some (Caller.id c)) now s Hday). unfold totalHours.
    rewrite (totalSeconds_exact _ (Hm _)).
    eexists. split; [reflexivity |].
    cbn [EmployeeStats.weeklyTotal EmployeeStats.daysThisWeek].
    split; [reflexivity |]. split; [reflexivity |].
    specialize (Hb (Some (Caller.id c))).
    intros H0 Htie. apply hours_printed; [lia | exact Htie]. }
  split; [simpl; tauto |].
  split; [simpl; intuition discriminate |].
  split; [apply startOfWeek_weekday, Hday |].
  split.
  { intros off ->. destruct (mondayOf_fixed off now) as (E & G & _). split; assumption. }
  intros tz' t Ht. rewrite adminStats_run. cbv zeta iota beta. unfold weekQuery.
  rewrite Ht. eexists. split; [reflexivity |].
  cbn [AdminStats.weeklyTotal AdminStats.daysThisWeek AdminStats.avgHoursPerDay].
  split; [vm_compute; reflexivity |]. split; vm_compute; reflexivity.
Qed.

Lemma weeklyStats_spec_witness :
  Js.getDay pacific tuesdayEvening <> 0
  /\ sumMagnitudes (timeRecords unevenWeek) < 2 ^ 53
  /\ Js.toISODate (mondayOf pacific tuesdayEvening) = "2024-01-01"
  /\ map TimeRecord.durationSeconds (weekWindow pacific None tuesdayEvening unevenWeek)
     = [Some 1800; Some 5400; Some 2700]
  /\ (exists st,
        run (employeeStats pacific ada tuesdayEvening) unevenWeek = inr (st, unevenWeek)
        /\ EmployeeStats.weeklyTotal st = Some "2.8"
        /\ EmployeeStats.daysThisWeek st = 2)
  /\ Caller.role root = admin
  /\ (exists st,
        run (adminStats pacific root tuesdayEvening) unevenWeek = inr (st, unevenWeek)
        /\ AdminStats.weeklyTotal st = Some "2.8"
        /\ AdminStats.daysThisWeek st = 2
        /\ AdminStats.avgHoursPerDay st = Some "1.4")
  /\ decimal1 (tenthsOfHours 9900 1) = "2.8"
  /\ decimal1 (tenthsOfHours 9900 2) = "1.4"
  /\ Js.getDay pacific mondayEveningPacific = 1
  /\ Js.toISODate (startOfWeek pacific mondayEveningPacific) = "2024-01-09".
Proof.
  assert (H : Js.getDay pacific tuesdayEvening <> 0) by discriminate.
  assert (B : sumMagnitudes (timeRecords unevenWeek) < 2 ^ 53) by reflexivity.
  assert (H' : Js.getDay pacific mondayEveningPacific <> 0) by discriminate.
  split; [exact H |]. split; [exact B |].
  split; [vm_compute; reflexivity |]. split; [vm_compute; reflexivity |].
  destruct (weeklyStats_spec pacific ada tuesdayEvening unevenWeek H B)
    as (_ & (st & Hrun & _ & Hd & Hw) & _).
  destruct (weeklyStats_spec pacific root tuesdayEvening unevenWeek H B)
    as (Hadmin & _).
  destruct (Hadmin eq_refl) as (st' & Hrun' & _ & Hd' & _ & Hw' & Ha').
  assert (S1 : sumDurations (weekWindow pacific (Some (Caller.id ada))
                                        tuesdayEvening unevenWeek) = 9900)
    by (vm_compute; reflexivity).
  assert (S2 : sumDurations (weekWindow pacific None tuesdayEvening unevenWeek) = 9900)
    by (vm_compute; reflexivity).
  rewrite S1 in Hw. rewrite S2 in Hw', Ha'.
  assert (D2 : AdminStats.daysThisWeek st' = 2) by (rewrite Hd'; vm_compute; reflexivity).
  rewrite D2 in Ha'.
  split; [| split; [reflexivity | split; [| split; [reflexivity | split;
    [reflexivity | split; [reflexivity |]]]]]].
  - exists st. split; [exact Hrun |].
    split; [| rewrite Hd; vm_compute; reflexivity].
    apply Hw; [discriminate | right; reflexivity].
  - exists st'. split; [exact Hrun' |].
    split; [apply Hw'; [discriminate | right; reflexivity] |].
    split; [exact D2 |].
    apply Ha'; [split; [discriminate | reflexivity] | reflexivity | reflexivity].
  - destruct (weeklyStats_spec pacific root mondayEveningPacific unevenWeek H' B)
      as (_ & _ & _ & _ & E & _).
    rewrite E. vm_compute. reflexivity.
Defined.

(** C5 as stated fails on a Sunday, here with the server in UTC: the
    handler's start of week is then the next day, so the three records of
    the week that is ending, though dated on or after its Monday, are left
    out of the weekly figures. And the employee dashboard has no
    avgHoursPerDay on any day. *)
Lemma weeklyStats_sunday :
  Js.getDay Js.utc sundayNoon = 0
  /\ Js.toISODate (mondayOf Js.utc sundayNoon) = "2024-01-01"
  /\ Js.toISODate (startOfWeek Js.utc sundayNoon) = "2024-01-08"
  /\ map TimeRecord.date (weekWindow Js.utc None sundayNoon threeDays)
     = ["2024-01-01"; "2024-01-03"; "2024-01-05"]
  /\ map TimeRecord.durationSeconds (weekWindow Js.utc None sundayNoon threeDays)
     = [Some 3600; Some 3600; Some 3600]
  /\ (exists st,
        run (adminStats Js.utc root sundayNoon) threeDays = inr (st, threeDays)
        /\ AdminStats.weeklyTotal st = Some "0.0"
        /\ AdminStats.daysThisWeek st = 0
        /\ AdminStats.avgHoursPerDay st = Some "0.0")
  /\ (exists st,
        run (employeeStats Js.utc ada sundayNoon) threeDays = inr (st, threeDays)
        /\ EmployeeStats.weeklyTotal st = Some "0.0"
        /\ EmployeeStats.daysThisWeek st = 0)
  /\ ~ In "avgHoursPerDay" EmployeeStats.keys.
Proof.
  repeat (split; [vm_compute; reflexivity |]).
  split; [eexists; split; [vm_compute; reflexivity | repeat split] |].
  split; [eexists; split; [vm_compute; reflexivity | repeat split] |].
  simpl. intuition discriminate.
Qed.

(** ** Listings *)

Lemma In_firstn {A : Type} (n : nat) (l : list A) (x : A) :
  In x (firstn n l) -> In x l.
Proof.
  intros H. rewrite <- (firstn_skipn n l). apply in_or_app. auto.
Qed.

Lemma In_sortNewestFirst (l : list TimeRecord.t) (r : TimeRecord.t) :
  In r (sortNewestFirst l) <-> In r l.
Proof.
  split; apply Permutation_in;
    [apply Permutation_sym |]; apply ByStartTime.Permuted_sort.
Qed.

Lemma sortNewestFirst_sorted (l : list TimeRecord.t) : newestFirst (sortNewestFirst l).
Proof.
  assert (T : Relations_1.Transitive (fun a b => is_true (NewestFirst.leb a b))).
  { intros a b c. unfold NewestFirst.leb, is_true. rewrite !Z.leb_le. lia. }
  pose proof (ByStartTime.StronglySorted_sort l T) as H.
  unfold newestFirst, sortNewestFirst.
  induction H as [| a l' Hs IH Hall]; constructor; [exact IH |].
  eapply Forall_impl; [| exact Hall].
  intros b Hb. apply Z.leb_le. exact Hb.
Qed.

Lemma newestFirst_firstn (n : nat) (l : list TimeRecord.t) :
  newestFirst l -> newestFirst (firstn n l).
Proof.
  unfold newestFirst. intros H. revert n.
  induction H as [| a l Hs IH Hall]; intros [| n]; simpl; try constructor.
  - apply IH.
  - rewrite Forall_forall in *. intros x Hx. apply Hall. eapply In_firstn, Hx.
Qed.

Lemma matches_closed (q : Query) (r : TimeRecord.t) :
  q_isRunning q = Some false -> matches q r = true ->
  negb (TimeRecord.isRunning r) = true.
Proof.
  unfold matches. intros ->. rewrite !andb_true_iff.
  destruct (TimeRecord.isRunning r); simpl; tauto.
Qed.

Lemma find_closed (q : Query) (s : Store) :
  q_isRunning q = Some false ->
  List.filter (matches q) (timeRecords s) = List.filter (matches q) (closedRecords s).
Proof.
  intros H. unfold closedRecords. symmetry. apply filter_implied.
  intros r. apply matches_closed. exact H.
Qed.

(** ** C6: running records are left out *)

(** C6. Whatever the dateRange, employeeId and project filters, no record
    of an admin or employee listing is running; and the hour figures of
    both dashboards (and the day and session counts next to them) are
    computed from the records that are not running: two stores with the
    same closed records give the same figures. *)
Theorem running_excluded (tz : Js.TimeZone) :
  (forall c dateRange employeeId project now s,
      Caller.role c = admin ->
      exists l,
        run (adminRecords tz c dateRange employeeId project now) s = inr (l, s)
        /\ forall r, In r l -> TimeRecord.isRunning r = false)
  /\ (forall c dateRange project now s,
        exists l,
          run (employeeRecords tz c dateRange project now) s = inr (l, s)
          /\ forall r, In r l -> TimeRecord.isRunning r = false)
  /\ (forall c now s1 s2,
        Caller.role c = admin ->
        closedRecords s1 = closedRecords s2 ->
        exists a1 a2,
          run (adminStats tz c now) s1 = inr (a1, s1)
          /\ run (adminStats tz c now) s2 = inr (a2, s2)
          /\ AdminStats.totalHoursToday a1 = AdminStats.totalHoursToday a2
          /\ AdminStats.weeklyTotal a1 = AdminStats.weeklyTotal a2
          /\ AdminStats.avgHoursPerDay a1 = AdminStats.avgHoursPerDay a2
          /\ AdminStats.daysThisWeek a1 = AdminStats.daysThisWeek a2
          /\ AdminStats.activeToday a1 = AdminStats.activeToday a2)
  /\ (forall c now s1 s2,
        closedRecords s1 = closedRecords s2 ->
        exists e1 e2,
          run (employeeStats tz c now) s1 = inr (e1, s1)
          /\ run (employeeStats tz c now) s2 = inr (e2, s2)
          /\ EmployeeStats.todayHours e1 = EmployeeStats.todayHours e2
          /\ EmployeeStats.weeklyTotal e1 = EmployeeStats.weeklyTotal e2
          /\ EmployeeStats.productivityScore e1 = EmployeeStats.productivityScore e2
          /\ EmployeeStats.todaySessions e1 = EmployeeStats.todaySessions e2
          /\ EmployeeStats.daysThisWeek e1 = EmployeeStats.daysThisWeek e2).
Proof.
  split; [| split; [| split]].
  - intros c dateRange employeeId project now s Hadmin.
    rewrite adminRecords_run, Hadmin. eexists. split; [reflexivity |].
    intros r Hr. apply In_firstn, In_sortNewestFirst, filter_In in Hr.
    destruct Hr as [_ Hm]. apply matches_closed in Hm; [| reflexivity].
    apply negb_true_iff. exact Hm.
  - intros c dateRange project now s.
    rewrite employeeRecords_run. eexists. split; [reflexivity |].
    intros r Hr. apply In_sortNewestFirst, filter_In in Hr.
    destruct Hr as [_ Hm]. apply matches_closed in Hm; [| reflexivity].
    apply negb_true_iff. exact Hm.
  - intros c now s1 s2 Hadmin Hclosed.
    rewrite !adminStats_run, Hadmin. cbv zeta.
    do 2 eexists. split; [reflexivity |]. split; [reflexivity |]. simpl.
    rewrite !(find_closed (todayQuery None now)), !(find_closed (weekQuery tz None now))
      by reflexivity.
    rewrite Hclosed. repeat split.
  - intros c now s1 s2 Hclosed.
    rewrite !employeeStats_run. cbv zeta.
    do 2 eexists. split; [reflexivity |]. split; [reflexivity |]. simpl.
    rewrite !(find_closed (todayQuery (Some (Caller.id c)) now)),
      !(find_closed (weekQuery tz (Some (Caller.id c)) now)) by reflexivity.
    rewrite Hclosed. repeat split.
Qed.

Lemma running_excluded_witness :
  Caller.role root = admin
  /\ (exists l,
        run (adminRecords Js.utc root (Some "week") None (Some "Compiler") sundayNoon) threeDays
          = inr (l, threeDays)
        /\ forall r, In r l -> TimeRecord.isRunning r = false)
  /\ closedRecords (exec (StartTimer ada "Compiler" "Parser") sundayNoon threeDays)
     = closedRecords threeDays
  /\ answer (run (employeeRecords Js.utc ada None None sundayNoon)
                 (exec (StartTimer ada "Compiler" "Parser") sundayNoon threeDays))
     = answer (run (employeeRecords Js.utc ada None None sundayNoon) threeDays)
  /\ exists e1 e2,
       run (employeeStats Js.utc ada sundayNoon)
           (exec (StartTimer ada "Compiler" "Parser") sundayNoon threeDays)
         = inr (e1, exec (StartTimer ada "Compiler" "Parser") sundayNoon threeDays)
       /\ run (employeeStats Js.utc ada sundayNoon) threeDays = inr (e2, threeDays)
       /\ EmployeeStats.weeklyTotal e1 = EmployeeStats.weeklyTotal e2
       /\ EmployeeStats.productivityScore e1 = EmployeeStats.productivityScore e2.
Proof.
  assert (H : closedRecords (exec (StartTimer ada "Compiler" "Parser") sundayNoon threeDays)
              = closedRecords threeDays) by reflexivity.
  split; [reflexivity |].
  split; [exact (proj1 (running_excluded Js.utc) root (Some "week") None (Some "Compiler")
                       sundayNoon threeDays eq_refl) |].
  split; [exact H |]. split; [vm_compute; reflexivity |].
  destruct (proj2 (proj2 (proj2 (running_excluded Js.utc))) ada sundayNoon _ _ H)
    as (e1 & e2 & H1 & H2 & _ & Hw & Hp & _).
  exists e1, e2. split; [exact H1 |]. split; [exact H2 |]. split; [exact Hw | exact Hp].
Defined.

(** ** C10: order and cap of the listings *)

(** C10. An admin listing holds at most 100 records, newest first: it is
    the first 100 of the matching records sorted by startTime descending.
    An employee listing is sorted the same way and is not capped: it holds
    every matching record. On a store where Ada has 101 closed records her
    listing has 101 entries and the admin listing 100. *)
Theorem listings_sorted_capped (tz : Js.TimeZone) :
  (forall c dateRange employeeId project now s,
      Caller.role c = admin ->
      exists l,
        run (adminRecords tz c dateRange employeeId project now) s = inr (l, s)
        /\ (List.length l <= 100)%nat
        /\ newestFirst l
        /\ l = firstn 100
                 (sortNewestFirst
                    (List.filter (matches (adminRecordsQuery tz dateRange employeeId project now))
                                 (timeRecords s))))
  /\ (forall c dateRange project now s,
        exists l,
          run (employeeRecords tz c dateRange project now) s = inr (l, s)
          /\ newestFirst l
          /\ Permutation l
               (List.filter (matches (employeeRecordsQuery tz c dateRange project now))
                            (timeRecords s))
          /\ List.length l
             = List.length
                 (List.filter (matches (employeeRecordsQuery tz c dateRange project now))
                              (timeRecords s)))
  /\ (exists l,
        run (employeeRecords tz ada None None sundayNoon) busyDay = inr (l, busyDay)
        /\ List.length l = 101%nat)
  /\ (exists l,
        run (adminRecords tz root None None None sundayNoon) busyDay = inr (l, busyDay)
        /\ List.length l = 100%nat).
Proof.
  split; [| split; [| split]];
    [| | rewrite employeeRecords_run; eexists; split; [reflexivity | vm_compute; reflexivity]
       | rewrite adminRecords_run; eexists; split; [reflexivity | vm_compute; reflexivity]].
  - intros c dateRange employeeId project now s Hadmin.
    rewrite adminRecords_run, Hadmin. eexists. split; [reflexivity |].
    split; [apply firstn_le_length |].
    split; [apply newestFirst_firstn, sortNewestFirst_sorted | reflexivity].
  - intros c dateRange project now s.
    rewrite employeeRecords_run. eexists. split; [reflexivity |].
    split; [apply sortNewestFirst_sorted |].
    assert (P : Permutation
                  (sortNewestFirst
                     (List.filter (matches (employeeRecordsQuery tz c dateRange project now))
                                  (timeRecords s)))
                  (List.filter (matches (employeeRecordsQuery tz c dateRange project now))
                               (timeRecords s)))
      by apply Permutation_sym, ByStartTime.Permuted_sort.
    split; [exact P | apply Permutation_length, P].
Qed.

Lemma listings_sorted_capped_witness :
  Caller.role root = admin
  /\ exists l,
       run (adminRecords Js.utc root None None None sundayNoon) threeDays = inr (l, threeDays)
       /\ (List.length l <= 100)%nat
       /\ map TimeRecord.date l = ["2024-01-05"; "2024-01-03"; "2024-01-01"].
Proof.
  split; [reflexivity |].
  destruct (proj1 (listings_sorted_capped Js.utc) root None None None sundayNoon threeDays eq_refl)
    as (l & Hrun & Hlen & _ & Hl).
  exists l. split; [exact Hrun |]. split; [exact Hlen |].
  rewrite Hl. reflexivity.
Defined.

(** ** Unique ids *)

Section UniqueKeys.
Context {A K : Type} (key : A -> K).

Lemma NoDup_map_snoc (l : list A) (x : A) :
  NoDup (map key l) -> ~ In (key x) (map key l) -> NoDup (map key (l ++ [x])).
Proof.
  intros Hl Hx. rewrite map_app. simpl.
  apply NoDup_app; [exact Hl | repeat constructor; auto |].
  intros k Hk [<- | []]. auto.
Qed.

Lemma NoDup_map_filter (p : A -> bool) (l : list A) :
  NoDup (map key l) -> NoDup (map key (List.filter p l)).
Proof.
  induction l as [| a l IH]; simpl; [auto |].
  intros H. inversion H as [| k ks Hnotin Hnodup]; subst.
  destruct (p a); [| auto]. simpl. constructor; [| auto].
  intros Hin. apply Hnotin. apply in_map_iff in Hin.
  destruct Hin as (y & Hy & Hin). apply filter_In in Hin.
  apply in_map_iff. exists y. tauto.
Qed.

Lemma removeFirst_incl (p : A -> bool) (l : list A) (x : A) :
  In x (removeFirst p l) -> In x l.
Proof.
  induction l as [| a l IH]; simpl; [auto |].
  destruct (p a); simpl; [auto |]. intros [<- | H]; auto.
Qed.

Lemma NoDup_map_removeFirst (p : A -> bool) (l : list A) :
  NoDup (map key l) -> NoDup (map key (removeFirst p l)).
Proof.
  induction l as [| a l IH]; simpl; [auto |].
  intros H. inversion H as [| k ks Hnotin Hnodup]; subst.
  destruct (p a); [exact Hnodup |]. simpl. constructor; [| auto].
  intros Hin. apply Hnotin. apply in_map_iff in Hin.
  destruct Hin as (y & Hy & Hin). apply removeFirst_incl in Hin.
  apply in_map_iff. exists y. tauto.
Qed.

Lemma map_replaceAt (i : nat) (x y : A) (l : list A) :
  nth_error l i = Some x -> key y = key x ->
  map key (replaceAt i y l) = map key l.
Proof.
  revert i. induction l as [| a l IH]; intros [| i]; simpl; try discriminate.
  - intros [= ->] ->. reflexivity.
  - intros H1 H2. f_equal. apply IH; assumption.
Qed.

End UniqueKeys.

(** With unique keys, removing the first match removes every match. *)
Lemma removeFirst_unique (id : string) (l : list User.t) :
  NoDup (map User.id l) ->
  removeFirst (fun u => (User.id u =? id)%string) l
  = List.filter (fun u => negb (User.id u =? id)%string) l.
Proof.
  induction l as [| a l IH]; simpl; [reflexivity |].
  intros H. inversion H as [| k ks Hnotin Hnodup]; subst.
  destruct (String.eqb_spec (User.id a) id) as [E | E]; simpl.
  - symmetry. apply forallb_filter_id. apply forallb_forall. intros u Hu.
    apply negb_true_iff, String.eqb_neq. intros E'. apply Hnotin.
    apply in_map_iff. exists u. split; [congruence | exact Hu].
  - f_equal. apply IH, Hnodup.
Qed.

Lemma existsb_id_false {A : Type} (key : A -> string) (k : string) (l : list A) :
  List.existsb (fun x => (key x =? k)%string) l = false -> ~ In k (map key l).
Proof.
  intros H Hin. apply in_map_iff in Hin. destruct Hin as (x & Hx & Hin).
  assert (List.existsb (fun x => (key x =? k)%string) l = true).
  { apply existsb_exists. exists x. split; [exact Hin | apply String.eqb_eq, Hx]. }
  congruence.
Qed.

Lemma clashes_false (u : User.t) (l : list User.t) :
  List.existsb (User.clashes u) l = false -> ~ In (User.id u) (map User.id l).
Proof.
  intros H. apply existsb_id_false.
  destruct (List.existsb (fun x => (User.id x =? User.id u)%string) l) eqn:E;
    [| reflexivity].
  apply existsb_exists in E. destruct E as (x & Hin & Hx).
  assert (List.existsb (User.clashes u) l = true).
  { apply existsb_exists. exists x. split; [exact Hin |].
    unfold User.clashes. rewrite String.eqb_sym, Hx. reflexivity. }
  congruence.
Qed.

Lemma exec_uniqueIds (req : Request) (now : Z) (s : Store) :
  uniqueIds s -> uniqueIds (exec req now s).
Proof.
  intros [Hu Hr].
  destruct req as [| c f l e p d q | c id | c p t | c id | c id a | c p t st et];
    unfold exec, after.
  - rewrite initializeAdmin_run.
    destruct (List.find _ _); [split; assumption |].
    destruct (_ && _) eqn:E; [| split; assumption].
    apply andb_true_iff in E. destruct E as [_ E]. apply negb_true_iff in E.
    split; [| exact Hr]. apply NoDup_map_snoc; [exact Hu | apply clashes_false, E].
  - rewrite addEmployee_run.
    destruct (Caller.role c); [| split; assumption].
    destruct (List.find _ _); [split; assumption |]. cbv zeta.
    destruct (_ && _) eqn:E; [| split; assumption].
    apply andb_true_iff in E. destruct E as [_ E]. apply negb_true_iff in E.
    split; [| exact Hr]. apply NoDup_map_snoc; [exact Hu | apply clashes_false, E].
  - rewrite deleteEmployee_run.
    destruct (Caller.role c); [| split; assumption].
    split; [apply NoDup_map_removeFirst, Hu | apply NoDup_map_filter, Hr].
  - rewrite startTimer_run.
    destruct (findFirst _ _) as [[i x] |]; [split; assumption |].
    destruct (List.find _ _) as [u |]; [| split; assumption]. cbv zeta.
    destruct (_ && _) eqn:E; [| split; assumption].
    apply andb_true_iff in E. destruct E as [_ E]. apply negb_true_iff in E.
    split; [exact Hu |]. apply NoDup_map_snoc; [exact Hr | apply existsb_id_false, E].
  - rewrite stopTimer_run.
    destruct (findFirst _ _) as [[i x] |] eqn:E; [| split; assumption].
    split; [exact Hu |]. simpl.
    apply findFirst_Some in E. destruct E as (_ & _ & Hn).
    rewrite (map_replaceAt TimeRecord.id i x); [exact Hr | exact Hn | reflexivity].
  - rewrite pauseTimer_run.
    destruct (findFirst _ _) as [[i x] |] eqn:E; [| split; assumption].
    split; [exact Hu |]. simpl.
    apply findFirst_Some in E. destruct E as (_ & _ & Hn).
    rewrite (map_replaceAt TimeRecord.id i x); [exact Hr | exact Hn |].
    unfold toggled. destruct (a =? "pause")%string; [reflexivity |].
    destruct (a =? "resume")%string; reflexivity.
  - rewrite manualEntry_run.
    destruct (List.find _ _) as [u |]; [| split; assumption].
    destruct (Js.isValid st && Js.isValid et); [| split; assumption].
    destruct (elapsedSeconds st et) as [secs |]; [| split; assumption]. cbv zeta.
    destruct (_ && _) eqn:E; [| split; assumption].
    apply andb_true_iff in E. destruct E as [_ E]. apply negb_true_iff in E.
    split; [exact Hu |]. apply NoDup_map_snoc; [exact Hr | apply existsb_id_false, E].
Qed.

(** The unique indexes hold in every store the API reaches. *)
Lemma reachable_uniqueIds (s : Store) : reachable s -> uniqueIds s.
Proof.
  induction 1 as [| s req now Hs IH].
  - split; constructor.
  - apply exec_uniqueIds, IH.
Qed.

(** ** C9: deleting a user *)

(** C9. For an admin caller, on a store whose user ids are unique (as the
    unique index makes them), deleting user [id] succeeds and leaves
    exactly the users whose id differs and exactly the records whose userId
    differs, each as it was and in the order it was: no user and no record
    with that id remains, and nothing else is touched. [id] need not name
    an existing user. *)
Theorem deleteEmployee_spec (c : Caller.t) (id : string) (s : Store) :
  Caller.role c = admin ->
  NoDup (map User.id (users s)) ->
  exists s',
    run (deleteEmployee c id) s = inr (tt, s')
    /\ users s' = List.filter (fun u => negb (User.id u =? id)%string) (users s)
    /\ timeRecords s' = others id s
    /\ owned id s' = []
    /\ others id s' = others id s
    /\ (forall u, In u (users s') <-> In u (users s) /\ User.id u <> id)
    /\ (forall r, In r (timeRecords s')
                  <-> In r (timeRecords s) /\ TimeRecord.userId r <> id).
Proof.
  intros Hadmin Hnodup.
  rewrite deleteEmployee_run, Hadmin. eexists. split; [reflexivity |].
  cbn [users timeRecords].
  rewrite (removeFirst_unique id (users s) Hnodup).
  split; [reflexivity |]. split; [reflexivity |].
  unfold owned, others. cbn [timeRecords].
  split.
  { apply filter_nil_iff. intros r Hr. apply filter_In in Hr.
    apply negb_true_iff. tauto. }
  split.
  { apply filter_implied. auto. }
  split.
  - intros u. rewrite filter_In, negb_true_iff, String.eqb_neq. tauto.
  - intros r. rewrite filter_In, negb_true_iff, String.eqb_neq. tauto.
Qed.

Lemma deleteEmployee_spec_witness :
  Caller.role root = admin
  /\ NoDup (map User.id (users threeDays))
  /\ exists s',
       run (deleteEmployee root "emp_2000") threeDays = inr (tt, s')
       /\ map User.id (users s') = ["admin_001"]
       /\ timeRecords s' = [].
Proof.
  assert (H : NoDup (map User.id (users threeDays))).
  { vm_compute. repeat constructor; simpl; intuition discriminate. }
  split; [reflexivity |]. split; [exact H |].
  destruct (deleteEmployee_spec root "emp_2000" threeDays eq_refl H)
    as (s' & Hrun & Hu & Hr & _).
  exists s'. split; [exact Hrun |]. split; [rewrite Hu | rewrite Hr]; reflexivity.
Defined.

(** ** Rewriting one document *)

Section AmendFirst.
Context {A : Type}.
Implicit Types (p q : A -> bool) (f : A -> A) (l : list A).

Lemma amendFirst_findFrom p f l k i x :
  findFrom k p l = Some (i, x) -> replaceAt (i - k) (f x) l = amendFirst p f l.
Proof.
  revert k. induction l as [| a l IH]; intros k; simpl; [discriminate |].
  destruct (p a) eqn:Ha.
  - intros [= <- <-]. rewrite Nat.sub_diag. reflexivity.
  - intros H. destruct (findFrom_Some _ _ _ _ _ H) as (_ & _ & Hle & _).
    replace (i - k)%nat with (S (i - S k)) by lia.
    f_equal. apply IH, H.
Qed.

Lemma amendFirst_none p f l :
  (forall x, In x l -> p x = false) -> amendFirst p f l = l.
Proof.
  induction l as [| a l IH]; simpl; [reflexivity |].
  intros H. rewrite (H a) by auto. f_equal. apply IH. auto.
Qed.

Lemma filter_amendFirst p q f l :
  (forall x, p x = true -> q x = true) ->
  (forall x, q (f x) = q x) ->
  List.filter q (amendFirst p f l) = amendFirst p f (List.filter q l).
Proof.
  intros Hpq Hf. induction l as [| a l IH]; simpl; [reflexivity |].
  destruct (p a) eqn:Hp.
  - simpl. rewrite Hf, (Hpq a Hp). simpl. rewrite Hp. reflexivity.
  - simpl. destruct (q a); simpl; [rewrite Hp; f_equal |]; exact IH.
Qed.

Lemma filter_amendFirst_others p q f l :
  (forall x, p x = true -> q x = true) ->
  (forall x, q (f x) = q x) ->
  List.filter (fun x => negb (q x)) (amendFirst p f l)
  = List.filter (fun x => negb (q x)) l.
Proof.
  intros Hpq Hf. induction l as [| a l IH]; simpl; [reflexivity |].
  destruct (p a) eqn:Hp.
  - simpl. rewrite Hf, (Hpq a Hp). reflexivity.
  - simpl. destruct (negb (q a)); [f_equal |]; exact IH.
Qed.

Lemma find_filter p q l :
  (forall x, p x = true -> q x = true) ->
  List.find p (List.filter q l) = List.find p l.
Proof.
  intros Hpq. induction l as [| a l IH]; simpl; [reflexivity |].
  destruct (q a) eqn:Hq; simpl.
  - destruct (p a); [reflexivity | exact IH].
  - destruct (p a) eqn:Hp; [| exact IH].
    rewrite (Hpq a Hp) in Hq. discriminate.
Qed.

Lemma findFirst_find p l : option_map snd (findFirst p l) = List.find p l.
Proof. apply findFrom_find. Qed.

Lemma replaceAt_amendFirst p f l :
  match findFirst p l with
  | Some (i, x) => replaceAt i (f x) l
  | None => l
  end = amendFirst p f l.
Proof.
  destruct (findFirst p l) as [[i x] |] eqn:E.
  - rewrite <- (Nat.sub_0_r i). apply amendFirst_findFrom, E.
  - symmetry. apply amendFirst_none, findFirst_None, E.
Qed.

End AmendFirst.

(** *** Stop and pause, seen through the caller's own records *)

Lemma ownedBy_owner (id u : string) (r : TimeRecord.t) :
  ownedBy id u r = true -> (TimeRecord.userId r =? u)%string = true.
Proof. unfold ownedBy. rewrite andb_true_iff. tauto. Qed.

Lemma stopTimer_answer (c : Caller.t) (id : string) (now : Z) (s : Store) :
  answer (run (stopTimer c id now) s) =
  match List.find (ownedBy id (Caller.id c)) (owned (Caller.id c) s) with
  | Some timer => inr (stopped now timer)
  | None => inl NotFoundError
  end.
Proof.
  rewrite stopTimer_run. unfold owned.
  rewrite find_filter by apply ownedBy_owner.
  rewrite <- findFirst_find.
  destruct (findFirst _ _) as [[i x] |]; reflexivity.
Qed.

Lemma stopTimer_after (c : Caller.t) (id : string) (now : Z) (s : Store) :
  after (stopTimer c id now) s
  = mkStore (users s)
            (amendFirst (ownedBy id (Caller.id c)) (stopped now) (timeRecords s)).
Proof.
  unfold after. rewrite stopTimer_run, <- replaceAt_amendFirst.
  destruct (findFirst _ _) as [[i x] |]; [reflexivity | destruct s; reflexivity].
Qed.

Lemma pauseTimer_answer (c : Caller.t) (id action : string) (s : Store) :
  answer (run (pauseTimer c id action) s) =
  match List.find (ownedBy id (Caller.id c)) (owned (Caller.id c) s) with
  | Some timer => inr (toggled action timer)
  | None => inl NotFoundError
  end.
Proof.
  rewrite pauseTimer_run. unfold owned.
  rewrite find_filter by apply ownedBy_owner.
  rewrite <- findFirst_find.
  destruct (findFirst _ _) as [[i x] |]; reflexivity.
Qed.

Lemma pauseTimer_after (c : Caller.t) (id action : string) (s : Store) :
  after (pauseTimer c id action) s
  = mkStore (users s)
            (amendFirst (ownedBy id (Caller.id c)) (toggled action) (timeRecords s)).
Proof.
  unfold after. rewrite pauseTimer_run, <- replaceAt_amendFirst.
  destruct (findFirst _ _) as [[i x] |]; [reflexivity | destruct s; reflexivity].
Qed.

Lemma userId_toggled (action : string) (r : TimeRecord.t) :
  TimeRecord.userId (toggled action r) = TimeRecord.userId r.
Proof.
  unfold toggled. destruct (action =? "pause")%string; [reflexivity |].
  destruct (action =? "resume")%string; reflexivity.
Qed.

Lemma matches_owner (q : Query) (u : string) (r : TimeRecord.t) :
  q_userId q = Some u -> matches q r = true -> (TimeRecord.userId r =? u)%string = true.
Proof.
  unfold matches. intros ->. rewrite !andb_true_iff. simpl. tauto.
Qed.

Lemma find_owned (q : Query) (u : string) (s : Store) :
  q_userId q = Some u ->
  List.filter (matches q) (timeRecords s) = List.filter (matches q) (owned u s).
Proof.
  intros H. unfold owned. symmetry. apply filter_implied.
  intros r. apply matches_owner, H.
Qed.

Lemma activeTimer_owned {B : Type} (u : string) (s : Store)
    (f : TimeRecord.t -> B) (d : B) :
  match findFirst (matches (runningQuery (Some u))) (timeRecords s) with
  | Some (_, t) => f t
  | None => d
  end
  = match List.find (matches (runningQuery (Some u))) (owned u s) with
    | Some t => f t
    | None => d
    end.
Proof.
  unfold owned.
  rewrite find_filter by (intros r; apply matches_owner; reflexivity).
  rewrite <- findFirst_find.
  destruct (findFirst _ _) as [[i x] |]; reflexivity.
Qed.

Lemma NoDup_map_inj {A K : Type} (key : A -> K) (l : list A) (x y : A) :
  NoDup (map key l) -> In x l -> In y l -> key x = key y -> x = y.
Proof.
  induction l as [| a l IH]; simpl; [tauto |].
  intros H. inversion H as [| k ks Hnotin Hnodup]; subst.
  intros [-> | Hx] [-> | Hy] E; auto.
  - exfalso. apply Hnotin. rewrite E. apply in_map, Hy.
  - exfalso. apply Hnotin. rewrite <- E. apply in_map, Hx.
Qed.

Lemma notOwned_NotFound (c : Caller.t) (id : string) (s : Store) :
  (forall r, In r (timeRecords s) -> TimeRecord.id r = id ->
             TimeRecord.userId r <> Caller.id c) ->
  findFirst (ownedBy id (Caller.id c)) (timeRecords s) = None.
Proof.
  intros H. apply findFirst_None. intros r Hin.
  destruct (ownedBy id (Caller.id c) r) eqn:E; [| reflexivity].
  apply ownedBy_true in E. destruct E as [E1 E2].
  exfalso. exact (H r Hin E1 E2).
Qed.

(** ** C7: employee operations see and touch the caller's records only *)

(** C7. Let two stores hold the same records of the caller (they may differ
    in everything other users own). Then, for every filter combination, the
    employee listing answers the same on both and returns only records whose
    userId is the caller's; the employee dashboard answers the same on both;
    stop and pause/resume answer the same on both, leave the caller's
    records in the same state on both, and leave every other user's records
    as they were. A stop or pause aimed at an id under which the caller
    owns no record fails with NotFoundError; with unique record ids that is
    every record owned by another user. *)
Theorem employee_scope (tz : Js.TimeZone) (c : Caller.t) (s1 s2 : Store) :
  owned (Caller.id c) s1 = owned (Caller.id c) s2 ->
  (forall dateRange project now,
      answer (run (employeeRecords tz c dateRange project now) s1)
      = answer (run (employeeRecords tz c dateRange project now) s2)
      /\ exists l,
           run (employeeRecords tz c dateRange project now) s1 = inr (l, s1)
           /\ forall r, In r l -> TimeRecord.userId r = Caller.id c)
  /\ (forall now,
        answer (run (employeeStats tz c now) s1) = answer (run (employeeStats tz c now) s2)
        /\ exists st, run (employeeStats tz c now) s1 = inr (st, s1))
  /\ (forall id now,
        answer (run (stopTimer c id now) s1) = answer (run (stopTimer c id now) s2)
        /\ owned (Caller.id c) (after (stopTimer c id now) s1)
           = owned (Caller.id c) (after (stopTimer c id now) s2)
        /\ others (Caller.id c) (after (stopTimer c id now) s1) = others (Caller.id c) s1
        /\ users (after (stopTimer c id now) s1) = users s1)
  /\ (forall id action,
        answer (run (pauseTimer c id action) s1) = answer (run (pauseTimer c id action) s2)
        /\ owned (Caller.id c) (after (pauseTimer c id action) s1)
           = owned (Caller.id c) (after (pauseTimer c id action) s2)
        /\ others (Caller.id c) (after (pauseTimer c id action) s1) = others (Caller.id c) s1
        /\ users (after (pauseTimer c id action) s1) = users s1)
  /\ (forall id now action,
        (forall r, In r (timeRecords s1) -> TimeRecord.id r = id ->
                   TimeRecord.userId r <> Caller.id c) ->
        run (stopTimer c id now) s1 = inl NotFoundError
        /\ run (pauseTimer c id action) s1 = inl NotFoundError)
  /\ (NoDup (map TimeRecord.id (timeRecords s1)) ->
      forall r now action,
        In r (timeRecords s1) -> TimeRecord.userId r <> Caller.id c ->
        run (stopTimer c (TimeRecord.id r) now) s1 = inl NotFoundError
        /\ run (pauseTimer c (TimeRecord.id r) action) s1 = inl NotFoundError).
Proof.
  intros Hown.
  assert (Hnf : forall id now action,
             (forall r, In r (timeRecords s1) -> TimeRecord.id r = id ->
                        TimeRecord.userId r <> Caller.id c) ->
             run (stopTimer c id now) s1 = inl NotFoundError
             /\ run (pauseTimer c id action) s1 = inl NotFoundError).
  { intros id now action H. apply notOwned_NotFound in H.
    rewrite stopTimer_run, pauseTimer_run, H. split; reflexivity. }
  split; [| split; [| split; [| split; [| split]]]].
  - intros dateRange project now. rewrite !employeeRecords_run. simpl.
    rewrite !(find_owned _ (Caller.id c)) by reflexivity.
    rewrite Hown. split; [reflexivity |].
    eexists. split; [reflexivity |].
    intros r Hr. apply In_sortNewestFirst, filter_In in Hr. destruct Hr as [_ Hm].
    apply String.eqb_eq. eapply matches_owner; [| exact Hm]. reflexivity.
  - intros now. rewrite !employeeStats_run. cbv zeta. simpl.
    rewrite !(activeTimer_owned (Caller.id c)).
    rewrite !(find_owned (todayQuery (Some (Caller.id c)) now) (Caller.id c)),
      !(find_owned (weekQuery tz (Some (Caller.id c)) now) (Caller.id c)) by reflexivity.
    rewrite Hown. split; [reflexivity | eexists; reflexivity].
  - intros id now. rewrite !stopTimer_answer, !stopTimer_after, Hown.
    split; [reflexivity |]. unfold owned, others. cbn [timeRecords users].
    pose proof (ownedBy_owner id (Caller.id c)) as Hpq.
    assert (Hf : forall x, (TimeRecord.userId (stopped now x) =? Caller.id c)%string
                           = (TimeRecord.userId x =? Caller.id c)%string)
      by reflexivity.
    rewrite !(filter_amendFirst _ _ _ _ Hpq Hf).
    fold (owned (Caller.id c) s1). fold (owned (Caller.id c) s2). rewrite Hown.
    split; [reflexivity |]. split; [| reflexivity].
    apply (filter_amendFirst_others _ _ _ _ Hpq Hf).
  - intros id action. rewrite !pauseTimer_answer, !pauseTimer_after, Hown.
    split; [reflexivity |]. unfold owned, others. cbn [timeRecords users].
    assert (Hf : forall x, (TimeRecord.userId (toggled action x) =? Caller.id c)%string
                           = (TimeRecord.userId x =? Caller.id c)%string)
      by (intros x; rewrite userId_toggled; reflexivity).
    pose proof (ownedBy_owner id (Caller.id c)) as Hpq.
    rewrite !(filter_amendFirst _ _ _ _ Hpq Hf).
    fold (owned (Caller.id c) s1). fold (owned (Caller.id c) s2). rewrite Hown.
    split; [reflexivity |]. split; [| reflexivity].
    apply (filter_amendFirst_others _ _ _ _ Hpq Hf).
  - exact Hnf.
  - intros Hnodup r now action Hin Hother. apply Hnf.
    intros r' Hin' Hid. rewrite (NoDup_map_inj TimeRecord.id _ r' r Hnodup Hin' Hin Hid).
    exact Hother.
Qed.

Lemma employee_scope_witness :
  owned (Caller.id ada) withBob = owned (Caller.id ada) threeDays
  /\ answer (run (employeeStats Js.utc ada sundayNoon) withBob)
     = answer (run (employeeStats Js.utc ada sundayNoon) threeDays)
  /\ run (stopTimer ada "manual_1704474000003" sundayNoon) withBob = inl NotFoundError
  /\ NoDup (map TimeRecord.id (timeRecords withBob))
  /\ exists r,
       In r (timeRecords withBob) /\ TimeRecord.userId r = Caller.id bob
       /\ run (pauseTimer ada (TimeRecord.id r) "pause") withBob = inl NotFoundError.
Proof.
  assert (H : owned (Caller.id ada) withBob = owned (Caller.id ada) threeDays)
    by reflexivity.
  assert (N : NoDup (map TimeRecord.id (timeRecords withBob))).
  { vm_compute. repeat constructor; simpl; intuition discriminate. }
  split; [exact H |].
  destruct (employee_scope Js.utc ada withBob threeDays H)
    as (_ & Hstats & _ & _ & Hnf & Huniq).
  split; [apply Hstats |]. split; [| split; [exact N |]].
  - apply (Hnf "manual_1704474000003" sundayNoon "pause").
    intros r Hin Hid Hu. vm_compute in Hin.
    repeat (destruct Hin as [<- | Hin]; [discriminate |]). exact Hin.
  - assert (E : exists r, nth_error (timeRecords withBob) 3 = Some r
                          /\ TimeRecord.userId r = Caller.id bob)
      by (eexists; split; [vm_compute; reflexivity | reflexivity]).
    destruct E as (r & Hn & Hu). exists r.
    assert (Hin : In r (timeRecords withBob)) by (eapply nth_error_In, Hn).
    split; [exact Hin |]. split; [exact Hu |].
    apply (Huniq N r sundayNoon "pause" Hin). rewrite Hu. discriminate.
Defined.

(** * Further properties of the server *)

(** ** One open timer per user *)

Lemma filter_twice {A : Type} (p q : A -> bool) (l : list A) :
  List.filter p (List.filter q l) = List.filter (fun x => q x && p x) l.
Proof.
  induction l as [| a l IH]; simpl; [reflexivity |].
  destruct (q a); simpl; [destruct (p a); [f_equal |] |]; exact IH.
Qed.

(** The caller's open records are what the start handler's query selects. *)
Lemma activeOf_matches (u : string) (s : Store) :
  activeOf u s = List.filter (matches (runningQuery (Some u))) (timeRecords s).
Proof.
  unfold activeOf, owned. rewrite filter_twice. apply filter_ext. intros r.
  unfold matches, runningQuery; simpl. rewrite andb_true_r.
  destruct (TimeRecord.isRunning r), (TimeRecord.userId r =? u)%string; reflexivity.
Qed.

Lemma In_activeOf (u : string) (s : Store) (r : TimeRecord.t) :
  In r (activeOf u s)
  <-> In r (timeRecords s) /\ TimeRecord.userId r = u /\ TimeRecord.isRunning r = true.
Proof.
  rewrite activeOf_matches, filter_In, matches_running. tauto.
Qed.

Lemma length_filter_amendFirst {A : Type} (p q : A -> bool) (f : A -> A) (l : list A) :
  (forall x, q (f x) = true -> q x = true) ->
  (List.length (List.filter q (amendFirst p f l)) <= List.length (List.filter q l))%nat.
Proof.
  intros H. induction l as [| a l IH]; simpl; [lia |].
  destruct (p a); simpl.
  - destruct (q (f a)) eqn:E; [rewrite (H a E); simpl; lia |].
    destruct (q a); simpl; lia.
  - destruct (q a); simpl; lia.
Qed.

Lemma length_filter_filter {A : Type} (p q : A -> bool) (l : list A) :
  (List.length (List.filter p (List.filter q l)) <= List.length (List.filter p l))%nat.
Proof.
  induction l as [| a l IH]; simpl; [lia |].
  destruct (q a); simpl; destruct (p a); simpl; lia.
Qed.

(** What a start request does to the records. *)
Lemma startTimer_records (c : Caller.t) (project task : string) (now : Z) (s : Store) :
  timeRecords (exec (StartTimer c project task) now s) = timeRecords s
  \/ (findFirst (matches (runningQuery (Some (Caller.id c)))) (timeRecords s) = None
      /\ exists u,
           List.find (fun u => (User.id u =? Caller.id c)%string) (users s) = Some u
           /\ timeRecords (exec (StartTimer c project task) now s)
              = (timeRecords s ++ [newTimer c u project task now])%list).
Proof.
  unfold exec, after. rewrite startTimer_run.
  destruct (findFirst _ _) as [[i x] |]; [auto |].
  destruct (List.find _ (users s)) as [u |]; [| auto].
  cbv zeta. destruct (_ && _); [right; split; [reflexivity | exists u; auto] | auto].
Qed.

(** X1. A request handled without another one in between keeps the bound
    of one running record per user: when every user has at most one before
    the request, every user has at most one after it. *)
Theorem one_open_timer (req : Request) (now : Z) (s : Store) :
  (forall u, (List.length (activeOf u s) <= 1)%nat) ->
  forall u, (List.length (activeOf u (exec req now s)) <= 1)%nat.
Proof.
  intros H u. specialize (H u) as Hu. rewrite !activeOf_matches in *.
  destruct req as [| c f l e p d q | c id | c p t | c id | c id a | c p t st et].
  - replace (timeRecords (exec Boot now s)) with (timeRecords s); [exact Hu |].
    unfold exec, after. rewrite initializeAdmin_run.
    destruct (List.find _ _); [reflexivity |]. destruct (_ && _); reflexivity.
  - replace (timeRecords (exec (AddEmployee c f l e p d q) now s)) with (timeRecords s);
      [exact Hu |].
    unfold exec, after. rewrite addEmployee_run.
    destruct (Caller.role c); [| reflexivity].
    destruct (List.find _ _); [reflexivity |]. cbv zeta. destruct (_ && _); reflexivity.
  - unfold exec, after. rewrite deleteEmployee_run.
    destruct (Caller.role c); [| exact Hu]. cbn [timeRecords].
    eapply Nat.le_trans; [apply length_filter_filter | exact Hu].
  - destruct (startTimer_records c p t now s) as [-> | (Hnone & usr & _ & ->)];
      [exact Hu |].
    rewrite filter_app, length_app. simpl.
    destruct (matches (runningQuery (Some u)) (newTimer c usr p t now)) eqn:E;
      [| simpl; lia].
    apply matches_running in E. destruct E as [E _]. simpl in E. subst u.
    rewrite (proj2 (filter_nil_iff _ _) (proj1 (findFirst_None _ _) Hnone)).
    simpl. lia.
  - unfold exec. rewrite stopTimer_after. cbn [timeRecords].
    eapply Nat.le_trans; [apply length_filter_amendFirst | exact Hu].
    intros x Hx. apply matches_running in Hx. destruct Hx as [_ Hx]. discriminate.
  - unfold exec. rewrite pauseTimer_after. cbn [timeRecords].
    eapply Nat.le_trans; [apply length_filter_amendFirst | exact Hu].
    intros x Hx. apply matches_running in Hx. apply matches_running.
    rewrite userId_toggled in Hx. destruct Hx as [Hx1 Hx2]. split; [exact Hx1 |].
    revert Hx2. unfold toggled. destruct (a =? "pause")%string; [auto |].
    destruct (a =? "resume")%string; auto.
  - destruct (manualEntry_records c p t st et now s) as [-> | (usr & secs & _ & ->)];
      [exact Hu |].
    rewrite filter_app, length_app. simpl.
    replace (matches (runningQuery (Some u)) (newRecord c usr p t st et secs now))
      with false; [simpl; lia |].
    symmetry. destruct (matches _ _) eqn:E; [| reflexivity].
    apply matches_running in E. destruct E as [_ E]. discriminate.
Qed.

Lemma one_open_timer_witness :
  (forall u, (List.length (activeOf u tracking) <= 1)%nat)
  /\ List.length (activeOf "emp_3000" (exec (StartTimer bob "Engine" "Gears") 6000 tracking))
     = 1%nat
  /\ (List.length (activeOf "emp_2000"
                           (exec (StartTimer ada "Compiler" "Lexer") 6000 tracking))
      <= 1)%nat.
Proof.
  assert (H : forall u, (List.length (activeOf u tracking) <= 1)%nat).
  { intros u. unfold activeOf, owned.
    eapply Nat.le_trans; [apply filter_length_le |].
    eapply Nat.le_trans; [apply filter_length_le |]. vm_compute. lia. }
  split; [exact H |]. split; [vm_compute; reflexivity |].
  exact (one_open_timer (StartTimer ada "Compiler" "Lexer") 6000 tracking H "emp_2000").
Defined.

(** ** What every stored record satisfies *)

(** X2. In every store reached by requests handled one after another, a
    record that is not running has its three closing paths set: an end
    time, durationSeconds and the formatDuration of it as duration. When
    start and end are of magnitude below 2^53 and less than 2^53
    milliseconds apart, durationSeconds is floor((endTime - startTime) /
    1000). *)
Theorem closed_records_consistent (s : Store) :
  reachable s ->
  forall r, In r (timeRecords s) -> TimeRecord.isRunning r = false ->
    exists e d,
      TimeRecord.endTime r = Some e
      /\ TimeRecord.durationSeconds r = Some d
      /\ TimeRecord.duration r = Some (formatDuration d)
      /\ (Z.abs (TimeRecord.startTime r) < 2 ^ 53 -> Z.abs e < 2 ^ 53 ->
          Z.abs (e - TimeRecord.startTime r) < 2 ^ 53 ->
          d = (e - TimeRecord.startTime r) / 1000).
Proof.
  apply (reachable_records_ind
           (fun r => TimeRecord.isRunning r = false ->
                     exists e d,
                       TimeRecord.endTime r = Some e
                       /\ TimeRecord.durationSeconds r = Some d
                       /\ TimeRecord.duration r = Some (formatDuration d)
                       /\ (Z.abs (TimeRecord.startTime r) < 2 ^ 53 -> Z.abs e < 2 ^ 53 ->
                           Z.abs (e - TimeRecord.startTime r) < 2 ^ 53 ->
                           d = (e - TimeRecord.startTime r) / 1000))).
  - intros; discriminate.
  - intros c u p t st et d now _ _ Ed _. exists et, d. cbn.
    repeat (split; [reflexivity |]). intros Hs He Hd.
    rewrite (elapsedSeconds_exact st et Hs He Hd) in Ed. congruence.
  - intros now timer _ _. exists now. eexists. cbn.
    repeat (split; [reflexivity |]). reflexivity.
  - intros action timer IH. unfold toggled.
    destruct (action =? "pause")%string; [exact IH |].
    destruct (action =? "resume")%string; exact IH.
Qed.

Lemma closed_records_consistent_witness :
  reachable unevenWeek
  /\ exists r e,
       In r (timeRecords unevenWeek)
       /\ TimeRecord.isRunning r = false
       /\ TimeRecord.endTime r = Some e
       /\ TimeRecord.duration r = Some "30m 0s"
       /\ TimeRecord.durationSeconds r = Some ((e - TimeRecord.startTime r) / 1000).
Proof.
  assert (R : reachable unevenWeek) by apply reachable_replay.
  split; [exact R |].
  assert (E : exists r, nth_error (timeRecords unevenWeek) 0 = Some r
                        /\ TimeRecord.isRunning r = false
                        /\ TimeRecord.duration r = Some "30m 0s"
                        /\ Z.abs (TimeRecord.startTime r) < 2 ^ 53
                        /\ TimeRecord.endTime r = Some (jan1 + 34200000))
    by (eexists; split; [vm_compute; reflexivity | repeat split]).
  destruct E as (r & Hn & Hr & Hdur & Hs & Hend).
  assert (Hin : In r (timeRecords unevenWeek)) by (eapply nth_error_In, Hn).
  destruct (closed_records_consistent unevenWeek R r Hin Hr) as (e & d & He & Hd & _ & Hx).
  exists r, e. split; [exact Hin |]. split; [exact Hr |]. split; [exact He |].
  split; [exact Hdur |]. rewrite Hd. f_equal. rewrite Hend in He. injection He as <-.
  apply Hx; [exact Hs | reflexivity |].
  assert (Est : TimeRecord.startTime r = jan1 + 32400000).
  { vm_compute in Hn. injection Hn as <-. reflexivity. }
  rewrite Est. reflexivity.
Defined.

(** X3. In every store reached by requests handled one after another, a
    manual record is never running, has an end time, starts at a valid Date
    and carries as date the UTC calendar date of its start, under an id
    manual_<number>; every other record has an id timer_<number>. So the
    id tells the manual entries from the timers, and no request touches a
    record's start, date or id once it is stored. *)
Theorem record_provenance (s : Store) :
  reachable s ->
  forall r, In r (timeRecords s) ->
    (TimeRecord.isManual r = true ->
     TimeRecord.isRunning r = false
     /\ TimeRecord.date r = Js.toISODate (TimeRecord.startTime r)
     /\ Js.isValid (TimeRecord.startTime r) = true
     /\ (exists e, TimeRecord.endTime r = Some e)
     /\ exists n, TimeRecord.id r = "manual_" ++ Js.ToString n)
    /\ (TimeRecord.isManual r = false ->
        exists n, TimeRecord.id r = "timer_" ++ Js.ToString n).
Proof.
  apply (reachable_records_ind
           (fun r =>
              (TimeRecord.isManual r = true ->
               TimeRecord.isRunning r = false
               /\ TimeRecord.date r = Js.toISODate (TimeRecord.startTime r)
               /\ Js.isValid (TimeRecord.startTime r) = true
               /\ (exists e, TimeRecord.endTime r = Some e)
               /\ exists n, TimeRecord.id r = "manual_" ++ Js.ToString n)
              /\ (TimeRecord.isManual r = false ->
                  exists n, TimeRecord.id r = "timer_" ++ Js.ToString n))).
  - intros c u p t now. split; [discriminate |]. intros _. exists now. reflexivity.
  - intros c u p t st et d now Vs _ _. split; [| discriminate]. intros _. cbn.
    split; [reflexivity |]. split; [reflexivity |]. split; [exact Vs |].
    split; [exists et | exists now]; reflexivity.
  - intros now timer [Hm Ht]. split; [| exact Ht].
    intros H. destruct (Hm H) as (_ & Hd & Hv & _ & Hid). cbn.
    split; [reflexivity |]. split; [exact Hd |]. split; [exact Hv |].
    split; [exists now; reflexivity | exact Hid].
  - intros action timer IH. unfold toggled.
    destruct (action =? "pause")%string; [exact IH |].
    destruct (action =? "resume")%string; exact IH.
Qed.

Lemma record_provenance_witness :
  reachable earlyBird
  /\ exists r,
       In r (timeRecords earlyBird)
       /\ TimeRecord.isManual r = true
       /\ TimeRecord.isRunning r = false
       /\ TimeRecord.date r = Js.toISODate (TimeRecord.startTime r)
       /\ TimeRecord.id r = "manual_4000".
Proof.
  assert (R : reachable earlyBird) by apply reachable_exec, reachable_office.
  split; [exact R |].
  assert (E : exists r, nth_error (timeRecords earlyBird) 0 = Some r
                        /\ TimeRecord.isManual r = true
                        /\ TimeRecord.id r = "manual_4000")
    by (eexists; split; [vm_compute; reflexivity | split; reflexivity]).
  destruct E as (r & Hn & Hm & Hid).
  assert (Hin : In r (timeRecords earlyBird)) by (eapply nth_error_In, Hn).
  destruct (proj1 (record_provenance earlyBird R r Hin) Hm) as (Hr & Hd & _).
  exists r. split; [exact Hin |]. split; [exact Hm |]. split; [exact Hr |].
  split; [exact Hd | exact Hid].
Defined.

(** ** Stop, then start again *)

Lemma In_replaceAt_NoDup {A : Type} (i : nat) (x y r : A) (l : list A) :
  NoDup l -> nth_error l i = Some x ->
  In r (replaceAt i y l) -> r = y \/ (In r l /\ r <> x).
Proof.
  revert i. induction l as [| a l IH]; intros i Hnd; [destruct i; discriminate |].
  inversion Hnd as [| a' l' Hnotin Hnd']; subst.
  destruct i as [| i]; simpl.
  - intros [= ->] [<- | Hin]; [auto |].
    right. split; [auto |]. intros ->. contradiction.
  - intros Hn [<- | Hin].
    + right. split; [auto |]. intros ->. apply Hnotin. eapply nth_error_In, Hn.
    + destruct (IH i Hnd' Hn Hin) as [-> | [H1 H2]]; auto.
Qed.

(** X4. On a store with unique record ids where the user's only running
    record is [timer], once the user has stopped it none of their records
    is running any more, so the next start handled after the stop does not
    answer ConflictError: it succeeds when the request is well-formed. *)
Theorem stop_frees_start (c : Caller.t) (timer : TimeRecord.t) (now : Z) (s : Store) :
  NoDup (map TimeRecord.id (timeRecords s)) ->
  activeOf (Caller.id c) s = [timer] ->
  activeOf (Caller.id c) (exec (StopTimer c (TimeRecord.id timer)) now s) = []
  /\ forall project task later,
       run (startTimer c project task later)
           (exec (StopTimer c (TimeRecord.id timer)) now s) <> inl ConflictError
       /\ (canCreate c project task ("timer_" ++ Js.ToString later)
                     (exec (StopTimer c (TimeRecord.id timer)) now s) = true ->
           exists r s',
             run (startTimer c project task later)
                 (exec (StopTimer c (TimeRecord.id timer)) now s) = inr (r, s')
             /\ TimeRecord.isRunning r = true
             /\ TimeRecord.startTime r = later).
Proof.
  intros Hnd Hone.
  assert (Hact : In timer (activeOf (Caller.id c) s)) by (rewrite Hone; left; reflexivity).
  assert (Hnil : activeOf (Caller.id c) (exec (StopTimer c (TimeRecord.id timer)) now s) = []).
  { apply In_activeOf in Hact. destruct Hact as (Hin & Hu & Hrun).
    destruct (findFirst_exists (ownedBy (TimeRecord.id timer) (Caller.id c)) (timeRecords s))
      as (i & x & Hf).
    { exists timer. split; [exact Hin | apply ownedBy_true; auto]. }
    destruct (findFirst_Some _ _ _ _ Hf) as (Hxin & Hx & Hn).
    apply ownedBy_true in Hx. destruct Hx as [Hxid _].
    assert (x = timer) by (apply (NoDup_map_inj TimeRecord.id _ _ _ Hnd Hxin Hin Hxid)).
    subst x.
    apply filter_nil_iff. intros r Hr.
    destruct (TimeRecord.isRunning r) eqn:Hrr; [exfalso | reflexivity].
    unfold owned in Hr. apply filter_In in Hr. destruct Hr as [Hr Hru].
    apply String.eqb_eq in Hru.
    unfold exec, after in Hr. rewrite stopTimer_run, Hf in Hr. cbn [timeRecords] in Hr.
    apply (In_replaceAt_NoDup i timer) in Hr;
      [| apply (NoDup_map_inv TimeRecord.id), Hnd | exact Hn].
    destruct Hr as [-> | [Hr Hne]]; [discriminate |].
    apply Hne.
    assert (Hr' : In r (activeOf (Caller.id c) s)) by (apply In_activeOf; auto).
    rewrite Hone in Hr'. destruct Hr' as [<- | []]. reflexivity. }
  split; [exact Hnil |].
  intros project task later.
  assert (Hnone : findFirst (matches (runningQuery (Some (Caller.id c))))
                            (timeRecords (exec (StopTimer c (TimeRecord.id timer)) now s))
                  = None).
  { apply findFirst_None. rewrite activeOf_matches in Hnil.
    apply filter_nil_iff. exact Hnil. }
  split.
  - rewrite startTimer_conflict. congruence.
  - intros Hcan.
    destruct (canCreate_inv _ _ _ _ _ Hcan) as (u & Hu & Hc & Hp & Ht & He & Hid).
    rewrite startTimer_run, Hnone, Hu. cbv zeta.
    rewrite newTimer_valid, Hc, Hp, Ht, He.
    change (TimeRecord.id (newTimer c u project task later))
      with ("timer_" ++ Js.ToString later).
    rewrite Hid. simpl. do 2 eexists. split; [reflexivity |]. split; reflexivity.
Qed.

Lemma stop_frees_start_witness :
  NoDup (map TimeRecord.id (timeRecords tracking))
  /\ exists timer,
       activeOf (Caller.id ada) tracking = [timer]
       /\ TimeRecord.id timer = "timer_5000"
       /\ activeOf (Caller.id ada) (exec (StopTimer ada "timer_5000") 9000 tracking) = []
       /\ run (startTimer ada "Compiler" "Lexer" 9500)
              (exec (StopTimer ada "timer_5000") 9000 tracking) <> inl ConflictError.
Proof.
  assert (Hnd : NoDup (map TimeRecord.id (timeRecords tracking))).
  { vm_compute. constructor; [intros [] | constructor]. }
  split; [exact Hnd |].
  assert (E : exists timer, activeOf (Caller.id ada) tracking = [timer]
                            /\ TimeRecord.id timer = "timer_5000")
    by (eexists; split; [vm_compute; reflexivity | reflexivity]).
  destruct E as (timer & Hone & Hid). exists timer.
  destruct (stop_frees_start ada timer 9000 tracking Hnd Hone) as [Hnil Hstart].
  rewrite Hid in Hnil, Hstart.
  split; [exact Hone |]. split; [exact Hid |]. split; [exact Hnil |].
  exact (proj1 (Hstart "Compiler" "Lexer" 9500)).
Defined.

(** ** Pause and resume as flag sets *)

Section AmendTwice.
Context {A : Type}.
Implicit Types (p : A -> bool) (f g : A -> A) (l : list A).

Lemma amendFirst_twice p f g l :
  (forall x, p (f x) = p x) ->
  amendFirst p g (amendFirst p f l) = amendFirst p (fun x => g (f x)) l.
Proof.
  intros H. induction l as [| a l IH]; simpl; [reflexivity |].
  destruct (p a) eqn:Ha; simpl.
  - rewrite H, Ha. reflexivity.
  - rewrite Ha. f_equal. exact IH.
Qed.

Lemma amendFirst_ext p f g l :
  (forall x, f x = g x) -> amendFirst p f l = amendFirst p g l.
Proof.
  intros H. induction l as [| a l IH]; simpl; [reflexivity |].
  destruct (p a); [rewrite H | rewrite IH]; reflexivity.
Qed.

Lemma amendFirst_same p f l : (forall x, f x = x) -> amendFirst p f l = l.
Proof.
  intros H. induction l as [| a l IH]; simpl; [reflexivity |].
  destruct (p a); [rewrite H | rewrite IH]; reflexivity.
Qed.

Lemma In_replaceAt_self (i : nat) (x y : A) l :
  nth_error l i = Some x -> In y (replaceAt i y l).
Proof.
  revert i. induction l as [| a l IH]; intros [| i]; simpl; try discriminate; eauto.
Qed.

Lemma replaceAt_same (i : nat) (x : A) l :
  nth_error l i = Some x -> replaceAt i x l = l.
Proof.
  revert i. induction l as [| a l IH]; intros [| i]; simpl; try discriminate.
  - intros [= ->]. reflexivity.
  - intros H. f_equal. apply IH, H.
Qed.

End AmendTwice.

Lemma exec_pause (c : Caller.t) (id action : string) (now : Z) (s : Store) :
  exec (PauseTimer c id action) now s
  = mkStore (users s)
            (amendFirst (ownedBy id (Caller.id c)) (toggled action) (timeRecords s)).
Proof. apply pauseTimer_after. Qed.

Lemma ownedBy_toggled (id u action : string) (r : TimeRecord.t) :
  ownedBy id u (toggled action r) = ownedBy id u r.
Proof.
  unfold toggled. destruct (action =? "pause")%string; [reflexivity |].
  destruct (action =? "resume")%string; reflexivity.
Qed.

(** X5. Pause and resume are flag sets on the record found by id and owner.
    When the caller owns a record with the given id, "pause" answers that
    record with isPaused set to true and "resume" answers it with isPaused
    cleared, every other path as it was, and the answer replaces the record
    in the store; on a running record this is the move to Paused and the
    move back to Running. Any other action word answers the record
    unchanged and leaves the store as it was. So pausing twice is pausing
    once, resuming twice is resuming once, and the later of a pause and a
    resume on the same record wins. *)
Theorem pause_resume_flag_sets (c : Caller.t) (id : string) (n1 n2 : Z) (s : Store) :
  (exists r, In r (timeRecords s) /\ TimeRecord.id r = id
             /\ TimeRecord.userId r = Caller.id c) ->
  exists i timer,
    findFirst (ownedBy id (Caller.id c)) (timeRecords s) = Some (i, timer)
    /\ (forall action flag,
          (action = "pause" /\ flag = true) \/ (action = "resume" /\ flag = false) ->
          exists r,
            run (pauseTimer c id action) s
            = inr (r, mkStore (users s) (replaceAt i r (timeRecords s)))
            /\ In r (timeRecords (exec (PauseTimer c id action) n1 s))
            /\ TimeRecord.isPaused r = flag
            /\ r = TimeRecord.set_isPaused flag timer
            /\ TimeRecord.id r = id
            /\ TimeRecord.userId r = Caller.id c
            /\ TimeRecord.isRunning r = TimeRecord.isRunning timer
            /\ TimeRecord.startTime r = TimeRecord.startTime timer
            /\ TimeRecord.endTime r = TimeRecord.endTime timer
            /\ TimeRecord.durationSeconds r = TimeRecord.durationSeconds timer
            /\ (TimeRecord.isRunning timer = true ->
                stateOf r = if flag then Paused else Running))
    /\ (forall action,
          action <> "pause" -> action <> "resume" ->
          run (pauseTimer c id action) s = inr (timer, s)
          /\ exec (PauseTimer c id action) n1 s = s)
    /\ exec (PauseTimer c id "pause") n2 (exec (PauseTimer c id "pause") n1 s)
       = exec (PauseTimer c id "pause") n1 s
    /\ exec (PauseTimer c id "resume") n2 (exec (PauseTimer c id "resume") n1 s)
       = exec (PauseTimer c id "resume") n1 s
    /\ exec (PauseTimer c id "resume") n2 (exec (PauseTimer c id "pause") n1 s)
       = exec (PauseTimer c id "resume") n1 s
    /\ exec (PauseTimer c id "pause") n2 (exec (PauseTimer c id "resume") n1 s)
       = exec (PauseTimer c id "pause") n1 s.
Proof.
  intros (r0 & Hin & Hid & Hu).
  destruct (findFirst_exists (ownedBy id (Caller.id c)) (timeRecords s)) as (i & timer & Hf).
  { exists r0. split; [exact Hin | apply ownedBy_true; auto]. }
  destruct (findFirst_Some _ _ _ _ Hf) as (Htin & Ht & Hn).
  apply ownedBy_true in Ht. destruct Ht as [Htid Htu].
  exists i, timer. split; [exact Hf |].
  split.
  { intros action flag Haf.
    assert (E : toggled action timer = TimeRecord.set_isPaused flag timer)
      by (destruct Haf as [[-> ->] | [-> ->]]; reflexivity).
    exists (TimeRecord.set_isPaused flag timer).
    split; [rewrite pauseTimer_run, Hf, E; reflexivity |].
    split.
    { unfold exec, after. rewrite pauseTimer_run, Hf, E. cbn [snd timeRecords].
      eapply In_replaceAt_self, Hn. }
    split; [reflexivity |]. split; [reflexivity |].
    split; [exact Htid |]. split; [exact Htu |].
    do 4 (split; [reflexivity |]).
    intros Hr. unfold stateOf. cbn. rewrite Hr. destruct flag; reflexivity. }
  split.
  { intros action Hp Hr.
    assert (E : toggled action timer = timer).
    { unfold toggled. apply String.eqb_neq in Hp, Hr. rewrite Hp, Hr. reflexivity. }
    assert (Es : mkStore (users s) (replaceAt i timer (timeRecords s)) = s).
    { rewrite replaceAt_same by exact Hn. destruct s; reflexivity. }
    split.
    - rewrite pauseTimer_run, Hf, E, Es. reflexivity.
    - unfold exec, after. rewrite pauseTimer_run, Hf, E, Es. reflexivity. }
  assert (H : forall a b,
             (forall x, toggled b (toggled a x) = toggled b x) ->
             exec (PauseTimer c id b) n2 (exec (PauseTimer c id a) n1 s)
             = exec (PauseTimer c id b) n1 s).
  { intros a b Hab. rewrite !exec_pause. cbn [users timeRecords]. f_equal.
    rewrite amendFirst_twice by (intros x; apply ownedBy_toggled).
    apply amendFirst_ext, Hab. }
  repeat split; apply H; intros x; reflexivity.
Qed.

Lemma pause_resume_flag_sets_witness :
  (exists r, In r (timeRecords tracking) /\ TimeRecord.id r = "timer_5000"
             /\ TimeRecord.userId r = Caller.id ada)
  /\ exists r s',
       run (pauseTimer ada "timer_5000" "pause") tracking = inr (r, s')
       /\ TimeRecord.isPaused r = true
       /\ stateOf r = Paused.
Proof.
  assert (H : exists r, In r (timeRecords tracking) /\ TimeRecord.id r = "timer_5000"
                        /\ TimeRecord.userId r = Caller.id ada).
  { eexists. split; [left; reflexivity | split; reflexivity]. }
  split; [exact H |].
  destruct (pause_resume_flag_sets ada "timer_5000" 6000 7000 tracking H)
    as (i & timer & Hf & Hset & _).
  destruct (Hset "pause" true (or_introl (conj eq_refl eq_refl)))
    as (r & Hrun & _ & Hp & _ & _ & _ & _ & _ & _ & _ & Hst).
  exists r. eexists. split; [exact Hrun |]. split; [exact Hp |].
  apply Hst. vm_compute in Hf. injection Hf as _ <-. reflexivity.
Defined.

(** ** A stopped record shows up in the listing *)

(** X6. When the caller owns a record with the given id, stopping it
    succeeds and the record it answers is in the caller's unfiltered
    listing from then on. *)
Theorem stopped_record_listed (tz : Js.TimeZone) (c : Caller.t) (id : string)
    (now later : Z) (s : Store) :
  (exists r, In r (timeRecords s) /\ TimeRecord.id r = id
             /\ TimeRecord.userId r = Caller.id c) ->
  exists r s' l,
    run (stopTimer c id now) s = inr (r, s')
    /\ run (employeeRecords tz c None None later) s' = inr (l, s')
    /\ In r l.
Proof.
  intros (r0 & Hin & Hid & Hu).
  destruct (findFirst_exists (ownedBy id (Caller.id c)) (timeRecords s)) as (i & x & Hf).
  { exists r0. split; [exact Hin | apply ownedBy_true; auto]. }
  rewrite stopTimer_run, Hf. do 3 eexists.
  split; [reflexivity |]. rewrite employeeRecords_run. split; [reflexivity |].
  apply In_sortNewestFirst, filter_In. cbn [timeRecords].
  destruct (findFirst_Some _ _ _ _ Hf) as (_ & Hx & Hn).
  split; [eapply In_replaceAt_self, Hn |].
  apply ownedBy_true in Hx. destruct Hx as [_ Hx].
  unfold matches, employeeRecordsQuery; simpl. rewrite Hx, String.eqb_refl. reflexivity.
Qed.

Lemma stopped_record_listed_witness :
  (exists r, In r (timeRecords tracking) /\ TimeRecord.id r = "timer_5000"
             /\ TimeRecord.userId r = Caller.id ada)
  /\ exists r s' l,
       run (stopTimer ada "timer_5000" 9000) tracking = inr (r, s')
       /\ run (employeeRecords Js.utc ada None None 9500) s' = inr (l, s')
       /\ In r l.
Proof.
  assert (H : exists r, In r (timeRecords tracking) /\ TimeRecord.id r = "timer_5000"
                        /\ TimeRecord.userId r = Caller.id ada).
  { eexists. split; [left; reflexivity | split; reflexivity]. }
  split; [exact H |].
  exact (stopped_record_listed Js.utc ada "timer_5000" 9000 9500 tracking H).
Defined.

(** ** The dashboard status *)

Lemma findFrom_filter_hd {A B : Type} (p : A -> bool) (l : list A) (i : nat)
    (f : A -> B) (d : B) :
  match findFrom i p l with
  | Some (_, t) => f t
  | None => d
  end
  = match List.filter p l with
    | t :: _ => f t
    | [] => d
    end.
Proof.
  revert i. induction l as [| a l IH]; intros i; simpl; [reflexivity |].
  destruct (p a); [reflexivity | apply IH].
Qed.

(** The status line of the employee dashboard, read off the caller's open
    records. *)
Lemma employeeStats_status {tz : Js.TimeZone} (c : Caller.t) (now : Z) (s : Store) :
  exists e,
    run (employeeStats tz c now) s = inr (e, s)
    /\ EmployeeStats.currentStatus e
       = match activeOf (Caller.id c) s with
         | t :: _ => if TimeRecord.isPaused t then "Paused" else "Working"
         | [] => "Not Working"
         end
    /\ EmployeeStats.statusDetail e
       = match activeOf (Caller.id c) s with
         | t :: _ => "On: " ++ TimeRecord.task t
         | [] => "Ready to start tracking"
         end.
Proof.
  rewrite employeeStats_run. cbv zeta. eexists. split; [reflexivity |].
  rewrite activeOf_matches. simpl. unfold findFirst.
  rewrite !findFrom_filter_hd. split; reflexivity.
Qed.

(** X7. When the caller has at most one running record, the status of the
    employee dashboard is the state of that record: "Not Working" and
    "Ready to start tracking" when there is none; otherwise "Paused" or
    "Working" according to the record's state, with "On: " and its task. *)
Theorem dashboard_status (tz : Js.TimeZone) (c : Caller.t) (now : Z) (s : Store) :
  (List.length (activeOf (Caller.id c) s) <= 1)%nat ->
  exists e,
    run (employeeStats tz c now) s = inr (e, s)
    /\ ((activeOf (Caller.id c) s = []
         /\ EmployeeStats.currentStatus e = "Not Working"
         /\ EmployeeStats.statusDetail e = "Ready to start tracking")
        \/ exists t,
             activeOf (Caller.id c) s = [t]
             /\ EmployeeStats.currentStatus e
                = match stateOf t with
                  | Paused => "Paused"
                  | Running => "Working"
                  | Stopped => "Not Working"
                  end
             /\ EmployeeStats.statusDetail e = "On: " ++ TimeRecord.task t).
Proof.
  intros B.
  destruct (employeeStats_status (tz := tz) c now s) as (e & Hrun & Hs & Hd).
  exists e. split; [exact Hrun |].
  destruct (activeOf (Caller.id c) s) as [| t [| t' l]] eqn:E; [left; auto | | simpl in B; lia].
  right. exists t. split; [reflexivity |]. split; [| exact Hd].
  assert (Hin : In t (activeOf (Caller.id c) s)) by (rewrite E; left; reflexivity).
  apply In_activeOf in Hin. destruct Hin as (_ & _ & Hr).
  rewrite Hs. unfold stateOf. rewrite Hr. destruct (TimeRecord.isPaused t); reflexivity.
Qed.

Lemma dashboard_status_witness :
  (List.length (activeOf (Caller.id ada) tracking) <= 1)%nat
  /\ exists e,
       run (employeeStats pacific ada 6000) tracking = inr (e, tracking)
       /\ EmployeeStats.currentStatus e = "Working"
       /\ EmployeeStats.statusDetail e = "On: Parser".
Proof.
  assert (B : (List.length (activeOf (Caller.id ada) tracking) <= 1)%nat)
    by (vm_compute; lia).
  split; [exact B |].
  destruct (dashboard_status pacific ada 6000 tracking B) as (e & Hrun & H).
  exists e. split; [exact Hrun |].
  destruct H as [(Hnil & _) | (t & Ht & Hs & Hd)].
  - exfalso. vm_compute in Hnil. discriminate Hnil.
  - assert (Et : stateOf t = Running /\ TimeRecord.task t = "Parser").
    { vm_compute in Ht. injection Ht as <-. split; reflexivity. }
    destruct Et as [E1 E2]. rewrite E1 in Hs. rewrite E2 in Hd.
    split; [exact Hs | exact Hd].
Defined.

(** X8. A manual entry, whoever makes it, changes nobody's open records
    and so nobody's dashboard status. *)
Theorem manualEntry_keeps_status (tz : Js.TimeZone) (c' : Caller.t) (project task : string)
    (st et now : Z) (s : Store) :
  (forall u,
      activeOf u (exec (ManualEntry c' project task st et) now s) = activeOf u s)
  /\ forall c later,
       exists e1 e2,
         run (employeeStats tz c later) s = inr (e1, s)
         /\ run (employeeStats tz c later) (exec (ManualEntry c' project task st et) now s)
            = inr (e2, exec (ManualEntry c' project task st et) now s)
         /\ EmployeeStats.currentStatus e2 = EmployeeStats.currentStatus e1
         /\ EmployeeStats.statusDetail e2 = EmployeeStats.statusDetail e1.
Proof.
  assert (H : forall u,
             activeOf u (exec (ManualEntry c' project task st et) now s) = activeOf u s).
  { intros u. rewrite !activeOf_matches.
    destruct (manualEntry_records c' project task st et now s)
      as [-> | (usr & secs & _ & ->)]; [reflexivity |].
    rewrite filter_app. simpl.
    destruct (matches (runningQuery (Some u))
                      (newRecord c' usr project task st et secs now)) eqn:E;
      [| apply app_nil_r].
    apply matches_running in E. destruct E as [_ E]. discriminate. }
  split; [exact H |].
  intros c later.
  destruct (employeeStats_status (tz := tz) c later s) as (e1 & H1 & Hs1 & Hd1).
  destruct (employeeStats_status (tz := tz) c later
              (exec (ManualEntry c' project task st et) now s))
    as (e2 & H2 & Hs2 & Hd2).
  exists e1, e2. rewrite H in Hs2, Hd2.
  split; [exact H1 |]. split; [exact H2 |]. split; congruence.
Qed.

(** ** Dashboards with nothing to sum *)

(** X9. A caller who owns no record gets the zero dashboard: "0.0" hours,
    0 sessions and days, "Not Working", score 0. An admin dashboard over a
    store without stopped records reports "0.0" for both totals and, thanks
    to the max(1, ...) divisor, "0.0" (not NaN) for avgHoursPerDay. *)
Theorem empty_dashboards (tz : Js.TimeZone) (c : Caller.t) (now : Z) (s : Store) :
  (owned (Caller.id c) s = [] ->
   run (employeeStats tz c now) s
   = inr (EmployeeStats.mk (Some "0.0") 0 (Some "0.0") 0 "Not Working"
                           "Ready to start tracking" (S754_zero false), s))
  /\ (Caller.role c = admin -> closedRecords s = [] ->
      exists st,
        run (adminStats tz c now) s = inr (st, s)
        /\ AdminStats.totalHoursToday st = Some "0.0"
        /\ AdminStats.weeklyTotal st = Some "0.0"
        /\ AdminStats.daysThisWeek st = 0
        /\ AdminStats.activeToday st = 0
        /\ AdminStats.avgHoursPerDay st = Some "0.0").
Proof.
  split.
  - intros H. rewrite employeeStats_run. cbv zeta.
    rewrite !(activeTimer_owned (Caller.id c)).
    rewrite (find_owned (todayQuery (Some (Caller.id c)) now) (Caller.id c)),
      (find_owned (weekQuery tz (Some (Caller.id c)) now) (Caller.id c)) by reflexivity.
    rewrite H. reflexivity.
  - intros Hadmin H. rewrite adminStats_run, Hadmin. cbv zeta.
    rewrite (find_closed (todayQuery None now)), (find_closed (weekQuery tz None now))
      by reflexivity.
    rewrite H. eexists. split; [reflexivity |]. repeat split.
Qed.

Lemma empty_dashboards_witness :
  owned (Caller.id bob) threeDays = []
  /\ (exists e,
        run (employeeStats Js.utc bob sundayNoon) threeDays = inr (e, threeDays)
        /\ EmployeeStats.weeklyTotal e = Some "0.0"
        /\ EmployeeStats.currentStatus e = "Not Working")
  /\ Caller.role root = admin
  /\ closedRecords tracking = []
  /\ exists st,
       run (adminStats Js.utc root 6000) tracking = inr (st, tracking)
       /\ AdminStats.avgHoursPerDay st = Some "0.0".
Proof.
  assert (H1 : owned (Caller.id bob) threeDays = []) by reflexivity.
  assert (H2 : closedRecords tracking = []) by reflexivity.
  split; [exact H1 |]. split.
  - eexists. split; [exact (proj1 (empty_dashboards Js.utc bob sundayNoon threeDays) H1) |].
    split; reflexivity.
  - split; [reflexivity |]. split; [exact H2 |].
    destruct (proj2 (empty_dashboards Js.utc root 6000 tracking) eq_refl H2)
      as (st & Hrun & _ & _ & _ & _ & Ha).
    exists st. split; [exact Hrun | exact Ha].
Defined.

(** ** More on formatDuration *)

Lemma div_nonpos (a b : Z) : a <= 0 -> 0 < b -> a / b <= 0.
Proof.
  intros Ha Hb. destruct (Z.eq_dec a 0) as [-> | Hne]; [rewrite Z.div_0_l; lia |].
  assert (a / b < 0) by (apply Z.div_lt_upper_bound; lia). lia.
Qed.

(** X10. On zero and on negative input formatDuration prints the
    remainder of the seconds modulo 60 alone, sign included: whole hours
    and minutes are lost. *)
Theorem formatDuration_nonpositive (s : Z) :
  s <= 0 ->
  formatDuration s = Js.ToString (Z.rem s 60) ++ "s"
  /\ formatDuration s = formatDuration (Z.rem s 60)
  /\ -60 < Z.rem s 60 <= 0.
Proof.
  intros Hs.
  assert (F : forall x, x <= 0 -> formatDuration x = Js.ToString (Z.rem x 60) ++ "s").
  { intros x Hx. unfold formatDuration.
    assert (H1 : x / 3600 <= 0) by (apply div_nonpos; lia).
    assert (H2 : Z.rem x 3600 <= 0) by (apply Z.rem_nonpos; lia).
    assert (H3 : Z.rem x 3600 / 60 <= 0) by (apply div_nonpos; lia).
    destruct (Z.ltb_spec 0 (x / 3600)); [lia |].
    destruct (Z.ltb_spec 0 (Z.rem x 3600 / 60)); [lia | reflexivity]. }
  assert (R : -60 < Z.rem s 60 <= 0).
  { assert (N : 60 <> 0) by discriminate.
    pose proof (Z.rem_nonpos s 60 N Hs).
    pose proof (Z.rem_bound_abs s 60 N). lia. }
  split; [apply F, Hs |]. split; [| exact R].
  rewrite (F s Hs), (F (Z.rem s 60)) by lia.
  rewrite Z.rem_rem by discriminate. reflexivity.
Qed.

Lemma formatDuration_nonpositive_witness :
  -3725 <= 0 /\ formatDuration (-3725) = "-5s".
Proof.
  assert (H : -3725 <= 0) by lia.
  split; [exact H |].
  rewrite (proj1 (formatDuration_nonpositive (-3725) H)). reflexivity.
Defined.

Lemma uint_allDigits (d : Decimal.uint) : allDigits (NilEmpty.string_of_uint d) = true.
Proof. induction d; simpl; auto. Qed.

Lemma ToString_allDigits (z : Z) : 0 <= z -> allDigits (Js.ToString z) = true.
Proof.
  intros Hz. unfold Js.ToString.
  destruct z as [| p | p]; [reflexivity | | lia].
  unfold Z.to_int, NilZero.string_of_int, NilZero.string_of_uint.
  destruct (Pos.to_uint p) eqn:E; try apply uint_allDigits. reflexivity.
Qed.

Lemma ToString_inj (z z' : Z) : Js.ToString z = Js.ToString z' -> z = z'.
Proof.
  unfold Js.ToString. intros H.
  assert (N : forall x, Z.to_int x <> Decimal.Pos Decimal.Nil
                        /\ Z.to_int x <> Decimal.Neg Decimal.Nil).
  { intros [| p | p]; simpl; split; try discriminate;
      intros [= E]; apply (DecimalPos.Unsigned.to_uint_nonnil p E). }
  apply DecimalZ.to_int_inj.
  assert (E : Some (Z.to_int z) = Some (Z.to_int z')).
  { rewrite <- (NilZero.isi (Z.to_int z)) by apply N.
    rewrite <- (NilZero.isi (Z.to_int z')) by apply N.
    rewrite H. reflexivity. }
  injection E. auto.
Qed.

(** Two strings of digits, each followed by something that is not a digit:
    equal wholes have equal parts. *)
Lemma digits_split (d d' : string) (c c' : ascii) (r r' : string) :
  allDigits d = true -> allDigits d' = true ->
  isDigit c = false -> isDigit c' = false ->
  d ++ String c r = d' ++ String c' r' -> d = d' /\ c = c' /\ r = r'.
Proof.
  revert d'. induction d as [| a d IH]; intros [| a' d']; simpl;
    intros Hd Hd' Hc Hc' E.
  - injection E. auto.
  - injection E as -> _. apply andb_true_iff in Hd'. destruct Hd'. congruence.
  - injection E as -> _. apply andb_true_iff in Hd. destruct Hd. congruence.
  - injection E as -> E. apply andb_true_iff in Hd, Hd'.
    destruct (IH d' (proj2 Hd) (proj2 Hd') Hc Hc' E) as (-> & -> & ->). auto.
Qed.

Lemma mod_3600_div_60 (a : Z) : a mod 3600 / 60 = (a / 60) mod 60.
Proof.
  change 3600 with (60 * 60). rewrite Z.rem_mul_r by lia.
  rewrite (Z.mul_comm 60 ((a / 60) mod 60)), Z.div_add by lia.
  rewrite (Z.div_small (a mod 60) 60) by (apply Z.mod_pos_bound; lia). lia.
Qed.

(** X11. Below one hour formatDuration loses nothing: two different
    durations between 0 and 3599 seconds are printed differently. From one
    hour on it drops the seconds: a duration prints like the start of its
    minute. *)
Theorem formatDuration_precision (a b : Z) :
  (0 <= a < 3600 -> 0 <= b < 3600 -> formatDuration a = formatDuration b -> a = b)
  /\ (3600 <= a -> formatDuration a = formatDuration (a - a mod 60)).
Proof.
  split.
  - intros Ha Hb.
    assert (D : forall x, 0 <= x -> allDigits (Js.ToString x) = true)
      by apply ToString_allDigits.
    assert (Qa : 0 <= a / 60) by (apply Z.div_pos; lia).
    assert (Qb : 0 <= b / 60) by (apply Z.div_pos; lia).
    assert (Ma : 0 <= a mod 60) by (apply Z.mod_pos_bound; lia).
    assert (Mb : 0 <= b mod 60) by (apply Z.mod_pos_bound; lia).
    destruct (Z.lt_ge_cases a 60) as [Ha' | Ha'], (Z.lt_ge_cases b 60) as [Hb' | Hb'].
    + rewrite !formatDuration_seconds by lia. intros E.
      apply digits_split in E; [| apply D; lia | apply D; lia | reflexivity | reflexivity].
      apply ToString_inj. tauto.
    + rewrite (formatDuration_seconds a), (formatDuration_minutes b) by lia. intros E.
      apply digits_split in E; [| apply D; lia | apply D; lia | reflexivity | reflexivity].
      destruct E as (_ & E & _). discriminate.
    + rewrite (formatDuration_seconds b), (formatDuration_minutes a) by lia. intros E.
      apply digits_split in E; [| apply D; lia | apply D; lia | reflexivity | reflexivity].
      destruct E as (_ & E & _). discriminate.
    + rewrite !formatDuration_minutes by lia. intros E.
      apply digits_split in E; [| apply D; lia | apply D; lia | reflexivity | reflexivity].
      destruct E as (E1 & _ & E2). apply ToString_inj in E1.
      injection E2 as E2.
      apply digits_split in E2; [| apply D; lia | apply D; lia | reflexivity | reflexivity].
      destruct E2 as (E2 & _). apply ToString_inj in E2.
      rewrite (Z.div_mod a 60), (Z.div_mod b 60) by lia. congruence.
  - intros Ha.
    assert (E60 : a - a mod 60 = 60 * (a / 60)) by (pose proof (Z.div_mod a 60); lia).
    assert (Hq : 60 <= a / 60) by (apply Z.div_le_lower_bound; lia).
    rewrite !formatDuration_hours by lia.
    rewrite !mod_3600_div_60. rewrite E60.
    change 3600 with (60 * 60). rewrite <- !Z.div_div by lia.
    rewrite (Z.mul_comm 60 (a / 60)), Z.div_mul by lia. reflexivity.
Qed.

Lemma formatDuration_precision_witness :
  3600 <= 3661 /\ formatDuration 3661 = formatDuration 3660
  /\ (formatDuration 125 = formatDuration 125 -> 125 = 125).
Proof.
  assert (H : 3600 <= 3661) by lia.
  split; [exact H |]. split.
  - exact (proj2 (formatDuration_precision 3661 0) H).
  - apply (proj1 (formatDuration_precision 125 125)); lia.
Defined.

(** ** The user collection *)

(** What a request does to the users: nothing, one valid user appended, or
    the first user with some id removed. *)
Lemma exec_users (req : Request) (now : Z) (s : Store) :
  users (exec req now s) = users s
  \/ (exists u,
        users (exec req now s) = (users s ++ [u])%list
        /\ User.valid u = true
        /\ List.existsb (User.clashes u) (users s) = false
        /\ ((req = Boot /\ u = initialAdmin now
             /\ List.find (fun u => Role_eqb (User.role u) admin) (users s) = None)
            \/ (exists c f l e p d q,
                  req = AddEmployee c f l e p d q /\ Caller.role c = admin
                  /\ u = newEmployee f l e p d q (nextEmployeeId s) now
                  /\ List.find (fun u => (User.email u =? e)%string) (users s) = None)))
  \/ (exists c id,
        req = DeleteEmployee c id /\ Caller.role c = admin
        /\ users (exec req now s) = removeFirst (fun u => (User.id u =? id)%string) (users s)).
Proof.
  destruct req as [| c f l e p d q | c id | c p t | c id | c id a | c p t st et];
    unfold exec, after.
  - rewrite initializeAdmin_run.
    destruct (List.find _ _) eqn:F; [auto |].
    destruct (_ && _) eqn:E; [| auto].
    apply andb_true_iff in E. destruct E as [E1 E2]. apply negb_true_iff in E2.
    right; left. exists (initialAdmin now). auto 10.
  - rewrite addEmployee_run.
    destruct (Caller.role c) eqn:R; [| auto].
    destruct (List.find _ _) eqn:F; [auto |]. cbv zeta.
    destruct (_ && _) eqn:E; [| auto].
    apply andb_true_iff in E. destruct E as [E1 E2]. apply negb_true_iff in E2.
    right; left. eexists. split; [reflexivity |]. split; [exact E1 |]. split; [exact E2 |].
    right. exists c, f, l, e, p, d, q. auto.
  - rewrite deleteEmployee_run.
    destruct (Caller.role c) eqn:R; [| auto].
    right; right. exists c, id. auto.
  - rewrite startTimer_run.
    destruct (findFirst _ _) as [[i x] |]; [auto |].
    destruct (List.find _ _); [| auto]. cbv zeta. destruct (_ && _); auto.
  - rewrite stopTimer_run. destruct (findFirst _ _) as [[i x] |]; auto.
  - rewrite pauseTimer_run. destruct (findFirst _ _) as [[i x] |]; auto.
  - rewrite manualEntry_run.
    destruct (List.find _ _); [| auto].
    destruct (Js.isValid st && Js.isValid et); [| auto].
    destruct (elapsedSeconds st et); [| auto].
    cbv zeta. destruct (_ && _); auto.
Qed.

Lemma clashes_false_all (u : User.t) (l : list User.t) :
  List.existsb (User.clashes u) l = false ->
  ~ In (User.id u) (map User.id l)
  /\ ~ In (User.email u) (map User.email l)
  /\ ~ In (User.employeeId u) (map User.employeeId l).
Proof.
  intros H.
  assert (K : forall x, In x l -> User.clashes u x = false).
  { intros x Hx. destruct (User.clashes u x) eqn:E; [| reflexivity].
    assert (List.existsb (User.clashes u) l = true)
      by (apply existsb_exists; exists x; auto).
    congruence. }
  repeat split; intros Hin; apply in_map_iff in Hin; destruct Hin as (x & Hx & Hin);
    specialize (K x Hin); unfold User.clashes in K; rewrite <- Hx in K;
    rewrite String.eqb_refl in K; simpl in K;
    rewrite ?orb_true_r in K; discriminate.
Qed.

Lemma length_filter_removeFirst {A : Type} (p q : A -> bool) (l : list A) :
  (List.length (List.filter q (removeFirst p l)) <= List.length (List.filter q l))%nat.
Proof.
  induction l as [| a l IH]; simpl; [lia |].
  destruct (p a); simpl; destruct (q a); simpl; lia.
Qed.

(** X12. In every store the API reaches the users are well formed: no two
    share an email or an employee number and each one passes the schema
    validation; there is at most one admin, and an admin is the seeded
    account admin_001. *)
Theorem users_invariant (s : Store) :
  reachable s ->
  usersWellFormed s
  /\ (List.length (List.filter isAdmin (users s)) <= 1)%nat
  /\ forall u, In u (users s) -> User.role u = admin ->
               User.id u = "admin_001" /\ User.email u = "admin@codeexanalytics.com".
Proof.
  induction 1 as [| s req now Hs ((He & Hn & Hv) & Ha & Hid)].
  - unfold usersWellFormed. simpl.
    split; [split; [constructor | split; [constructor | intros u []]] |].
    split; [lia | intros u []].
  - unfold usersWellFormed.
    destruct (exec_users req now s) as [E | [(u & E & Hvalid & Hclash & Hkind)
                                             | (c & id & _ & _ & E)]]; rewrite !E.
    + split; [split; [| split] | split]; assumption.
    + apply clashes_false_all in Hclash. destruct Hclash as (_ & Hce & Hcn).
      split; [| split].
      * split; [apply NoDup_map_snoc; assumption |].
        split; [apply NoDup_map_snoc; assumption |].
        intros x Hx. apply in_app_or in Hx. destruct Hx as [Hx | [<- | []]]; auto.
      * rewrite filter_app, length_app. simpl.
        destruct Hkind as [(_ & -> & Hnone) | (c & f & l & e & p & d & q & _ & _ & -> & _)].
        -- assert (List.filter isAdmin (users s) = []) as ->.
           { apply filter_nil_iff. intros x Hx.
             exact (find_none _ _ Hnone x Hx). }
           simpl. lia.
        -- simpl. lia.
      * intros x Hx Hr. apply in_app_or in Hx. destruct Hx as [Hx | [<- | []]]; [auto |].
        destruct Hkind as [(_ & -> & _) | (c & f & l & e & p & d & q & _ & _ & -> & _)];
          [split; reflexivity | discriminate].
    + split; [| split].
      * split; [apply NoDup_map_removeFirst, He |].
        split; [apply NoDup_map_removeFirst, Hn |].
        intros x Hx. apply Hv. eapply removeFirst_incl, Hx.
      * eapply Nat.le_trans; [apply length_filter_removeFirst | exact Ha].
      * intros x Hx. apply Hid. eapply removeFirst_incl, Hx.
Qed.

Lemma users_invariant_witness :
  reachable office
  /\ NoDup (map User.email (users office))
  /\ (List.length (List.filter isAdmin (users office)) <= 1)%nat.
Proof.
  assert (R : reachable office) by apply reachable_replay.
  destruct (users_invariant office R) as ((He & _) & Ha & _).
  split; [exact R |]. split; [exact He | exact Ha].
Defined.

(** ** Logging in *)

Lemma find_unique {A K : Type} (key : A -> K) (p : A -> bool) (l : list A) (u : A) :
  NoDup (map key l) ->
  (forall x, p x = true -> key x = key u) ->
  In u l -> p u = true -> List.find p l = Some u.
Proof.
  intros Hnd Hkey Hin Hp. destruct (List.find p l) as [v |] eqn:F.
  - apply find_some in F. destruct F as [Hv Hpv].
    f_equal. apply (NoDup_map_inj key l v u Hnd Hv Hin). apply Hkey, Hpv.
  - rewrite (find_none _ _ F u Hin) in Hp. discriminate.
Qed.

Lemma Role_eqb_eq (a b : Role) : Role_eqb a b = true <-> a = b.
Proof. destruct a, b; simpl; split; congruence. Qed.

(** X13. With unique emails, a login is decided by the one user who has
    the email: the account is not found when nobody has it or when that
    user's role is not the role of the endpoint; the password is invalid
    when it differs from the stored one; otherwise the answer carries a
    token for that user's id, email and role. So an employee's credentials
    never yield an admin token, and a token always names a user of the
    store with the role of the endpoint. *)
Theorem login_spec (as_ : Role) (email password : string) (s : Store) :
  NoDup (map User.email (users s)) ->
  (forall u,
      In u (users s) -> User.email u = email ->
      login as_ email password s
      = if Role_eqb (User.role u) as_
        then if (User.password u =? password)%string
             then inr (payloadOf u, profileOf u)
             else inl InvalidPassword
        else inl AccountNotFound)
  /\ ((forall u, In u (users s) -> User.email u <> email) ->
      login as_ email password s = inl AccountNotFound)
  /\ (forall tok prof,
        login as_ email password s = inr (tok, prof) ->
        Caller.role tok = as_
        /\ Caller.email tok = email
        /\ exists u,
             In u (users s) /\ User.id u = Caller.id tok /\ User.role u = as_
             /\ User.password u = password /\ prof = profileOf u).
Proof.
  intros Hnd. split; [| split].
  - intros u Hin He. unfold login.
    destruct (Role_eqb (User.role u) as_) eqn:R.
    + rewrite (find_unique User.email _ (users s) u Hnd); [reflexivity | | exact Hin |].
      * intros x Hx. apply andb_true_iff in Hx. destruct Hx as [Hx _].
        apply String.eqb_eq in Hx. congruence.
      * rewrite R, andb_true_r. apply String.eqb_eq, He.
    + destruct (List.find _ (users s)) as [v |] eqn:F; [| reflexivity].
      apply find_some in F. destruct F as [Hv Hpv].
      apply andb_true_iff in Hpv. destruct Hpv as [Hve Hvr].
      apply String.eqb_eq in Hve.
      assert (v = u) by (apply (NoDup_map_inj User.email _ v u Hnd Hv Hin); congruence).
      subst v. congruence.
  - intros Hnone. unfold login.
    destruct (List.find _ (users s)) as [v |] eqn:F; [| reflexivity].
    apply find_some in F. destruct F as [Hv Hpv].
    apply andb_true_iff in Hpv. destruct Hpv as [Hve _].
    apply String.eqb_eq in Hve. exfalso. exact (Hnone v Hv Hve).
  - intros tok prof. unfold login.
    destruct (List.find _ (users s)) as [v |] eqn:F; [| discriminate].
    apply find_some in F. destruct F as [Hv Hpv].
    apply andb_true_iff in Hpv. destruct Hpv as [Hve Hvr].
    apply String.eqb_eq in Hve. apply Role_eqb_eq in Hvr.
    cbv zeta. destruct (User.password v =? password)%string eqn:P; [| discriminate].
    apply String.eqb_eq in P. intros [= <- <-]. simpl.
    split; [exact Hvr |]. split; [exact Hve |]. exists v. auto.
Qed.

Lemma login_spec_witness :
  NoDup (map User.email (users office))
  /\ adminLogin "ada@example.com" "pw" office = inl AccountNotFound
  /\ employeeLogin "ada@example.com" "pw" office = inr (ada, profileOf
       (User.mk "emp_2000" "Ada" "Lovelace" "ada@example.com" "pw" employee
                "General" "" "EMP001" 2000))
  /\ employeeLogin "nobody@example.com" "pw" office = inl AccountNotFound.
Proof.
  assert (N : NoDup (map User.email (users office))).
  { vm_compute. repeat constructor; simpl; intuition discriminate. }
  assert (E : exists u, nth_error (users office) 1 = Some u
                        /\ User.email u = "ada@example.com"
                        /\ u = User.mk "emp_2000" "Ada" "Lovelace" "ada@example.com" "pw"
                                       employee "General" "" "EMP001" 2000)
    by (eexists; split; [vm_compute; reflexivity | split; reflexivity]).
  destruct E as (u & Hn & He & Hu).
  assert (Hin : In u (users office)) by (eapply nth_error_In, Hn).
  split; [exact N |]. split; [| split].
  - unfold adminLogin.
    rewrite (proj1 (login_spec admin "ada@example.com" "pw" office N) u Hin He).
    rewrite Hu. reflexivity.
  - unfold employeeLogin.
    rewrite (proj1 (login_spec employee "ada@example.com" "pw" office N) u Hin He).
    rewrite Hu. reflexivity.
  - apply (proj1 (proj2 (login_spec employee "nobody@example.com" "pw" office N))).
    intros v Hv. vm_compute in Hv.
    repeat (destruct Hv as [<- | Hv]; [discriminate |]). destruct Hv.
Defined.

(** ** A token that outlives its user *)

Lemma find_removed (id : string) (l : list User.t) :
  List.find (fun u => (User.id u =? id)%string)
            (List.filter (fun u => negb (User.id u =? id)%string) l) = None.
Proof.
  induction l as [| a l IH]; simpl; [reflexivity |].
  destruct (User.id a =? id)%string eqn:E; simpl; [exact IH |].
  rewrite E. exact IH.
Qed.

(** X14. Deleting a user does not revoke the token: on a store with unique
    user ids, once an admin has deleted the user a token names, requests
    with that token find nothing to work on. Start and manual entry answer
    the internal error, stop and pause answer NotFoundError whatever the
    id, and every listing is empty. *)
Theorem deleted_user_token (tz : Js.TimeZone) (a c : Caller.t) (now : Z) (s : Store) :
  Caller.role a = admin ->
  NoDup (map User.id (users s)) ->
  let s' := exec (DeleteEmployee a (Caller.id c)) now s in
  (forall project task later,
      run (startTimer c project task later) s' = inl InternalError)
  /\ (forall project task st et later,
        run (manualEntry c project task st et later) s' = inl InternalError)
  /\ (forall id later, run (stopTimer c id later) s' = inl NotFoundError)
  /\ (forall id action, run (pauseTimer c id action) s' = inl NotFoundError)
  /\ (forall dateRange project later,
        run (employeeRecords tz c dateRange project later) s' = inr ([], s')).
Proof.
  intros Hadmin Hnd s'.
  assert (Es : s' = mkStore (List.filter (fun u => negb (User.id u =? Caller.id c)%string)
                                         (users s))
                            (others (Caller.id c) s)).
  { unfold s', exec, after. rewrite deleteEmployee_run, Hadmin.
    rewrite (removeFirst_unique _ _ Hnd). reflexivity. }
  assert (Hu : List.find (fun u => (User.id u =? Caller.id c)%string) (users s') = None)
    by (rewrite Es; apply find_removed).
  assert (Hr : forall r, In r (timeRecords s') -> TimeRecord.userId r <> Caller.id c).
  { intros r. rewrite Es. unfold others. cbn [timeRecords]. rewrite filter_In.
    intros [_ H]. apply negb_true_iff, String.eqb_neq in H. exact H. }
  assert (Hrun : findFirst (matches (runningQuery (Some (Caller.id c)))) (timeRecords s')
                 = None).
  { apply findFirst_None. intros r Hin.
    destruct (matches _ r) eqn:E; [| reflexivity].
    apply matches_running in E. destruct E as [E _]. exfalso. exact (Hr r Hin E). }
  assert (Hown : forall id, findFirst (ownedBy id (Caller.id c)) (timeRecords s') = None).
  { intros id. apply notOwned_NotFound. intros r Hin _. apply Hr, Hin. }
  clearbody s'.
  split; [| split; [| split; [| split]]].
  - intros. rewrite startTimer_run, Hrun, Hu. reflexivity.
  - intros. rewrite manualEntry_run, Hu. reflexivity.
  - intros. rewrite stopTimer_run, Hown. reflexivity.
  - intros. rewrite pauseTimer_run, Hown. reflexivity.
  - intros. rewrite employeeRecords_run.
    replace (List.filter _ (timeRecords s')) with (@nil TimeRecord.t); [reflexivity |].
    symmetry. apply filter_nil_iff. intros r Hin.
    destruct (matches _ r) eqn:E; [| reflexivity].
    apply (matches_owner _ (Caller.id c)) in E; [| reflexivity].
    apply String.eqb_eq in E. exfalso. exact (Hr r Hin E).
Qed.

Lemma deleted_user_token_witness :
  Caller.role root = admin
  /\ NoDup (map User.id (users tracking))
  /\ run (startTimer ada "Compiler" "Lexer" 9000)
         (exec (DeleteEmployee root (Caller.id ada)) 8000 tracking) = inl InternalError
  /\ run (stopTimer ada "timer_5000" 9000)
         (exec (DeleteEmployee root (Caller.id ada)) 8000 tracking) = inl NotFoundError.
Proof.
  assert (N : NoDup (map User.id (users tracking))).
  { vm_compute. repeat constructor; simpl; intuition discriminate. }
  split; [reflexivity |]. split; [exact N |].
  destruct (deleted_user_token Js.utc root ada 8000 tracking eq_refl N) as (H1 & _ & H3 & _).
  split; [apply H1 | apply H3].
Defined.

(** ** Hiring *)

Lemma existsb_false_iff {A : Type} (p : A -> bool) (l : list A) :
  List.existsb p l = false <-> (forall x, In x l -> p x = false).
Proof.
  induction l as [| a l IH]; simpl.
  - split; [intros _ x [] | reflexivity].
  - rewrite orb_false_iff, IH. split.
    + intros [Ha H] x [<- | Hx]; auto.
    + intros H. split; [apply H; auto | intros x Hx; apply H; auto].
Qed.

Lemma find_email_None (e : string) (l : list User.t) :
  List.find (fun u => (User.email u =? e)%string) l = None
  <-> (forall u, In u l -> User.email u <> e).
Proof.
  split.
  - intros H u Hin He. apply (find_none _ _ H) in Hin.
    apply String.eqb_neq in Hin. contradiction.
  - intros H. destruct (List.find _ l) as [v |] eqn:F; [| reflexivity].
    apply find_some in F. destruct F as [Hv Hpv]. apply String.eqb_eq in Hpv.
    exfalso. exact (H v Hv Hpv).
Qed.

(** X15. For an admin, addEmployee answers EmailExistsError exactly when
    some user already has the email. When no user has the email, the id
    emp_<now> or the next employee number, and the four required fields are
    present, it succeeds: it appends one user with role employee, that id,
    the number EMP followed by (employees + 1) padded to three digits, the
    department defaulting to "General" and the position to "", and leaves
    the records as they were. *)
Theorem addEmployee_spec (c : Caller.t) (firstName lastName email password : string)
    (department position : option string) (now : Z) (s : Store) :
  Caller.role c = admin ->
  (run (addEmployee c firstName lastName email password department position now) s
     = inl EmailExistsError
   <-> exists u, In u (users s) /\ User.email u = email)
  /\ ((forall u, In u (users s) ->
                 User.email u <> email /\ User.id u <> "emp_" ++ Js.ToString now
                 /\ User.employeeId u <> nextEmployeeId s) ->
      firstName <> "" -> lastName <> "" -> email <> "" -> password <> "" ->
      exists u,
        run (addEmployee c firstName lastName email password department position now) s
          = inr (u, mkStore (users s ++ [u]) (timeRecords s))
        /\ User.role u = employee
        /\ User.id u = "emp_" ++ Js.ToString now
        /\ User.employeeId u = nextEmployeeId s
        /\ User.email u = email
        /\ User.department u = match department with Some d => d | None => "General" end
        /\ User.position u = match position with Some p => p | None => "" end).
Proof.
  intros Hadmin. rewrite addEmployee_run, Hadmin. split.
  - destruct (List.find _ (users s)) as [v |] eqn:F.
    + split; [intros _ | reflexivity].
      apply find_some in F. destruct F as [Hv Hpv]. apply String.eqb_eq in Hpv. eauto.
    + split.
      * cbv zeta. destruct (_ && _); discriminate.
      * intros (u & Hin & He). exfalso.
        exact (proj1 (find_email_None email (users s)) F u Hin He).
  - intros Hfree Hf Hl He Hp.
    rewrite (proj2 (find_email_None email (users s))) by (intros u Hu; apply Hfree, Hu).
    cbv zeta. fold (nextEmployeeId s).
    set (emp := newEmployee firstName lastName email password department position
                            (nextEmployeeId s) now).
    assert (Hvalid : User.valid emp = true).
    { unfold User.valid, emp, newEmployee; simpl.
      apply String.eqb_neq in Hf, Hl, He, Hp. rewrite Hf, Hl, He, Hp. reflexivity. }
    assert (Hclash : List.existsb (User.clashes emp) (users s) = false).
    { apply existsb_false_iff. intros u Hu. destruct (Hfree u Hu) as (H1 & H2 & H3).
      unfold User.clashes, emp, newEmployee.
      cbn [User.id User.email User.employeeId].
      rewrite !orb_false_iff, !String.eqb_neq. repeat split; congruence. }
    rewrite Hvalid, Hclash. simpl. exists emp. repeat split.
Qed.

Lemma addEmployee_spec_witness :
  Caller.role root = admin
  /\ "Cy" <> "" /\ "Young" <> "" /\ "cy@example.com" <> "" /\ "pw" <> ""
  /\ (exists u,
        run (addEmployee root "Cy" "Young" "cy@example.com" "pw" None None 5000) office
          = inr (u, mkStore (users office ++ [u]) (timeRecords office))
        /\ User.employeeId u = "EMP003"
        /\ User.department u = "General")
  /\ run (addEmployee root "Cy" "Young" "ada@example.com" "pw" None None 5000) office
     = inl EmailExistsError.
Proof.
  split; [reflexivity |]. repeat (split; [discriminate |]).
  destruct (addEmployee_spec root "Cy" "Young" "cy@example.com" "pw" None None 5000 office
                             eq_refl) as (_ & H).
  destruct (addEmployee_spec root "Cy" "Young" "ada@example.com" "pw" None None 5000 office
                             eq_refl) as (H' & _).
  split.
  - destruct H as (u & Hrun & _ & _ & Hn & _ & Hd & _); try discriminate.
    + intros v Hv. vm_compute in Hv.
      repeat (destruct Hv as [<- | Hv]; [repeat split; discriminate |]). destruct Hv.
    + exists u. split; [exact Hrun |]. split; [rewrite Hn; reflexivity | exact Hd].
  - apply H'. eexists. split; [right; left; reflexivity | reflexivity].
Defined.

(** X16. Employee numbers are taken from the count of employees, so after
    a deletion the next number can be one that is in use: whenever some
    user holds the next number, an admin's addEmployee with an unused email
    fails with the internal error (the duplicate key), whatever the other
    fields. *)
Theorem employee_number_collision (c : Caller.t)
    (firstName lastName email password : string)
    (department position : option string) (now : Z) (s : Store) :
  Caller.role c = admin ->
  (forall u, In u (users s) -> User.email u <> email) ->
  (exists u, In u (users s) /\ User.employeeId u = nextEmployeeId s) ->
  run (addEmployee c firstName lastName email password department position now) s
  = inl InternalError.
Proof.
  intros Hadmin Hfree (u & Hin & Hn).
  rewrite addEmployee_run, Hadmin.
  rewrite (proj2 (find_email_None email (users s)) Hfree).
  cbv zeta. fold (nextEmployeeId s).
  replace (List.existsb _ (users s)) with true; [rewrite andb_false_r; reflexivity |].
  symmetry. apply existsb_exists. exists u. split; [exact Hin |].
  unfold User.clashes, newEmployee. cbn [User.id User.email User.employeeId].
  rewrite Hn, String.eqb_refl. apply orb_true_r.
Qed.

Lemma employee_number_collision_witness :
  reachable adaLeft
  /\ Caller.role root = admin
  /\ nextEmployeeId adaLeft = "EMP002"
  /\ (exists u, In u (users adaLeft) /\ User.employeeId u = nextEmployeeId adaLeft)
  /\ run (addEmployee root "Cy" "Young" "cy@example.com" "pw" None None 5000) adaLeft
     = inl InternalError.
Proof.
  assert (H : exists u, In u (users adaLeft) /\ User.employeeId u = nextEmployeeId adaLeft).
  { eexists. split; [right; left; reflexivity | reflexivity]. }
  split; [apply reachable_exec, reachable_office |].
  split; [reflexivity |]. split; [reflexivity |]. split; [exact H |].
  apply (employee_number_collision root "Cy" "Young" "cy@example.com" "pw" None None
                                   5000 adaLeft eq_refl); [| exact H].
  intros v Hv. vm_compute in Hv.
  repeat (destruct Hv as [<- | Hv]; [discriminate |]). destruct Hv.
Defined.

(** ** The admin bootstrap *)

Lemma find_app_None {A : Type} (p : A -> bool) (l l' : list A) :
  List.find p l = None -> List.find p (l ++ l') = List.find p l'.
Proof.
  induction l as [| a l IH]; simpl; [reflexivity |].
  destruct (p a); [discriminate | exact IH].
Qed.

(** X17. initializeAdmin is idempotent: running it again, at any later
    instant, changes nothing. On a store that already has an admin it does
    nothing at all, and on the empty store it creates exactly the account
    admin_001. *)
Theorem initializeAdmin_idempotent (n1 n2 : Z) (s : Store) :
  exec Boot n2 (exec Boot n1 s) = exec Boot n1 s
  /\ ((exists u, In u (users s) /\ User.role u = admin) -> exec Boot n1 s = s)
  /\ exec Boot n1 emptyStore = mkStore [initialAdmin n1] [].
Proof.
  assert (Hsome : forall n t,
             List.find (fun u => Role_eqb (User.role u) admin) (users t) <> None ->
             exec Boot n t = t).
  { intros n t H. unfold exec, after. rewrite initializeAdmin_run.
    destruct (List.find _ (users t)); [reflexivity | congruence]. }
  split; [| split].
  - destruct (List.find (fun u => Role_eqb (User.role u) admin) (users s)) eqn:F.
    + rewrite (Hsome n1 s) by congruence. apply Hsome. congruence.
    + unfold exec at 2 3, after. rewrite initializeAdmin_run, F.
      destruct (User.valid (initialAdmin n1)
                && negb (List.existsb (User.clashes (initialAdmin n1)) (users s))) eqn:E.
      * apply Hsome. cbn [users]. rewrite (find_app_None _ _ _ F). simpl. discriminate.
      * unfold exec, after. rewrite initializeAdmin_run, F.
        change (User.valid (initialAdmin n2)
                && negb (List.existsb (User.clashes (initialAdmin n2)) (users s)))
          with (User.valid (initialAdmin n1)
                && negb (List.existsb (User.clashes (initialAdmin n1)) (users s))).
        rewrite E. reflexivity.
  - intros (u & Hin & Hr). apply Hsome. intros F.
    apply (find_none _ _ F) in Hin. rewrite Hr in Hin. discriminate.
  - reflexivity.
Qed.

Lemma initializeAdmin_idempotent_witness :
  (exists u, In u (users office) /\ User.role u = admin)
  /\ exec Boot 9000 office = office.
Proof.
  assert (H : exists u, In u (users office) /\ User.role u = admin).
  { eexists. split; [left; reflexivity | reflexivity]. }
  split; [exact H |].
  exact (proj1 (proj2 (initializeAdmin_idempotent 9000 0 office)) H).
Defined.

(** ** What an employee token cannot do *)

Lemma getEmployees_run (c : Caller.t) (s : Store) :
  run (getEmployees c) s =
  match Caller.role c with
  | admin => inr (List.filter (fun u => Role_eqb (User.role u) employee) (users s), s)
  | employee => inl ForbiddenError
  end.
Proof.
  unfold getEmployees, User_find. step_run.
  destruct (Caller.role c); step_run; reflexivity.
Qed.

(** X18. A caller with the employee role is refused by the five admin
    endpoints with ForbiddenError, and no request made with such a token,
    of any kind, changes the user collection. *)
Theorem employee_token_limits (tz : Js.TimeZone) (c : Caller.t) (s : Store) :
  Caller.role c = employee ->
  run (getEmployees c) s = inl ForbiddenError
  /\ (forall f l e p d q now, run (addEmployee c f l e p d q now) s = inl ForbiddenError)
  /\ (forall id, run (deleteEmployee c id) s = inl ForbiddenError)
  /\ (forall dateRange employeeId project now,
        run (adminRecords tz c dateRange employeeId project now) s = inl ForbiddenError)
  /\ (forall now, run (adminStats tz c now) s = inl ForbiddenError)
  /\ forall req now, requestCaller req = Some c -> users (exec req now s) = users s.
Proof.
  intros Hrole.
  split; [rewrite getEmployees_run, Hrole; reflexivity |].
  split; [intros; rewrite addEmployee_run, Hrole; reflexivity |].
  split; [intros; rewrite deleteEmployee_run, Hrole; reflexivity |].
  split; [intros; rewrite adminRecords_run, Hrole; reflexivity |].
  split; [intros; rewrite adminStats_run, Hrole; reflexivity |].
  intros req now Hreq.
  destruct (exec_users req now s) as [E | [(u & _ & _ & _ & Hkind) | (c' & id & -> & Hr & _)]].
  - exact E.
  - destruct Hkind as [(-> & _) | (c' & f & l & e & p & d & q & -> & Hr & _)];
      [discriminate |].
    simpl in Hreq. injection Hreq as ->. congruence.
  - simpl in Hreq. injection Hreq as ->. congruence.
Qed.

Lemma employee_token_limits_witness :
  Caller.role ada = employee
  /\ run (deleteEmployee ada "emp_3000") office = inl ForbiddenError
  /\ users (exec (DeleteEmployee ada "emp_3000") 5000 office) = users office.
Proof.
  split; [reflexivity |].
  destruct (employee_token_limits Js.utc ada office eq_refl) as (_ & _ & Hd & _ & _ & Hu).
  split; [apply Hd | apply Hu; reflexivity].
Defined.

(** ** Filters of the admin listing *)

Lemma selected_Some (x : option string) (v : string) :
  selected x = Some v <-> x = Some v /\ v <> "" /\ v <> "all".
Proof.
  unfold selected. destruct x as [w |]; [| split; [discriminate | intros [H _]; discriminate]].
  destruct (String.eqb_spec w "") as [-> | H1]; simpl.
  - split; [discriminate | intros ([= <-] & H & _); congruence].
  - destruct (String.eqb_spec w "all") as [-> | H2].
    + split; [discriminate | intros ([= <-] & _ & H); congruence].
    + split; [intros [= <-]; auto | intros ([= <-] & _); reflexivity].
Qed.

(** X19. In an admin listing every record satisfies each filter that is
    set: an employeeId other than "" and "all" is the record's userId, a
    project other than "" and "all" is the record's project, and with
    dateRange "today" the record's date is today's. The values "", "all"
    and an absent parameter all mean no filter, and so does a dateRange
    other than today, week and month. *)
Theorem adminRecords_filters (tz : Js.TimeZone) (c : Caller.t)
    (dateRange employeeId project : option string)
    (now : Z) (s : Store) :
  Caller.role c = admin ->
  (exists l,
      run (adminRecords tz c dateRange employeeId project now) s = inr (l, s)
      /\ forall r, In r l ->
           (forall e, employeeId = Some e -> e <> "" -> e <> "all" ->
                      TimeRecord.userId r = e)
           /\ (forall p, project = Some p -> p <> "" -> p <> "all" ->
                         TimeRecord.project r = p)
           /\ (dateRange = Some "today" -> TimeRecord.date r = Js.toISODate now))
  /\ run (adminRecords tz c dateRange (Some "all") (Some "") now) s
     = run (adminRecords tz c dateRange None None now) s
  /\ (forall range,
        range <> "today" -> range <> "week" -> range <> "month" ->
        run (adminRecords tz c (Some range) employeeId project now) s
        = run (adminRecords tz c None employeeId project now) s).
Proof.
  intros Hadmin. rewrite !adminRecords_run, Hadmin. split; [| split].
  - eexists. split; [reflexivity |].
    intros r Hr. apply In_firstn, In_sortNewestFirst, filter_In in Hr.
    destruct Hr as [_ Hm]. unfold matches, adminRecordsQuery in Hm. simpl in Hm.
    apply andb_true_iff in Hm. destruct Hm as [Hm Hp].
    apply andb_true_iff in Hm. destruct Hm as [Hm Hu].
    apply andb_true_iff in Hm. destruct Hm as [_ Hd].
    split; [| split].
    + intros e -> H1 H2.
      rewrite (proj2 (selected_Some (Some e) e)) in Hu by auto.
      apply String.eqb_eq, Hu.
    + intros p -> H1 H2.
      rewrite (proj2 (selected_Some (Some p) p)) in Hp by auto.
      apply String.eqb_eq, Hp.
    + intros ->. simpl in Hd. apply String.eqb_eq, Hd.
  - reflexivity.
  - intros range H1 H2 H3. rewrite adminRecords_run, Hadmin.
    unfold adminRecordsQuery, dateRangeCond.
    apply String.eqb_neq in H1, H2, H3. rewrite H1, H2, H3. reflexivity.
Qed.

Lemma adminRecords_filters_witness :
  Caller.role root = admin
  /\ exists l,
       run (adminRecords Js.utc root None (Some "emp_3000") None sundayNoon) withBob
         = inr (l, withBob)
       /\ forall r, In r l -> TimeRecord.userId r = "emp_3000".
Proof.
  split; [reflexivity |].
  destruct (adminRecords_filters Js.utc root None (Some "emp_3000") None sundayNoon withBob
                                 eq_refl) as ((l & Hrun & H) & _).
  exists l. split; [exact Hrun |].
  intros r Hr. apply (proj1 (H r Hr) "emp_3000"); [reflexivity | |]; discriminate.
Defined.

(** ** Counting the running timers *)

Lemma NoDup_of_bound (l : list TimeRecord.t) :
  (forall u, (List.length (List.filter (fun r => (TimeRecord.userId r =? u)%string) l)
              <= 1)%nat) ->
  NoDup (map TimeRecord.userId l).
Proof.
  induction l as [| a l IH]; intros H; simpl; constructor.
  - intros Hin. apply in_map_iff in Hin. destruct Hin as (b & Hb & Hin).
    specialize (H (TimeRecord.userId a)). simpl in H.
    rewrite String.eqb_refl in H. simpl in H.
    assert (In b (List.filter (fun r => (TimeRecord.userId r =? TimeRecord.userId a)%string) l))
      by (apply filter_In; split; [exact Hin | apply String.eqb_eq, Hb]).
    destruct (List.filter _ l); [contradiction | simpl in H; lia].
  - apply IH. intros u. specialize (H u). simpl in H.
    destruct (TimeRecord.userId a =? u)%string; simpl in H; lia.
Qed.

Lemma length_nodup_le (l : list string) :
  (List.length (nodup string_dec l) <= List.length l)%nat.
Proof.
  induction l as [| a l IH]; simpl; [lia |].
  destruct (in_dec string_dec a l); simpl; lia.
Qed.

(** X20. activeTimersNow of the admin dashboard is the number of running
    records. The number of users who have a timer running is at most that,
    and the two agree when no user has more than one running record: then
    no user is counted twice. *)
Theorem activeTimers_counts_users (tz : Js.TimeZone) (c : Caller.t) (now : Z) (s : Store) :
  Caller.role c = admin ->
  exists st,
    run (adminStats tz c now) s = inr (st, s)
    /\ AdminStats.activeTimersNow st
       = Z.of_nat (List.length (List.filter TimeRecord.isRunning (timeRecords s)))
    /\ setSize (map TimeRecord.userId
                    (List.filter TimeRecord.isRunning (timeRecords s)))
       <= AdminStats.activeTimersNow st
    /\ ((forall u, (List.length (activeOf u s) <= 1)%nat) ->
        AdminStats.activeTimersNow st
        = setSize (map TimeRecord.userId
                       (List.filter TimeRecord.isRunning (timeRecords s)))).
Proof.
  intros Hadmin.
  rewrite adminStats_run, Hadmin. cbv zeta. eexists. split; [reflexivity |]. simpl.
  assert (E : List.filter (matches (runningQuery None)) (timeRecords s)
              = List.filter TimeRecord.isRunning (timeRecords s)).
  { apply filter_ext. intros r. unfold matches, runningQuery; simpl.
    destruct (TimeRecord.isRunning r); reflexivity. }
  rewrite E. split; [reflexivity |].
  split.
  - unfold setSize, distinct. apply inj_le.
    eapply Nat.le_trans; [apply length_nodup_le |]. rewrite length_map. apply Nat.le_refl.
  - intros B.
    unfold setSize, distinct. rewrite nodup_fixed_point; [rewrite length_map; reflexivity |].
    apply NoDup_of_bound. intros u. specialize (B u).
    unfold activeOf, owned in B. rewrite !filter_twice in *.
    erewrite filter_ext; [exact B |].
    intros r. apply andb_comm.
Qed.

Lemma activeTimers_counts_users_witness :
  Caller.role root = admin
  /\ exists st,
       run (adminStats pacific root 6000) tracking = inr (st, tracking)
       /\ AdminStats.activeTimersNow st = 1
       /\ setSize (map TimeRecord.userId
                       (List.filter TimeRecord.isRunning (timeRecords tracking)))
          <= AdminStats.activeTimersNow st.
Proof.
  split; [reflexivity |].
  destruct (activeTimers_counts_users pacific root 6000 tracking eq_refl)
    as (st & Hrun & Hn & Hle & _).
  exists st. split; [exact Hrun |]. split; [rewrite Hn; reflexivity | exact Hle].
Defined.

(** ** The Authorization header *)

Lemma split_spaceFree (s : string) : spaceFree s = true -> split " "%char s = [s].
Proof.
  induction s as [| c s IH]; simpl; [reflexivity |].
  intros H. apply andb_true_iff in H. destruct H as [Hc Hs].
  apply negb_true_iff in Hc. rewrite Hc, (IH Hs). reflexivity.
Qed.

Lemma split_word (a b : string) :
  spaceFree a = true -> split " "%char (a ++ String " "%char b) = a :: split " "%char b.
Proof.
  induction a as [| c a IH]; simpl; [reflexivity |].
  intros H. apply andb_true_iff in H. destruct H as [Hc Ha].
  apply negb_true_iff in Hc. rewrite Hc, (IH Ha). reflexivity.
Qed.

Lemma bearer_token (tok : string) :
  spaceFree tok = true -> tokenOfHeader (Some ("Bearer " ++ tok)) = Some tok.
Proof.
  intros H. unfold tokenOfHeader.
  change ("Bearer " ++ tok) with ("Bearer" ++ String " "%char tok).
  rewrite (split_word "Bearer" tok eq_refl), (split_spaceFree tok H). reflexivity.
Qed.

Section MiddlewareFacts.
Variable verify : string -> option Caller.t.

(** X21. The middleware looks at the second space-separated word of the
    Authorization header and at nothing else: a missing header, a header of
    one word and an empty second word are answered 401 without consulting
    the verifier; otherwise the answer is 403 or the verified payload
    according to the verifier on that word, whatever the scheme word before
    it and whatever follows it. *)
Theorem authenticateToken_second_word :
  authenticateToken verify None = Status401
  /\ (forall h, spaceFree h = true -> authenticateToken verify (Some h) = Status401)
  /\ (forall scheme rest,
        spaceFree scheme = true ->
        authenticateToken verify (Some (scheme ++ " " ++ " " ++ rest)) = Status401)
  /\ (forall scheme tok,
        spaceFree scheme = true -> spaceFree tok = true -> tok <> "" ->
        authenticateToken verify (Some (scheme ++ " " ++ tok))
        = match verify tok with
          | Some user => Next user
          | None => Status403
          end)
  /\ (forall scheme tok rest,
        spaceFree scheme = true -> spaceFree tok = true ->
        authenticateToken verify (Some (scheme ++ " " ++ tok ++ " " ++ rest))
        = authenticateToken verify (Some ("Bearer " ++ tok))).
Proof.
  split; [reflexivity |]. split; [| split; [| split]].
  - intros h H. unfold authenticateToken, tokenOfHeader.
    rewrite (split_spaceFree h H). reflexivity.
  - intros scheme rest H. unfold authenticateToken, tokenOfHeader.
    change (scheme ++ " " ++ " " ++ rest)
      with (scheme ++ String " "%char (EmptyString ++ String " "%char rest)).
    rewrite (split_word scheme _ H), (split_word EmptyString rest eq_refl). reflexivity.
  - intros scheme tok Hs Ht Hne. unfold authenticateToken, tokenOfHeader.
    change (scheme ++ " " ++ tok) with (scheme ++ String " "%char tok).
    rewrite (split_word scheme tok Hs), (split_spaceFree tok Ht). simpl.
    apply String.eqb_neq in Hne. rewrite Hne. reflexivity.
  - intros scheme tok rest Hs Ht. unfold authenticateToken, tokenOfHeader.
    change (scheme ++ " " ++ tok ++ " " ++ rest)
      with (scheme ++ String " "%char (tok ++ String " "%char rest)).
    change ("Bearer " ++ tok) with ("Bearer" ++ String " "%char tok).
    rewrite (split_word scheme _ Hs), (split_word tok rest Ht).
    rewrite (split_word "Bearer" tok eq_refl), (split_spaceFree tok Ht). reflexivity.
Qed.

(** X22. Client and server agree on the header. After
    setAuthToken(token, user) with a non-empty token without spaces, the
    header the client sends makes the middleware hand the token, unchanged,
    to the verifier; a service rebuilt from localStorage is the same
    service; and after clearAuth() the client sends no header, a rebuilt
    service has no token, and the middleware answers 401. *)
Theorem client_server_token (tok userJson : string) (st : ApiService.Storage) :
  spaceFree tok = true -> tok <> "" -> userJson <> "" ->
  let '(svc, st1) := ApiService.setAuthToken tok userJson st in
  let '(svc2, st2) := ApiService.clearAuth st1 in
  authenticateToken verify (ApiService.authorization svc)
  = match verify tok with
    | Some user => Next user
    | None => Status403
    end
  /\ ApiService.create st1 = svc
  /\ ApiService.authorization svc2 = None
  /\ authenticateToken verify (ApiService.authorization svc2) = Status401
  /\ ApiService.create st2 = svc2.
Proof.
  intros Hfree Hne Hjson.
  cbv [ApiService.setAuthToken ApiService.clearAuth ApiService.authorization
       ApiService.token].
  apply String.eqb_neq in Hne, Hjson. rewrite Hne.
  split; [| split; [| repeat split]].
  - unfold authenticateToken. rewrite (bearer_token tok Hfree), Hne. reflexivity.
  - unfold ApiService.create, ApiService.setItem, ApiService.truthy; simpl.
    rewrite Hne, Hjson. reflexivity.
Qed.

End MiddlewareFacts.

Lemma authenticateToken_second_word_witness :
  spaceFree "Basic" = true /\ spaceFree "abc.def" = true /\ "abc.def" <> ""
  /\ authenticateToken (fun t => if (t =? "abc.def")%string then Some ada else None)
                       (Some "Basic abc.def") = Next ada.
Proof.
  assert (H : "abc.def" <> "") by discriminate.
  split; [reflexivity |]. split; [reflexivity |]. split; [exact H |].
  destruct (authenticateToken_second_word
              (fun t => if (t =? "abc.def")%string then Some ada else None))
    as (_ & _ & _ & H4 & _).
  exact (H4 "Basic" "abc.def" eq_refl eq_refl H).
Defined.

Lemma client_server_token_witness :
  spaceFree "abc.def" = true /\ "abc.def" <> "" /\ "{}" <> ""
  /\ authenticateToken (fun t => if (t =? "abc.def")%string then Some ada else None)
       (ApiService.authorization
          (fst (ApiService.setAuthToken "abc.def" "{}" (fun _ => None))))
     = Next ada.
Proof.
  assert (H1 : "abc.def" <> "") by discriminate.
  assert (H2 : "{}" <> "") by discriminate.
  split; [reflexivity |]. split; [exact H1 |]. split; [exact H2 |].
  exact (proj1 (client_server_token
                  (fun t => if (t =? "abc.def")%string then Some ada else None)
                  "abc.def" "{}" (fun _ => None) eq_refl H1 H2)).
Defined.

(** ** The month window *)

Lemma allFrom_spec (p : Z -> bool) (n : nat) (z : Z) :
  allFrom n z p = true -> forall x, z <= x < z + Z.of_nat n -> p x = true.
Proof.
  revert z. induction n as [| n IH]; intros z H x Hx; [lia |].
  simpl in H. apply andb_true_iff in H. destruct H as [Hz Hrest].
  destruct (Z.eq_dec x z) as [-> | Hne]; [exact Hz |].
  apply (IH (z + 1) Hrest). lia.
Qed.

Lemma yearOk_cycle : allFrom 400 0 yearOk = true.
Proof. vm_compute. reflexivity. Qed.

Lemma yearOfCycle_step (x : Z) :
  0 <= x < 146096 -> yearOfCycle x <= yearOfCycle (x + 1).
Proof.
  intros H. unfold yearOfCycle. apply Z.div_le_mono; [lia |].
  Z.div_mod_to_equations; lia.
Qed.

Lemma yearOfCycle_mono (x y : Z) :
  0 <= x <= y -> y <= 146096 -> yearOfCycle x <= yearOfCycle y.
Proof.
  intros [H0 Hxy]. revert y Hxy.
  apply (Z.right_induction (fun y => y <= 146096 -> yearOfCycle x <= yearOfCycle y)).
  - now intros ? ? ->.
  - intros _. apply Z.le_refl.
  - intros y Hxy IH Hy. unfold Z.succ in *.
    apply Z.le_trans with (yearOfCycle y); [apply IH; lia |].
    apply yearOfCycle_step. lia.
Qed.

Lemma yearOk_inv (y : Z) :
  0 <= y <= 399 ->
  yearOfCycle (yearStart y) = y /\ yearOfCycle (yearStart (y + 1) - 1) = y.
Proof.
  intros H.
  assert (Hok : yearOk y = true) by (apply (allFrom_spec _ _ _ yearOk_cycle); simpl; lia).
  unfold yearOk in Hok. apply andb_true_iff in Hok. destruct Hok as [H1 H2].
  split; apply Z.eqb_eq; assumption.
Qed.

Lemma yearStart_bounds (y : Z) :
  0 <= y <= 399 ->
  0 <= yearStart y <= 145731 /\ yearStart y < yearStart (y + 1) <= yearStart y + 366.
Proof. intros H. unfold yearStart. Z.div_mod_to_equations; lia. Qed.

Lemma yearOfCycle_bounds (doe : Z) :
  0 <= doe < 146097 ->
  0 <= yearOfCycle doe <= 399
  /\ yearStart (yearOfCycle doe) <= doe <= yearStart (yearOfCycle doe) + 365.
Proof.
  intros H.
  assert (Hy : 0 <= yearOfCycle doe <= 399).
  { split.
    - change 0 with (yearOfCycle 0) at 1. apply yearOfCycle_mono; lia.
    - change 399 with (yearOfCycle 146096). apply yearOfCycle_mono; lia. }
  split; [exact Hy |].
  set (y := yearOfCycle doe) in *.
  pose proof (yearStart_bounds y Hy) as [B1 B2].
  split.
  - destruct (Z.le_gt_cases (yearStart y) doe) as [Hle | Hgt]; [exact Hle | exfalso].
    assert (Hy1 : 1 <= y).
    { destruct (Z.eq_dec y 0) as [E | ?]; [| lia].
      rewrite E in Hgt. change (yearStart 0) with 0 in Hgt. lia. }
    destruct (yearOk_inv (y - 1) ltac:(lia)) as [_ E].
    replace (y - 1 + 1) with y in E by ring.
    assert (yearOfCycle doe <= yearOfCycle (yearStart y - 1))
      by (apply yearOfCycle_mono; lia).
    fold y in H0. lia.
  - destruct (Z.eq_dec y 399) as [E | Hne].
    + rewrite E. change (yearStart 399) with 145731. lia.
    + destruct (Z.le_gt_cases (yearStart (y + 1)) doe) as [Hle | Hgt]; [exfalso | lia].
      destruct (yearOk_inv (y + 1) ltac:(lia)) as [E _].
      assert (yearOfCycle (yearStart (y + 1)) <= yearOfCycle doe)
        by (apply yearOfCycle_mono; lia).
      fold y in H0. lia.
Qed.

Lemma civil_cycle (days : Z) :
  Js.civil days = civilOfCycle ((days + 719468) / 146097) ((days + 719468) mod 146097).
Proof. reflexivity. Qed.

Lemma civilOfCycle_month_start (era doe : Z) :
  0 <= doe < 146097 ->
  let '(y, m, d) := civilOfCycle era doe in
  1 <= d <= 31 /\ 0 <= doe - (d - 1) /\ civilOfCycle era (doe - (d - 1)) = (y, m, 1).
Proof.
  intros H. unfold civilOfCycle at 1. cbv zeta.
  destruct (yearOfCycle_bounds doe H) as [Hy [Hlo Hhi]].
  set (yoe := yearOfCycle doe) in *.
  set (doy := doe - yearStart yoe).
  set (mp := (5 * doy + 2) / 153).
  set (s := (153 * mp + 2) / 5).
  assert (Hdoy : 0 <= doy <= 365) by (unfold doy; lia).
  assert (Hs : 0 <= s <= doy /\ doy - s <= 30 /\ (5 * s + 2) / 153 = mp).
  { unfold s, mp. clearbody doy. clear - Hdoy. Z.div_mod_to_equations. lia. }
  destruct Hs as (Hs1 & Hs2 & Hs3).
  pose proof (yearStart_bounds yoe Hy) as [B1 _].
  split; [lia |]. split; [lia |].
  assert (E : doe - (doy - s + 1 - 1) = yearStart yoe + s) by (unfold doy; ring).
  rewrite E.
  assert (Hyoe : yearOfCycle (yearStart yoe + s) = yoe).
  { destruct (yearOk_inv yoe Hy) as [E1 _].
    assert (yearOfCycle (yearStart yoe) <= yearOfCycle (yearStart yoe + s))
      by (apply yearOfCycle_mono; lia).
    assert (yearOfCycle (yearStart yoe + s) <= yearOfCycle doe)
      by (apply yearOfCycle_mono; unfold doy in *; lia).
    fold yoe in H1. lia. }
  unfold civilOfCycle. cbv zeta. rewrite Hyoe.
  replace (yearStart yoe + s - yearStart yoe) with s by ring.
  rewrite Hs3. fold s.
  f_equal. ring.
Qed.

Lemma civil_month_start (days : Z) :
  let '(y, m, d) := Js.civil days in
  Js.civil (days - (d - 1)) = (y, m, 1) /\ 1 <= d <= 31.
Proof.
  rewrite civil_cycle.
  set (era := (days + 719468) / 146097).
  set (doe := (days + 719468) mod 146097).
  assert (Hdoe : 0 <= doe < 146097) by (apply Z.mod_pos_bound; lia).
  assert (E : days + 719468 = 146097 * era + doe) by (apply Z.div_mod; lia).
  pose proof (civilOfCycle_month_start era doe Hdoe) as H.
  destruct (civilOfCycle era doe) as [[y m] d].
  destruct H as (Hd & Hpos & H).
  split; [| exact Hd].
  rewrite civil_cycle.
  assert (E' : days - (d - 1) + 719468 = 146097 * era + (doe - (d - 1))) by lia.
  rewrite <- (Z.div_unique _ 146097 era (doe - (d - 1))) by (try exact E'; lia).
  rewrite <- (Z.mod_unique _ 146097 era (doe - (d - 1))) by (try exact E'; lia).
  exact H.
Qed.

(** X23. The month filter starts on the first day of the server's current
    month: setDate(1) moves the local date back to day 1 of the same year
    and month, never into another month, at the same local time of day.
    With a fixed offset from UTC the bound is the instant d - 1 days before
    now, where d is the local day of the month. The condition compares
    stored dates with the UTC date of that instant: day 1 of the current
    month for a server in UTC, but 2 January for a server eight hours
    behind UTC at 02:00 UTC on 1 February 2024, and 31 January for a server
    nine hours ahead at 20:00 UTC on 10 February 2024. *)
Theorem month_filter_first_day (tz : Js.TimeZone) (now : Z) :
  let '(y, m, d) := Js.civil (Js.Day (Js.LocalTime tz now)) in
  dateRangeCond tz (Some "month") now = DateGte (Js.toISODate (startOfMonth tz now))
  /\ startOfMonth tz now = Js.UTC tz (Js.LocalTime tz now - (d - 1) * Js.msPerDay)
  /\ Js.civil (Js.Day (Js.LocalTime tz now - (d - 1) * Js.msPerDay)) = (y, m, 1)
  /\ 1 <= d <= 31
  /\ (forall off, tz = Js.fixedOffset off ->
        startOfMonth tz now = now - (d - 1) * Js.msPerDay
        /\ Js.getDate tz (startOfMonth tz now) = 1
        /\ now - 30 * Js.msPerDay <= startOfMonth tz now <= now)
  /\ (tz = Js.utc ->
        dateRangeCond tz (Some "month") now = DateGte (Js.isoDate y m 1))
  /\ dateRangeCond pacific (Some "month") (jan1 + 31 * Js.msPerDay + 7200000)
     = DateGte "2024-01-02"
  /\ dateRangeCond tokyo (Some "month") (jan1 + 40 * Js.msPerDay + 72000000)
     = DateGte "2024-01-31".
Proof.
  pose proof (civil_month_start (Js.Day (Js.LocalTime tz now))) as H.
  assert (E : startOfMonth tz now
              = let '(_, _, d) := Js.civil (Js.Day (Js.LocalTime tz now)) in
                Js.UTC tz (Js.LocalTime tz now - (d - 1) * Js.msPerDay)).
  { unfold startOfMonth, Js.setDate. cbv zeta.
    destruct (Js.civil (Js.Day (Js.LocalTime tz now))) as [[y m] d].
    f_equal. ring. }
  assert (Ec : forall d,
             Js.Day (Js.LocalTime tz now - (d - 1) * Js.msPerDay)
             = Js.Day (Js.LocalTime tz now) - (d - 1)).
  { intros d.
    replace (Js.LocalTime tz now - (d - 1) * Js.msPerDay)
      with (Js.LocalTime tz now + (- (d - 1)) * Js.msPerDay) by ring.
    rewrite Day_shift. ring. }
  destruct (Js.civil (Js.Day (Js.LocalTime tz now))) as [[y m] d].
  destruct H as [H Hd].
  split; [reflexivity |]. split; [exact E |].
  split; [rewrite Ec; exact H |]. split; [exact Hd |].
  split.
  { intros off ->. rewrite E.
    assert (E' : Js.UTC (Js.fixedOffset off)
                        (Js.LocalTime (Js.fixedOffset off) now - (d - 1) * Js.msPerDay)
                 = now - (d - 1) * Js.msPerDay)
      by (unfold Js.UTC, Js.LocalTime; simpl; ring).
    rewrite E'. split; [reflexivity |].
    split; [| unfold Js.msPerDay; lia].
    unfold Js.getDate.
    replace (Js.LocalTime (Js.fixedOffset off) (now - (d - 1) * Js.msPerDay))
      with (Js.LocalTime (Js.fixedOffset off) now - (d - 1) * Js.msPerDay)
      by (unfold Js.LocalTime; simpl; ring).
    rewrite Ec, H. reflexivity. }
  split.
  { intros ->.
    change (dateRangeCond Js.utc (Some "month") now)
      with (DateGte (Js.toISODate (startOfMonth Js.utc now))).
    rewrite E. unfold Js.toISODate.
    replace (Js.UTC Js.utc (Js.LocalTime Js.utc now - (d - 1) * Js.msPerDay))
      with (Js.LocalTime Js.utc now - (d - 1) * Js.msPerDay)
      by (unfold Js.UTC, Js.LocalTime; simpl; ring).
    rewrite Ec, H. reflexivity. }
  split; vm_compute; reflexivity.
Qed.

(** ** Who may track time *)

(** X24. The timer endpoints look at the caller's id only, never at the
    role: a caller of any role whose user document exists and who has no
    open timer can start one, administrators included. The admin dashboard
    then counts one more running timer and the same number of team
    members. *)
Theorem timer_of_any_role (tz : Js.TimeZone) (c a : Caller.t) (project task : string)
    (now now' : Z)
    (s : Store) :
  Caller.role a = admin ->
  canCreate c project task ("timer_" ++ Js.ToString now) s = true ->
  activeOf (Caller.id c) s = [] ->
  exists timer s' st st',
    run (startTimer c project task now) s = inr (timer, s')
    /\ TimeRecord.userId timer = Caller.id c
    /\ run (adminStats tz a now') s = inr (st, s)
    /\ run (adminStats tz a now') s' = inr (st', s')
    /\ AdminStats.activeTimersNow st' = AdminStats.activeTimersNow st + 1
    /\ AdminStats.totalTeamMembers st' = AdminStats.totalTeamMembers st.
Proof.
  intros Ha Hcan Hnone.
  rewrite activeOf_matches in Hnone.
  assert (Hfirst : findFirst (matches (runningQuery (Some (Caller.id c))))
                             (timeRecords s) = None).
  { apply findFirst_None. intros x Hx.
    destruct (matches _ x) eqn:E; [| reflexivity].
    assert (Hin : In x (List.filter (matches (runningQuery (Some (Caller.id c))))
                                    (timeRecords s)))
      by (apply filter_In; split; assumption).
    rewrite Hnone in Hin. contradiction. }
  destruct (canCreate_inv _ _ _ _ _ Hcan) as (u & Hu & Hc & Hp & Ht & He & Hid).
  exists (newTimer c u project task now),
         (mkStore (users s) (timeRecords s ++ [newTimer c u project task now])).
  rewrite startTimer_run, Hfirst, Hu. cbv zeta.
  rewrite newTimer_valid, Hc, Hp, Ht, He.
  change (TimeRecord.id (newTimer c u project task now))
    with ("timer_" ++ Js.ToString now).
  rewrite Hid. cbn [negb andb].
  rewrite !adminStats_run, Ha. cbv zeta.
  do 2 eexists.
  split; [reflexivity |]. split; [reflexivity |].
  split; [reflexivity |]. split; [reflexivity |].
  cbn [AdminStats.activeTimersNow AdminStats.totalTeamMembers timeRecords users].
  split; [| reflexivity].
  rewrite filter_app, length_app. cbn. lia.
Qed.

Lemma timer_of_any_role_witness :
  Caller.role root = admin
  /\ canCreate root "Ops" "Audit" ("timer_" ++ Js.ToString 5000) office = true
  /\ activeOf (Caller.id root) office = []
  /\ exists timer s',
       run (startTimer root "Ops" "Audit" 5000) office = inr (timer, s')
       /\ TimeRecord.userId timer = "admin_001".
Proof.
  split; [reflexivity |]. split; [vm_compute; reflexivity |]. split; [reflexivity |].
  destruct (timer_of_any_role Js.utc root root "Ops" "Audit" 5000 6000 office
              eq_refl eq_refl eq_refl)
    as (timer & s' & _ & _ & Hrun & Hid & _).
  exists timer, s'. split; [exact Hrun | exact Hid].
Defined.

(** ** Two start requests at once *)

Lemma startTimer_resume_run (c : Caller.t) (project task : string) (now : Z) (s : Store) :
  run (startTimer_resume c project task now None) s =
  match List.find (fun u => (User.id u =? Caller.id c)%string) (users s) with
  | None => inl InternalError
  | Some user =>
      let timer := newTimer c user project task now in
      if TimeRecord.valid timer
         && negb (List.existsb
                    (fun x => (TimeRecord.id x =? TimeRecord.id timer)%string)
                    (timeRecords s))
      then inr (timer, mkStore (users s) (timeRecords s ++ [timer])%list)
      else inl InternalError
  end.
Proof.
  unfold startTimer_resume. step_run.
  destruct (List.find _ _) as [u |]; step_run; [| reflexivity].
  destruct (_ && _); step_run; reflexivity.
Qed.

(** X25. The start handler's check and its insert are two operations on
    the database. When a user without a running record sends two
    well-formed start requests and both checks run before either insert,
    both requests succeed and the user has two running records; handled
    one after the other, the second is refused. *)
Theorem overlapping_starts (c : Caller.t) (p1 t1 p2 t2 : string) (n1 n2 : Z)
    (s : Store) :
  activeOf (Caller.id c) s = [] ->
  canCreate c p1 t1 ("timer_" ++ Js.ToString n1) s = true ->
  canCreate c p2 t2 ("timer_" ++ Js.ToString n2) s = true ->
  n1 <> n2 ->
  (forall project task now,
      startTimer c project task now
      = (existingTimer <- startTimer_check c ;;
         startTimer_resume c project task now existingTimer))
  /\ run (startTimer_check c) s = inr (None, s)
  /\ exists r1 r2 s1 s2,
       run (startTimer_resume c p1 t1 n1 None) s = inr (r1, s1)
       /\ run (startTimer_resume c p2 t2 n2 None) s1 = inr (r2, s2)
       /\ activeOf (Caller.id c) s2 = [r1; r2]
       /\ TimeRecord.isRunning r1 = true
       /\ TimeRecord.isRunning r2 = true
       /\ run (startTimer c p1 t1 n1) s = inr (r1, s1)
       /\ run (startTimer c p2 t2 n2) s1 = inl ConflictError.
Proof.
  intros Hnil Hcan1 Hcan2 Hne.
  split; [reflexivity |].
  assert (Hnone : findFirst (matches (runningQuery (Some (Caller.id c))))
                            (timeRecords s) = None).
  { apply findFirst_None. rewrite activeOf_matches in Hnil.
    apply filter_nil_iff. exact Hnil. }
  split; [unfold startTimer_check; rewrite TimeRecord_findOne_run, Hnone; reflexivity |].
  destruct (canCreate_inv _ _ _ _ _ Hcan1) as (u & Hu & Hc & Hp1 & Ht1 & He & Hid1).
  destruct (canCreate_inv _ _ _ _ _ Hcan2) as (u' & Hu' & _ & Hp2 & Ht2 & _ & Hid2).
  rewrite Hu in Hu'. injection Hu' as <-.
  set (r1 := newTimer c u p1 t1 n1). set (r2 := newTimer c u p2 t2 n2).
  set (s1 := mkStore (users s) (timeRecords s ++ [r1])).
  set (s2 := mkStore (users s) ((timeRecords s ++ [r1]) ++ [r2])).
  assert (E1 : run (startTimer_resume c p1 t1 n1 None) s = inr (r1, s1)).
  { rewrite startTimer_resume_run, Hu. cbv zeta.
    rewrite newTimer_valid, Hc, Hp1, Ht1, He.
    change (TimeRecord.id (newTimer c u p1 t1 n1)) with ("timer_" ++ Js.ToString n1).
    rewrite Hid1. reflexivity. }
  assert (Hids : (TimeRecord.id r1 =? "timer_" ++ Js.ToString n2)%string = false).
  { apply String.eqb_neq. unfold r1, newTimer. cbn [TimeRecord.id].
    intros H. injection H as H. apply Hne, ToString_inj, H. }
  assert (E2 : run (startTimer_resume c p2 t2 n2 None) s1 = inr (r2, s2)).
  { rewrite startTimer_resume_run. cbn [users timeRecords s1]. rewrite Hu. cbv zeta.
    rewrite newTimer_valid, Hc, Hp2, Ht2, He.
    change (TimeRecord.id (newTimer c u p2 t2 n2)) with ("timer_" ++ Js.ToString n2).
    rewrite existsb_app, Hid2. cbn [existsb orb].
    rewrite Hids. reflexivity. }
  assert (Hact1 : activeOf (Caller.id c) s1 = [r1]).
  { unfold activeOf, owned, s1. cbn [timeRecords]. rewrite !filter_app.
    fold (owned (Caller.id c) s). fold (activeOf (Caller.id c) s). rewrite Hnil.
    simpl. rewrite String.eqb_refl. reflexivity. }
  exists r1, r2, s1, s2.
  split; [exact E1 |]. split; [exact E2 |].
  split.
  { unfold activeOf, owned, s2. cbn [timeRecords]. rewrite !filter_app.
    fold (owned (Caller.id c) s). fold (activeOf (Caller.id c) s). rewrite Hnil.
    simpl. rewrite String.eqb_refl. reflexivity. }
  split; [reflexivity |]. split; [reflexivity |].
  split.
  { rewrite startTimer_run, Hnone. rewrite startTimer_resume_run in E1. exact E1. }
  apply startTimer_conflict. rewrite <- hasActive_findFirst.
  exists r1. split; [unfold s1; cbn [timeRecords]; apply in_or_app; right; left; reflexivity |].
  split; [reflexivity | left; reflexivity].
Qed.

Lemma overlapping_starts_witness :
  activeOf (Caller.id ada) office = []
  /\ canCreate ada "Compiler" "Parser" ("timer_" ++ Js.ToString 5000) office = true
  /\ canCreate ada "Compiler" "Lexer" ("timer_" ++ Js.ToString 5001) office = true
  /\ 5000 <> 5001
  /\ exists r1 r2 s1 s2,
       run (startTimer_resume ada "Compiler" "Parser" 5000 None) office = inr (r1, s1)
       /\ run (startTimer_resume ada "Compiler" "Lexer" 5001 None) s1 = inr (r2, s2)
       /\ activeOf (Caller.id ada) s2 = [r1; r2].
Proof.
  assert (N : 5000 <> 5001) by discriminate.
  split; [reflexivity |]. split; [vm_compute; reflexivity |].
  split; [vm_compute; reflexivity |]. split; [exact N |].
  destruct (overlapping_starts ada "Compiler" "Parser" "Compiler" "Lexer" 5000 5001 office
              eq_refl eq_refl eq_refl N)
    as (_ & _ & r1 & r2 & s1 & s2 & H1 & H2 & H3 & _).
  exists r1, r2, s1, s2. split; [exact H1 |]. split; [exact H2 | exact H3].
Defined.
